(** * WhatsApp ordering bot: the conversation routing core

    A shallow embedding of [whatsapp_bot/bot_blueprint.py] and
    [whatsapp_bot/ai_router.py]: the message deduper, the postback command
    codec, the note-capture flow, the text router with its deterministic
    fast paths and its classifier tier, and the recommendation engine.

    Conventions of the embedding.
    - A Python [str] is a Rocq [string]; non-ASCII literals of the source
      (such as the multiplication sign) are their UTF-8 bytes.  Whitespace
      and letter case are classified on the ASCII range, where the model
      coincides with Python; slices count bytes.
    - A Python [int] is a [Z]; [time.time()] is a [Z] number of seconds.
    - Dictionaries keyed by strings are [gmap string _].
    - Calls that leave the module (backend, messaging API, classifier) are
      recorded in a trace and answered by a [Backend] over an explicit
      world state; a call that raises is a [Raise] result.
    - The menu payload is a decoded JSON document; reading it raises where
      the Python operations do ([get] on a value that is not a dict, a
      missing key, [int] of [None]). *)

From Stdlib Require Import ZArith Lia Ascii String DecimalString DecimalZ Sorted.
From stdpp Require Import base option gmap strings list.

Open Scope Z_scope.

(* ================================================================== *)
(** * Part I: definitions                                              *)
(* ================================================================== *)

(** ** Python string primitives *)

Module PyStr.

(** [str.isspace] on the ASCII range: TAB..CR, FS..US and the space. *)
Definition is_space (c : ascii) : bool :=
  let n := nat_of_ascii c in
  ((9 <=? n)%nat && (n <=? 13)%nat) || ((28 <=? n)%nat && (n <=? 32)%nat).

Definition is_digit (c : ascii) : bool :=
  let n := nat_of_ascii c in (48 <=? n)%nat && (n <=? 57)%nat.

Definition lower_char (c : ascii) : ascii :=
  let n := nat_of_ascii c in
  if (65 <=? n)%nat && (n <=? 90)%nat then ascii_of_nat (n + 32) else c.

Definition upper_char (c : ascii) : ascii :=
  let n := nat_of_ascii c in
  if (97 <=? n)%nat && (n <=? 122)%nat then ascii_of_nat (n - 32) else c.

Fixpoint map_chars (f : ascii -> ascii) (s : string) : string :=
  match s with
  | EmptyString => EmptyString
  | String c r => String (f c) (map_chars f r)
  end.

(** [s.lower()] and [s.upper()] *)
Definition lower : string -> string := map_chars lower_char.
Definition upper : string -> string := map_chars upper_char.

Fixpoint lstrip (s : string) : string :=
  match s with
  | EmptyString => EmptyString
  | String c r => if is_space c then lstrip r else s
  end.

Fixpoint rstrip (s : string) : string :=
  match s with
  | EmptyString => EmptyString
  | String c r =>
      match rstrip r with
      | EmptyString => if is_space c then EmptyString else String c EmptyString
      | r' => String c r'
      end
  end.

(** [s.strip()] *)
Definition strip (s : string) : string := rstrip (lstrip s).

(** [p] is a prefix of [s] *)
Fixpoint prefix (p s : string) : bool :=
  match p with
  | EmptyString => true
  | String a p' =>
      match s with
      | EmptyString => false
      | String b s' => Ascii.eqb a b && prefix p' s'
      end
  end.

(** [s.startswith(p)] *)
Definition startswith (s p : string) : bool := prefix p s.

(** [p in s] *)
Fixpoint contains (p s : string) : bool :=
  prefix p s
  || match s with
     | EmptyString => false
     | String _ r => contains p r
     end.

(** [any(x in s for x in ws)] *)
Definition any_in (ws : list string) (s : string) : bool :=
  existsb (fun w => contains w s) ws.

(** [s[n:]] and [s[:n]] for [n >= 0] *)
Fixpoint drop (n : nat) (s : string) : string :=
  match n, s with
  | O, _ => s
  | S _, EmptyString => EmptyString
  | S k, String _ r => drop k r
  end.

Fixpoint take (n : nat) (s : string) : string :=
  match n, s with
  | O, _ => EmptyString
  | S _, EmptyString => EmptyString
  | S k, String c r => String c (take k r)
  end.

Definition cons_head (c : ascii) (l : list string) : list string :=
  match l with
  | [] => [String c EmptyString]
  | h :: t => String c h :: t
  end.

(** The worker of [split]: [n] is the number of splits still allowed and
    [skip] the number of characters of a matched separator still to pass. *)
Fixpoint split_go (sep : string) (n skip : nat) (s : string) : list string :=
  match s with
  | EmptyString => [EmptyString]
  | String c r =>
      match skip with
      | S k => split_go sep n k r
      | O =>
          match n with
          | S n' =>
              if prefix sep s
              then EmptyString :: split_go sep n' (String.length sep - 1) r
              else cons_head c (split_go sep n 0 r)
          | O => cons_head c (split_go sep O 0 r)
          end
      end
  end.

(** [s.split(sep, maxsplit)] for a non-empty [sep] *)
Definition split_max (sep : string) (maxsplit : nat) (s : string) : list string :=
  split_go sep maxsplit 0 s.

(** [s.split(sep)] for a non-empty [sep] *)
Definition split (sep : string) (s : string) : list string :=
  split_go sep (String.length s) 0 s.

(** The worker of [replace], with the same [skip] counter as [split_go]. *)
Fixpoint replace_go (old new : string) (skip : nat) (s : string) : string :=
  match s with
  | EmptyString => EmptyString
  | String c r =>
      match skip with
      | S k => replace_go old new k r
      | O =>
          if prefix old s
          then new +:+ replace_go old new (String.length old - 1) r
          else String c (replace_go old new 0 r)
      end
  end.

(** [s.replace(old, new)] for a non-empty [old] *)
Definition replace (old new s : string) : string := replace_go old new 0 s.

(** [sep.join(l)] *)
Fixpoint join (sep : string) (l : list string) : string :=
  match l with
  | [] => EmptyString
  | [x] => x
  | x :: t => x +:+ sep +:+ join sep t
  end.

(** [''.join(filter(str.isdigit, s))] *)
Fixpoint filter_digits (s : string) : string :=
  match s with
  | EmptyString => EmptyString
  | String c r => if is_digit c then String c (filter_digits r) else filter_digits r
  end.

(** [str(z)] for an integer *)
Definition str_of_int (z : Z) : string := NilZero.string_of_int (Z.to_int z).

(** The digit part of an integer literal as [int()] accepts it: decimal
    digits, single underscores allowed between two digits.  [prev] tells
    whether the previous character was a digit. *)
Fixpoint digits_ok (prev : bool) (s : string) : bool :=
  match s with
  | EmptyString => prev
  | String c r =>
      if is_digit c then digits_ok true r
      else if Ascii.eqb c "_" then prev && digits_ok false r
      else false
  end.

Fixpoint drop_underscores (s : string) : string :=
  match s with
  | EmptyString => EmptyString
  | String c r =>
      if Ascii.eqb c "_" then drop_underscores r else String c (drop_underscores r)
  end.

Definition parse_unsigned (s : string) : option Z :=
  if digits_ok false s
  then Z.of_uint <$> NilEmpty.uint_of_string (drop_underscores s)
  else None.

(** [int(s)] for a string; [None] stands for [ValueError]. *)
Definition int_of_str (s : string) : option Z :=
  match strip s with
  | EmptyString => None
  | String c r =>
      if Ascii.eqb c "-" then Z.opp <$> parse_unsigned r
      else if Ascii.eqb c "+" then parse_unsigned r
      else parse_unsigned (String c r)
  end.

(** [all(p(c) for c in s)] *)
Fixpoint all_chars (p : ascii -> bool) (s : string) : bool :=
  match s with
  | EmptyString => true
  | String c r => p c && all_chars p r
  end.

(** [s.count(c)] for a character *)
Fixpoint count_char (c : ascii) (s : string) : nat :=
  match s with
  | EmptyString => O
  | String a r => (if Ascii.eqb a c then 1 else 0) + count_char c r
  end.

(** The characters of a rendered integer. *)
Definition is_token_char (c : ascii) : bool :=
  is_digit c || Ascii.eqb c "-".

End PyStr.

(** ** Dynamically typed values that reach the codec and the state store *)

Inductive pyval : Type :=
| PNone
| PInt (z : Z)
| PStr (s : string).

(** [str(v)] *)
Definition py_str (v : pyval) : string :=
  match v with
  | PNone => "None"
  | PInt z => PyStr.str_of_int z
  | PStr s => s
  end.

(** Truthiness of a value, as [if v:] and [not v] use it. *)
Definition py_truthy (v : pyval) : bool :=
  match v with
  | PNone => false
  | PInt z => negb (z =? 0)
  | PStr s => negb (String.eqb s "")
  end.

(** ** Command codec: [_safe_int], [_parse_cmd], [_cmd] *)

(** [_safe_int(val, default)]; the result is the integer or the default. *)
Definition _safe_int (val : pyval) (default : option Z) : option Z :=
  match val with
  | PNone => default
  | _ =>
      let s := PyStr.strip (py_str val) in
      if String.eqb s "" || String.eqb s "None" || String.eqb s "null"
      then default
      else match PyStr.int_of_str s with
           | Some z => Some z
           | None => default
           end
  end.

(** The 5-tuple [_parse_cmd] returns. *)
Record parsed_cmd : Type := ParsedCmd {
  pc_ok : bool;
  pc_action : option string;
  pc_item_id : option Z;
  pc_variant_id : option Z;
  pc_arg : pyval
}.

Definition parse_failed : parsed_cmd := ParsedCmd false None None None PNone.

Definition opt_int (o : option Z) : pyval :=
  match o with
  | Some z => PInt z
  | None => PNone
  end.

Definition _parse_cmd (s : string) : parsed_cmd :=
  match PyStr.split_max "|" 4 (PyStr.strip s) with
  | [t; action; i; v; arg] =>
      if negb (String.eqb t "CART") then parse_failed
      else
        let item_id := _safe_int (PStr i) None in
        let variant_id := _safe_int (PStr v) None in
        let arg_val :=
          if String.eqb arg "" || String.eqb arg "None"
          then PStr arg
          else opt_int (_safe_int (PStr arg) None) in
        ParsedCmd true (Some action) item_id variant_id arg_val
  | _ => parse_failed
  end.

Definition _cmd (action : string) (item_id variant_id : option Z) (arg : pyval)
  : string :=
  let safe_item := default 0 item_id in
  let safe_variant := default 0 variant_id in
  "CART|" +:+ action +:+ "|" +:+ PyStr.str_of_int safe_item +:+ "|"
    +:+ PyStr.str_of_int safe_variant +:+ "|" +:+ py_str arg.

(** ** Message deduper: [_claim_once] *)

(** [_DEDUP_TTL], the value used when [DEDUPE_TTL_SEC] is not set (48h). *)
Definition _DEDUP_TTL : Z := 172800.

(** The key under which a message is remembered.  [msg_id] is [None] when
    the message carries no id; [payload_hash] is [hash(pkt)] of the
    serialised payload, used when the id is missing or empty. *)
Definition dedupe_key (kind wa_id : string) (msg_id : option string)
    (payload_hash : Z) : string :=
  match msg_id with
  | Some m =>
      if String.eqb m "" then
        "dedupe:" +:+ kind +:+ ":" +:+ wa_id +:+ ":" +:+ PyStr.str_of_int payload_hash
      else "dedupe:" +:+ kind +:+ ":" +:+ wa_id +:+ ":" +:+ m
  | None =>
      "dedupe:" +:+ kind +:+ ":" +:+ wa_id +:+ ":" +:+ PyStr.str_of_int payload_hash
  end.

(** The best-effort sweep: entries with [exp < now] are popped. *)
Definition sweep (now : Z) (seen : gmap string Z) : gmap string Z :=
  filter (fun kv => ¬ (kv.2 < now)) seen.

(** [_claim_once(kind, wa_id, msg_id, payload)] run at time [now] with the
    table [_seen] holding [seen] and the time-to-live [ttl]: the returned
    boolean and the table afterwards. *)
Definition claim_once_at (ttl : Z) (kind wa_id : string) (msg_id : option string)
    (payload_hash : Z) (now : Z) (seen : gmap string Z) : bool * gmap string Z :=
  let key := dedupe_key kind wa_id msg_id payload_hash in
  let seen1 :=
    if negb (size seen =? 0)%nat && (size seen mod 100 =? 0)%nat
    then sweep now seen else seen in
  match seen1 !! key with
  | Some _ => (false, seen1)
  | None => (true, <[key := now + ttl]> seen1)
  end.

Definition _claim_once := claim_once_at _DEDUP_TTL.

(** Two successive claims of the same message, at times [t1] and [t2],
    starting from the table [seen]: the pair of answers. *)
Definition claim_twice (ttl : Z) (kind wa_id : string) (msg_id : option string)
    (payload_hash : Z) (t1 t2 : Z) (seen : gmap string Z) : bool * bool :=
  let r1 := claim_once_at ttl kind wa_id msg_id payload_hash t1 seen in
  let r2 := claim_once_at ttl kind wa_id msg_id payload_hash t2 r1.2 in
  (r1.1, r2.1).

(** ** Exceptions, results and the data exchanged with the outside *)

(** A raised exception, by the name of its class. *)
Inductive exn : Type := Exn (cls : string).

Inductive result (A : Type) : Type :=
| Ok (a : A)
| Raise (e : exn).
Arguments Ok {A} a.
Arguments Raise {A} e.

(** A cart line of the backend's cart snapshot. *)
Record cart_item : Type := CartItem {
  ci_item_id : Z;
  ci_name : string;
  ci_qty : Z;
  ci_price : Z
}.

(** One operation of [update_cart(user_id, ops)]. *)
Inductive cart_op : Type :=
| OpSetNote (item_id : Z) (variant_id : pyval) (note : string)
| OpRemove (item_id : Z)
| OpSetQty (item_id qty : Z).

(** The order object of [checkout] and [fetch_order]. *)
Record order : Type := Order {
  ord_code : pyval;
  ord_id : pyval;
  ord_status : string;
  ord_items : list cart_item
}.

(** A menu of the shape that the docstring of [fetch_menu] gives: items
    with an id, a name, an integer price and tags, grouped in categories. *)
Record menu_item : Type := MenuItem {
  mi_id : Z;
  mi_name : string;
  mi_price : Z;
  mi_tags : list string
}.

Record category : Type := Category {
  cat_name : string;
  cat_items : list menu_item
}.

(** The categories of such a menu. *)
Definition menu : Type := list category.

(** ** The structured intent of [ai_router.py] *)

Inductive action : Type :=
| ADD_TO_CART | SHOW_MENU | ASK_QUESTION | CHECKOUT
| ORDER_STATUS | VIEW_CART | CLEAR_CART | SMALL_TALK
| EDIT_SET_QTY | EDIT_REMOVE | EDIT_CHANGE_VARIANT | EDIT_SET_NOTE.

Inductive fulfillment : Type := Pickup | Delivery.

Record LineItem : Type := MkLineItem {
  li_item_id : option string;
  li_item_name : option string;
  li_qty : Z;
  li_options : list (string * pyval)
}.

Record ParsedOrder : Type := MkParsedOrder {
  po_action : action;
  po_items : list LineItem;
  po_target_item_name : option string;
  po_target_item_id : option string;
  po_target_variant_name : option string;
  po_target_variant_id : option string;
  po_new_qty : option Z;
  po_new_variant_name : option string;
  po_new_variant_id : option string;
  po_note_text : option string;
  po_budget_kes : option Z;
  po_dietary : list string;
  po_spice_level : option string;
  po_fulfillment : option fulfillment;
  po_delivery_address : option string;
  po_order_code : option string;
  po_clarifications : list string;
  po_reasoning_notes : option string;
  po_response_text : option string
}.

(** The value of the [except] branch of [llm_route]: every field that the
    constructor call does not name takes its default. *)
Definition fallback_order : ParsedOrder :=
  {| po_action := SMALL_TALK;
     po_items := [];
     po_target_item_name := None;
     po_target_item_id := None;
     po_target_variant_name := None;
     po_target_variant_id := None;
     po_new_qty := None;
     po_new_variant_name := None;
     po_new_variant_id := None;
     po_note_text := None;
     po_budget_kes := None;
     po_dietary := [];
     po_spice_level := None;
     po_fulfillment := None;
     po_delivery_address := None;
     po_order_code := None;
     po_clarifications := [];
     po_reasoning_notes := None;
     po_response_text :=
       Some "Sorry, I didn't catch that. Could you try again or ask for the menu?" |}.

(** A JSON document, as [json.loads] returns it. *)
#[warnings="-register-all"]
Inductive json : Type :=
| JNull
| JBool (b : bool)
| JNum (z : Z)
| JStr (s : string)
| JArr (l : list json)
| JObj (l : list (string * json)).

(** The part of a chat completion that [llm_route] reads:
    [resp.choices[i].message.tool_calls[j].function.arguments]. *)
Record tool_call : Type := ToolCall { tc_arguments : string }.
Record choice : Type := Choice { ch_tool_calls : option (list tool_call) }.
Record completion : Type := Completion { choices : list choice }.

(** ** Calls that leave the module *)

Inductive event : Type :=
| EvGetCart (wa_id : string)
| EvAddToCart (wa_id : string) (item_id qty : Z)
| EvUpdateCart (wa_id : string) (ops : list cart_op)
| EvClearCart (wa_id : string)
| EvCheckout (wa_id name phone method : string)
| EvFetchOrder (code : string)
| EvFetchMenu
| EvFetchMenuPdfUrls
| EvUpdateLastOrder (wa_id : string)
| EvLlmRoute (positional : nat) (keywords : list string)
| EvChatCreate (prompt : string)
| EvSendText (wa_id text : string)
| EvSendDocument (wa_id url caption : string)
| EvSendList (wa_id body : string) (sections : list json)
| EvSleep.

(** The calls that change the cart or place an order. *)
Definition is_cart_mutation (e : event) : bool :=
  match e with
  | EvAddToCart _ _ _ | EvUpdateCart _ _ | EvClearCart _ | EvCheckout _ _ _ _ => true
  | _ => false
  end.

(** The messages sent to the customer. *)
Definition is_outbound (e : event) : bool :=
  match e with
  | EvSendText _ _ | EvSendDocument _ _ _ | EvSendList _ _ _ => true
  | _ => false
  end.

(** ** Pure steps that may raise *)

Definition r_bind {A B} (r : result A) (k : A -> result B) : result B :=
  match r with
  | Ok a => k a
  | Raise e => Raise e
  end.

(** [[f(x) for x in l]]: the elements in order, up to the first that raises. *)
Fixpoint map_result {A B} (f : A -> result B) (l : list A) : result (list B) :=
  match l with
  | [] => Ok []
  | x :: r =>
      r_bind (f x) (fun y => r_bind (map_result f r) (fun ys => Ok (y :: ys)))
  end.

(** [[x for x in l if f(x)]] *)
Fixpoint filter_result {A} (f : A -> result bool) (l : list A) : result (list A) :=
  match l with
  | [] => Ok []
  | x :: r =>
      r_bind (f x) (fun keep =>
      r_bind (filter_result f r) (fun xs => Ok (if (keep : bool) then x :: xs else xs)))
  end.

(** ** Python's operations on the values of a decoded JSON document

    An object is the list of its items in insertion order, each key
    once.  The numbers of the documents read here are integers. *)

(** Truthiness, as [v or d] and [if v] read it. *)
Definition json_truthy (v : json) : bool :=
  match v with
  | JNull => false
  | JBool b => b
  | JNum z => negb (z =? 0)
  | JStr s => negb (String.eqb s "")
  | JArr l => match l with [] => false | _ => true end
  | JObj l => match l with [] => false | _ => true end
  end.

(** [v or d] *)
Definition json_or (v d : json) : json := if json_truthy v then v else d.

Definition json_lookup (k : string) (l : list (string * json)) : option json :=
  snd <$> List.find (fun kv => String.eqb kv.1 k) l.

(** [v.get(k, d)]: only a dict has [get]. *)
Definition json_get (v : json) (k : string) (d : json) : result json :=
  match v with
  | JObj l => Ok (default d (json_lookup k l))
  | _ => Raise (Exn "AttributeError")
  end.

(** [v[k]] for a string key [k]. *)
Definition json_item (v : json) (k : string) : result json :=
  match v with
  | JObj l =>
      match json_lookup k l with
      | Some x => Ok x
      | None => Raise (Exn "KeyError")
      end
  | _ => Raise (Exn "TypeError")
  end.

(** [for x in v]: the elements of a list, the keys of a dict, the
    characters of a string. *)
Definition json_iter (v : json) : result (list json) :=
  match v with
  | JArr l => Ok l
  | JObj l => Ok (map (fun kv => JStr kv.1) l)
  | JStr s => Ok (map (fun c => JStr (String c EmptyString)) (list_ascii_of_string s))
  | _ => Raise (Exn "TypeError")
  end.

(** [v.lower()] *)
Definition json_lower (v : json) : result string :=
  match v with
  | JStr s => Ok (PyStr.lower s)
  | _ => Raise (Exn "AttributeError")
  end.

(** [int(v)] *)
Definition json_int (v : json) : result Z :=
  match v with
  | JNum z => Ok z
  | JBool b => Ok (if b then 1 else 0)
  | JStr s =>
      match PyStr.int_of_str s with
      | Some z => Ok z
      | None => Raise (Exn "ValueError")
      end
  | _ => Raise (Exn "TypeError")
  end.

(** [v[:n]]: strings and lists can be sliced. *)
Definition json_slice (n : nat) (v : json) : result json :=
  match v with
  | JStr s => Ok (JStr (PyStr.take n s))
  | JArr l => Ok (JArr (take n l))
  | _ => Raise (Exn "TypeError")
  end.

(** [str(v)], as an f-string renders [v]; [repr] renders lists and dicts. *)
Definition json_str (repr : json -> string) (v : json) : string :=
  match v with
  | JNull => "None"
  | JBool true => "True"
  | JBool false => "False"
  | JNum z => PyStr.str_of_int z
  | JStr s => s
  | _ => repr v
  end.

(** The payload of [/v1/public/menu] for a menu of the documented shape. *)
Definition item_json (i : menu_item) : json :=
  JObj [("id", JNum (mi_id i)); ("name", JStr (mi_name i));
        ("price", JNum (mi_price i)); ("tags", JArr (map JStr (mi_tags i)))].

Definition category_json (c : category) : json :=
  JObj [("name", JStr (cat_name c)); ("items", JArr (map item_json (cat_items c)))].

Definition menu_json (m : menu) : json :=
  JObj [("categories", JArr (map category_json m))].

(** ** [catalog.py]: the list sections of a menu payload *)

Module Catalog.

Section Sections.

Variable repr : json -> string.
Variable fmt_price : json -> string.

(** One row: the id and the name must be there; the description is cut
    to 70 characters. *)
Definition row (it : json) : result json :=
  r_bind (json_item it "id") (fun id =>
  r_bind (json_item it "name") (fun name =>
  r_bind (json_get it "price" (JNum 0)) (fun price =>
  r_bind (json_get it "desc" JNull) (fun desc =>
  r_bind (json_slice 70 (json_or desc (JStr ""))) (fun description =>
  Ok (JObj [("id", JStr ("add_" +:+ json_str repr id));
            ("title", JStr (json_str repr name +:+ " — KSh " +:+ fmt_price price));
            ("description", description)])))))).

(** The section of one category; none when it has no rows. *)
Definition section (cat : json) : result (list json) :=
  r_bind (json_get cat "items" (JArr [])) (fun items =>
  r_bind (json_iter items) (fun its =>
  r_bind (map_result row its) (fun rows =>
  match rows with
  | [] => Ok []
  | _ =>
      r_bind (json_get cat "name" (JStr "Menu")) (fun name =>
      r_bind (json_slice 24 name) (fun title =>
      Ok [JObj [("title", title); ("rows", JArr (take 10 rows))]]))
  end))).

(** [build_wa_sections(menu_json)] *)
Definition build_wa_sections (menu_json : json) : result (list json) :=
  r_bind (json_get menu_json "categories" (JArr [])) (fun categories =>
  r_bind (json_iter categories) (fun cats =>
  r_bind (map_result section cats) (fun secs => Ok (take 10 (concat secs))))).

End Sections.

End Catalog.

(** ** URLs, as [urllib.parse] splits them *)

Record url : Type := Url {
  u_scheme : string;
  u_netloc : string;
  u_path : string;
  u_params : string;
  u_query : string;
  u_fragment : string
}.

(** How the outside answers.  [W] is the state of the outside world; every
    backend call may raise.  [json_loads], [ParsedOrder_init] (the pydantic
    constructor of [ParsedOrder], applied to the decoded document) and the
    functions of [urllib.parse] are library code, taken as given;
    [urlparse] raises [ValueError] on some strings.  [PUBLIC_BASE_URL] is
    the module constant read from the environment.  [py_repr] is [str] on
    lists and dicts, and [_fmt_price], which goes through floating point
    and catches what it raises, is taken as given too. *)
Record Backend (W : Type) : Type := MkBackend {
  be_get_cart : string -> W -> result (list cart_item) * W;
  be_add_to_cart : string -> Z -> Z -> W -> result unit * W;
  be_update_cart : string -> list cart_op -> W -> result unit * W;
  be_checkout : string -> string -> string -> string -> W -> result order * W;
  be_fetch_order : string -> W -> result order * W;
  be_fetch_menu : W -> result json * W;
  be_fetch_menu_pdf_urls : W -> result (list string) * W;
  be_chat_create : string -> W -> result completion * W;
  json_loads : string -> result json;
  ParsedOrder_init : json -> result ParsedOrder;
  PUBLIC_BASE_URL : string;
  urlparse : string -> result url;
  urlunparse : url -> string;
  parse_qsl : string -> list (string * string);
  urlencode : list (string * string) -> string;
  py_repr : json -> string;
  _fmt_price : json -> string
}.
Arguments be_get_cart {W} _ _ _.
Arguments be_add_to_cart {W} _ _ _ _ _.
Arguments be_update_cart {W} _ _ _ _.
Arguments be_checkout {W} _ _ _ _ _ _.
Arguments be_fetch_order {W} _ _ _.
Arguments be_fetch_menu {W} _ _.
Arguments be_fetch_menu_pdf_urls {W} _ _.
Arguments be_chat_create {W} _ _ _.
Arguments json_loads {W} _ _.
Arguments ParsedOrder_init {W} _ _.
Arguments PUBLIC_BASE_URL {W} _.
Arguments urlparse {W} _ _.
Arguments urlunparse {W} _ _.
Arguments parse_qsl {W} _ _.
Arguments urlencode {W} _ _.
Arguments py_repr {W} _ _.
Arguments _fmt_price {W} _ _.

(** The state of the process: the outside world, the calls made so far
    (latest last), and the module-level dictionaries [_seen] and
    [_user_states]. *)
Record bot_state (W : Type) : Type := BotState {
  st_world : W;
  st_trace : list event;
  st_seen : gmap string Z;
  st_user_states : gmap string (gmap string pyval)
}.
Arguments BotState {W} _ _ _ _.
Arguments st_world {W} _.
Arguments st_trace {W} _.
Arguments st_seen {W} _.
Arguments st_user_states {W} _.

(** ** The monad of the handlers: state and exceptions *)

Definition M (W A : Type) : Type := bot_state W -> result A * bot_state W.

Definition m_ret {W A} (a : A) : M W A := fun st => (Ok a, st).

Definition m_bind {W A B} (m : M W A) (k : A -> M W B) : M W B :=
  fun st =>
    match m st with
    | (Ok a, st') => k a st'
    | (Raise e, st') => (Raise e, st')
    end.

Definition m_raise {W A} (e : exn) : M W A := fun st => (Raise e, st).

(** [try: m  except Exception: h] *)
Definition try_except {W A} (m : M W A) (h : exn -> M W A) : M W A :=
  fun st =>
    match m st with
    | (Ok a, st') => (Ok a, st')
    | (Raise e, st') => h e st'
    end.

#[global] Instance M_ret {W} : MRet (M W) := fun A a => m_ret a.
#[global] Instance M_bind {W} : MBind (M W) := fun A B k m => m_bind m k.

(** Record a call in the trace. *)
Definition emit {W} (e : event) : M W unit :=
  fun st =>
    (Ok tt, BotState (st_world st) (st_trace st ++ [e]) (st_seen st) (st_user_states st)).

(** Let the outside world answer a call. *)
Definition ask {W A} (f : W -> result A * W) : M W A :=
  fun st =>
    let '(r, w) := f (st_world st) in
    (r, BotState w (st_trace st) (st_seen st) (st_user_states st)).

(** Turn a pure result into a computation. *)
Definition lift_result {W A} (r : result A) : M W A :=
  match r with
  | Ok a => m_ret a
  | Raise e => m_raise e
  end.

(** [st] after the world moved to [w] and the calls [evs] were made. *)
Definition log {W} (st : bot_state W) (w : W) (evs : list event) : bot_state W :=
  BotState w (st_trace st ++ evs) (st_seen st) (st_user_states st).

(** The events a computation adds to the trace of [st]. *)
Definition new_events {W A} (m : M W A) (st : bot_state W) : list event :=
  drop (length (st_trace st)) (st_trace (m st).2).

(** ** Conversation state store and note capture *)

Section Handlers.

Context {W : Type} (be : Backend W).

(** The wrappers of the calls into [cart], [orders], [catalog], [memory],
    [wa_api] and [time]: each records the call; the senders of [wa_api]
    catch their own failures and never raise. *)
Definition get_cart (wa_id : string) : M W (list cart_item) :=
  emit (EvGetCart wa_id);; ask (be_get_cart be wa_id).

Definition add_to_cart (wa_id : string) (item_id qty : Z) : M W unit :=
  emit (EvAddToCart wa_id item_id qty);; ask (be_add_to_cart be wa_id item_id qty).

Definition update_cart (wa_id : string) (ops : list cart_op) : M W unit :=
  emit (EvUpdateCart wa_id ops);; ask (be_update_cart be wa_id ops).

Definition checkout (wa_id name phone method : string) : M W order :=
  emit (EvCheckout wa_id name phone method);;
  ask (be_checkout be wa_id name phone method).

Definition fetch_order (code : string) : M W order :=
  emit (EvFetchOrder code);; ask (be_fetch_order be code).

Definition fetch_menu : M W json :=
  emit EvFetchMenu;; ask (be_fetch_menu be).

Definition fetch_menu_pdf_urls : M W (list string) :=
  emit EvFetchMenuPdfUrls;; ask (be_fetch_menu_pdf_urls be).

Definition update_last_order (wa_id : string) : M W unit :=
  emit (EvUpdateLastOrder wa_id).

Definition send_text (wa_id text : string) : M W unit :=
  emit (EvSendText wa_id text).

Definition send_document (wa_id url caption : string) : M W unit :=
  emit (EvSendDocument wa_id url caption).

Definition send_list (wa_id body : string) (sections : list json) : M W unit :=
  emit (EvSendList wa_id body sections).

Definition sleep : M W unit := emit EvSleep.

Definition _set_user_state (wa_id : string) (state : gmap string pyval) : M W unit :=
  fun st =>
    (Ok tt, BotState (st_world st) (st_trace st) (st_seen st)
              (<[wa_id := state]> (st_user_states st))).

Definition _get_user_state (wa_id : string) : M W (gmap string pyval) :=
  fun st => (Ok (default ∅ (st_user_states st !! wa_id)), st).

Definition _clear_user_state (wa_id : string) : M W unit :=
  fun st =>
    (Ok tt, BotState (st_world st) (st_trace st) (st_seen st)
              (delete wa_id (st_user_states st))).

(** [d.get(k)] *)
Definition dict_get (d : gmap string pyval) (k : string) : pyval :=
  default PNone (d !! k).

(** [state.get("mode") != "await_note"] *)
Definition is_await_note (state : gmap string pyval) : bool :=
  match dict_get state "mode" with
  | PStr m => String.eqb m "await_note"
  | _ => false
  end.

(** [total = sum(int(i["qty"]) * float(i["price"]) for i in items)] *)
Definition cart_total (items : list cart_item) : Z :=
  foldr (fun i acc => ci_qty i * ci_price i + acc) 0 items.

Definition cart_lines (items : list cart_item) : list string :=
  ["Cart:"]
  ++ map (fun i => "• " +:+ ci_name i +:+ "×" +:+ PyStr.str_of_int (ci_qty i)) items
  ++ ["Total KSh " +:+ PyStr.str_of_int (cart_total items)].

Definition newline : string := String (ascii_of_nat 10) EmptyString.

(** The text [_send_cart] sends for a cart it could read. *)
Definition cart_summary (items : list cart_item) : string :=
  match items with
  | [] => "Cart empty"
  | _ => PyStr.join newline (cart_lines items)
  end.

(** [_send_cart(wa_id, prefix)]; the body never reads [prefix]. *)
Definition _send_cart (wa_id : string) (prefix : string) : M W unit :=
  try_except
    (items ← get_cart wa_id;
     send_text wa_id (cart_summary items))
    (fun _ => send_text wa_id "Cart error").

(** [o.get("code") or o.get("id")] *)
Definition order_code (o : order) : pyval :=
  if py_truthy (ord_code o) then ord_code o else ord_id o.

Definition _do_checkout (wa_id name method : string) : M W unit :=
  try_except
    (o ← checkout wa_id name wa_id method;
     send_text wa_id
       ("🎉 Order placed! Code: *" +:+ py_str (order_code o) +:+ "*" +:+ newline
          +:+ "We’ll confirm shortly.");;
     try_except (update_last_order wa_id) (fun _ => m_ret tt))
    (fun _ => send_text wa_id "Checkout failed. Please try again or send *help*.").

(** [handle_note_message(wa_id, text)] *)
Definition handle_note_message (wa_id text : string) : M W bool :=
  state ← _get_user_state wa_id;
  if negb (is_await_note state) then m_ret false
  else
    let item_id := _safe_int (dict_get state "item_id") None in
    let variant_id := dict_get state "variant_id" in
    match item_id with
    | Some i =>
        if i =? 0 then _clear_user_state wa_id;; m_ret false
        else
          update_cart wa_id [OpSetNote i variant_id (PyStr.take 240 (PyStr.strip text))];;
          _clear_user_state wa_id;;
          _send_cart wa_id ("📝 Note saved." +:+ newline);;
          m_ret true
    | None => _clear_user_state wa_id;; m_ret false
    end.

End Handlers.

(** ** Recommendation engine: the pure part of [_send_recommendations] *)

Record rec_item : Type := RecItem {
  r_name : string;
  r_price : Z;
  r_tags : list string;
  r_popular : bool
}.

(** [x in l] for a list of strings *)
Definition in_list (x : string) (l : list string) : bool :=
  existsb (String.eqb x) l.

Definition rec_item_of (item : menu_item) : rec_item :=
  let tags := map PyStr.lower (mi_tags item) in
  RecItem (mi_name item) (mi_price item) tags
    (existsb (fun t => in_list t tags) ["popular"; "best"; "signature"; "favourite"]).

Definition rec_items (m : menu) : list rec_item :=
  flat_map (fun c => map rec_item_of (cat_items c)) m.

(** One round of the item loop of [_send_recommendations] on the payload:
    the tags are lowered, the price goes through [int], and the name must
    be there.  The name is only ever rendered, so its rendering is kept. *)
Definition rec_item_of_json (repr : json -> string) (item : json) : result rec_item :=
  r_bind (json_get item "tags" (JArr [])) (fun tags =>
  r_bind (json_iter tags) (fun ts =>
  r_bind (map_result json_lower ts) (fun tags =>
  r_bind (json_get item "price" (JNum 0)) (fun price =>
  r_bind (json_int price) (fun price =>
  r_bind (json_item item "name") (fun name =>
  Ok (RecItem (json_str repr name) price tags
        (existsb (fun t => in_list t tags)
           ["popular"; "best"; "signature"; "favourite"])))))))).

(** The items of one category: [cat.get("items", [])], iterated. *)
Definition category_items (cat : json) : result (list json) :=
  r_bind (json_get cat "items" (JArr [])) json_iter.

(** The categories of the payload: [menu.get("categories", [])], iterated. *)
Definition menu_categories (menu : json) : result (list json) :=
  r_bind (json_get menu "categories" (JArr [])) json_iter.

(** The loops that build [items] in [_send_recommendations]. *)
Definition rec_items_json (repr : json -> string) (menu : json)
  : result (list rec_item) :=
  r_bind (menu_categories menu) (fun cats =>
  r_bind (map_result
            (fun cat => r_bind (category_items cat) (map_result (rec_item_of_json repr)))
            cats)
         (fun per_category => Ok (concat per_category))).

(** The comprehension of the ADD branch: the items whose lowered name
    contains [item]. *)
Definition menu_matches (item : string) (menu : json) : result (list json) :=
  r_bind (menu_categories menu) (fun cats =>
  r_bind (map_result
            (fun cat =>
               r_bind (category_items cat)
                 (filter_result
                    (fun i =>
                       r_bind (json_item i "name") (fun name =>
                       r_bind (json_lower name) (fun low =>
                       Ok (PyStr.contains item low))))))
            cats)
         (fun per_category => Ok (concat per_category))).

(** [sorted(l, key=...)]: a stable sort, as insertion from the right. *)
Fixpoint insert_sorted {A} (leb : A -> A -> bool) (x : A) (l : list A) : list A :=
  match l with
  | [] => [x]
  | y :: t => if leb x y then x :: l else y :: insert_sorted leb x t
  end.

Definition sorted_by {A} (leb : A -> A -> bool) (l : list A) : list A :=
  foldr (insert_sorted leb) [] l.

(** Order of the key [x["price"]]. *)
Definition price_leb (x y : rec_item) : bool := r_price x <=? r_price y.

(** Order of the key [(-x["popular"], x["price"])]. *)
Definition neg_popular (x : rec_item) : Z := if r_popular x then -1 else 0.

Definition popular_price_leb (x y : rec_item) : bool :=
  (neg_popular x <? neg_popular y)
  || ((neg_popular x =? neg_popular y) && (r_price x <=? r_price y)).

Definition diet_words : list string := ["veg"; "vegetarian"; "no meat"].
Definition spice_words : list string := ["spicy"; "hot"; "peri"; "chilli"].
Definition budget_words : list string := ["under"; "below"; "max"; "cheaper than"].
Definition popular_words : list string :=
  ["popular"; "best"; "good"; "recommend"; "your favorite"; "signature"].

(** [int(''.join(filter(str.isdigit, s)))]; [None] when it raises.
    Exact on ASCII text, where [str.isdigit] keeps the digits 0 to 9;
    outside ASCII it also keeps characters such as a superscript two,
    on which [int] raises. *)
Definition extract_budget (s : string) : option Z :=
  PyStr.int_of_str (PyStr.filter_digits s).

(** [s.isascii()]: every character is below 128. *)
Definition is_ascii (s : string) : bool :=
  PyStr.all_chars (fun c => (nat_of_ascii c <? 128)%nat) s.

(** The candidates left by the dietary, spice and budget filters. *)
Definition candidate_pool (items : list rec_item) (user_text ai_hint : string)
  : list rec_item :=
  let hint := PyStr.lower ai_hint in
  let text_low := PyStr.lower user_text in
  let recs := items in
  let recs :=
    if PyStr.any_in diet_words (text_low +:+ hint)
    then List.filter (fun i => in_list "vegetarian" (r_tags i) || in_list "veg" (r_tags i)) recs
    else recs in
  let recs :=
    if PyStr.any_in spice_words (text_low +:+ hint)
    then List.filter (fun i => in_list "spicy" (r_tags i)) recs
    else recs in
  if PyStr.any_in budget_words text_low
  then match extract_budget (text_low +:+ hint) with
       | Some budget => List.filter (fun i => r_price i <=? budget) recs
       | None => recs
       end
  else recs.

(** [recs] as it stands when the reply is built. *)
Definition recommend (items : list rec_item) (user_text ai_hint : string)
  : list rec_item :=
  let hint := PyStr.lower ai_hint in
  let text_low := PyStr.lower user_text in
  let recs := candidate_pool items user_text ai_hint in
  let recs :=
    if PyStr.any_in popular_words (text_low +:+ hint)
    then match List.filter r_popular recs with
         | [] => take 6 (sorted_by price_leb recs)
         | popular => popular
         end
    else recs in
  take 6 (sorted_by popular_price_leb recs).

(** The budget as the specification words it: the longest contiguous run
    of digits of the text (the first one among the longest). *)
Fixpoint digit_runs (cur : string) (s : string) : list string :=
  match s with
  | EmptyString => [cur]
  | String c r =>
      if PyStr.is_digit c then digit_runs (cur +:+ String c EmptyString) r
      else cur :: digit_runs EmptyString r
  end.

Definition longest_digit_run (s : string) : string :=
  foldl (fun best run =>
           if (String.length best <? String.length run)%nat then run else best)
        EmptyString (digit_runs EmptyString s).

Definition spec_budget (s : string) : option Z :=
  PyStr.int_of_str (longest_digit_run s).

(** ** Calling a Python function: binding arguments to parameters *)

Inductive argval : Type :=
| ArgStr (s : string)
| ArgInt (z : Z)
| ArgFloat (repr : string).

Record py_param : Type := PyParam {
  prm_name : string;
  prm_default : option argval
}.

Definition kw_lookup (kw : list (string * argval)) (name : string) : option argval :=
  snd <$> List.find (fun p => String.eqb p.1 name) kw.

(** Positional arguments fill the parameters from the left, keywords the
    rest, then defaults; [None] when a parameter gets two values or none. *)
Fixpoint bind_params (params : list py_param) (pos : list argval)
    (kw : list (string * argval)) : option (list argval) :=
  match params with
  | [] => Some []
  | p :: ps =>
      match pos with
      | v :: pos' =>
          match kw_lookup kw (prm_name p) with
          | Some _ => None
          | None => cons v <$> bind_params ps pos' kw
          end
      | [] =>
          match kw_lookup kw (prm_name p) with
          | Some v => cons v <$> bind_params ps [] kw
          | None =>
              match prm_default p with
              | Some d => cons d <$> bind_params ps [] kw
              | None => None
              end
          end
      end
  end.

(** A call with too many positional arguments, an unexpected keyword, a
    doubly given or a missing argument raises [TypeError]. *)
Definition bind_call (params : list py_param) (pos : list argval)
    (kw : list (string * argval)) : result (list argval) :=
  if (length params <? length pos)%nat then Raise (Exn "TypeError")
  else if negb (forallb (fun k => existsb (fun p => String.eqb (prm_name p) k.1) params) kw)
  then Raise (Exn "TypeError")
  else match bind_params params pos kw with
       | Some args => Ok args
       | None => Raise (Exn "TypeError")
       end.

(** The signature of [llm_route]. *)
Definition llm_route_params : list py_param :=
  [ PyParam "user_text" None; PyParam "menu_snapshot" None;
    PyParam "user_profile" None; PyParam "cart_snapshot" None;
    PyParam "menu_text" (Some (ArgStr "")) ].

(** [resp.choices[0].message.tool_calls[0].function.arguments] *)
Definition tool_call_arguments (resp : completion) : result string :=
  match choices resp with
  | [] => Raise (Exn "IndexError")
  | c :: _ =>
      match ch_tool_calls c with
      | None => Raise (Exn "TypeError")
      | Some [] => Raise (Exn "IndexError")
      | Some (t :: _) => Ok (tc_arguments t)
      end
  end.

(** ** Helpers of the text router *)

Definition dq : string := String (ascii_of_nat 34) EmptyString.

Fixpoint take_word (s : string) : string :=
  match s with
  | EmptyString => EmptyString
  | String c r => if PyStr.is_space c then EmptyString else String c (take_word r)
  end.

(** [name.split()[0]]; [None] stands for the [IndexError] of an empty list. *)
Definition first_word (s : string) : option string :=
  match PyStr.lstrip s with
  | EmptyString => None
  | s' => Some (take_word s')
  end.

(** [", ".join(...) or "nothing yet"] *)
Definition cart_text_of (items : list cart_item) : string :=
  let t := PyStr.join ", "
             (map (fun it => ci_name it +:+ " ×" +:+ PyStr.str_of_int (ci_qty it)) items) in
  if String.eqb t "" then "nothing yet" else t.

(** A dict built by a comprehension: a key keeps the place of its first
    insertion and the value of its last. *)
Fixpoint dict_set {V} (k : string) (v : V) (d : list (string * V)) : list (string * V) :=
  match d with
  | [] => [(k, v)]
  | (k', v') :: t => if String.eqb k' k then (k', v) :: t else (k', v') :: dict_set k v t
  end.

Definition dict_of_pairs {V} (l : list (string * V)) : list (string * V) :=
  foldl (fun d kv => dict_set kv.1 kv.2 d) [] l.

(** [k in d] *)
Definition dict_has {V} (k : string) (d : list (string * V)) : bool :=
  existsb (fun kv => String.eqb kv.1 k) d.

(** [{i["name"].lower(): i for i in items}] *)
Definition cart_by_name (items : list cart_item) : list (string * cart_item) :=
  dict_of_pairs (map (fun i => (PyStr.lower (ci_name i), i)) items).

(** [next((v for k, v in d.items() if item in k), None)] *)
Definition find_by_name (item : string) (d : list (string * cart_item)) : option cart_item :=
  snd <$> List.find (fun kv => PyStr.contains item kv.1) d.

Definition checkout_words : list string :=
  ["checkout"; "pay"; "place order"; "i'm ready"; "complete"; "done"; "yes"].
Definition cart_words : list string :=
  ["cart"; "my order"; "what i have"; "show me"; "show cart"].

Definition FALLBACK_TEXT : string := "Got it! Anything else you'd like?".

(** The prompt of the router, with the customer's first name, the cart
    text and the message filled in. *)
Definition build_prompt (first_name cart_text text : string) : string :=
  "
You are Abdi, a super friendly waiter at QuickBite in Nairobi.
Customer name: " +:+ first_name +:+ "
Current cart: " +:+ cart_text +:+ "

Customer just said: " +:+ dq +:+ text +:+ dq +:+ "

Reply with exactly ONE of these formats ONLY:

ADD <item> ×<number>
REMOVE <item>
CHANGE <item> to ×<number>
CART
MENU
CHECKOUT
RECOMMEND anything
RECOMMEND spicy
RECOMMEND vegetarian
RECOMMEND under 800
RECOMMEND popular

Examples:
" +:+ dq +:+ "another burger please" +:+ dq +:+ " → ADD burger ×1
" +:+ dq +:+ "remove the coke" +:+ dq +:+ " → REMOVE coke
" +:+ dq +:+ "make it three burgers" +:+ dq +:+ " → CHANGE burger to ×3
" +:+ dq +:+ "what's good?" +:+ dq +:+ " → RECOMMEND popular
" +:+ dq +:+ "something spicy under 1000" +:+ dq +:+ " → RECOMMEND spicy under 1000
" +:+ dq +:+ "veg options?" +:+ dq +:+ " → RECOMMEND vegetarian

Current cart: " +:+ cart_text +:+ "
Customer: " +:+ dq +:+ text +:+ dq +:+ "
Reply:
".

(** The fast-path rules as an ordered list, first match wins. *)
Inductive fast_rule : Type := RuleCheckout | RuleStatus | RuleCart.

Definition fast_rules : list (fast_rule * (string -> bool)) :=
  [ (RuleCheckout, PyStr.any_in checkout_words);
    (RuleStatus, fun t => PyStr.startswith t "status");
    (RuleCart, PyStr.any_in cart_words) ].

(** The rule that fires on a text: the first one, in the order of
    [fast_rules], whose test holds on the trimmed, lowercased text. *)
Definition fast_path (text : string) : option fast_rule :=
  fst <$> List.find (fun r => r.2 (PyStr.lower (PyStr.strip text))) fast_rules.

(** ** The classifier entry point and the text router *)

Section Router.

Context {W : Type} (be : Backend W).

(** The body of the [try] of [llm_route]. *)
Definition classify (prompt : string) : M W ParsedOrder :=
  resp ← (emit (EvChatCreate prompt);; ask (be_chat_create be prompt));
  args ← lift_result (tool_call_arguments resp);
  data ← lift_result (json_loads be args);
  lift_result (ParsedOrder_init be data).

(** The user message [llm_route] sends to the classifier. *)
Definition llm_prompt (user_text menu_snapshot user_profile cart_snapshot
    menu_text : string) : string :=
  "MENU_SNAPSHOT:" +:+ newline +:+ menu_snapshot +:+ newline +:+ newline
  +:+ "MENU_TEXT:" +:+ newline +:+ PyStr.take (Z.to_nat 10000) menu_text
  +:+ newline +:+ newline
  +:+ "PROFILE:" +:+ newline +:+ user_profile +:+ newline +:+ newline
  +:+ "CART_SNAPSHOT:" +:+ newline +:+ cart_snapshot +:+ newline +:+ newline
  +:+ "USER:" +:+ newline +:+ user_text.

(** [llm_route(user_text, menu_snapshot, user_profile, cart_snapshot, menu_text)] *)
Definition llm_route (user_text menu_snapshot user_profile cart_snapshot
    menu_text : string) : M W ParsedOrder :=
  try_except
    (classify (llm_prompt user_text menu_snapshot user_profile cart_snapshot menu_text))
    (fun _ => m_ret fallback_order).

(** A call of [llm_route]: the arguments are bound to the
    signature first.  The parameters are annotated [str]; a bound call
    with an argument of another type is not followed further. *)
Definition call_llm_route (pos : list argval) (kw : list (string * argval))
  : M W ParsedOrder :=
  emit (EvLlmRoute (length pos) (map fst kw));;
  args ← lift_result (bind_call llm_route_params pos kw);
  match args with
  | [ArgStr u; ArgStr m; ArgStr p; ArgStr c; ArgStr t] => llm_route u m p c t
  | _ => m_raise (Exn "TypeError")
  end.

(** [parsed.strip()]: a [ParsedOrder] has no attribute [strip]. *)
Definition parsed_order_strip (p : ParsedOrder) : M W string :=
  m_raise (Exn "AttributeError").

(** The [try] around the classifier call in [_route_text]:
    [llm_route(prompt, max_tokens=40, temperature=0.0).strip()],
    and the empty string when anything is raised. *)
Definition ask_llm (prompt : string) : M W string :=
  try_except
    (p ← call_llm_route [ArgStr prompt]
           [("max_tokens", ArgInt 40); ("temperature", ArgFloat "0.0")];
     parsed_order_strip p)
    (fun _ => m_ret EmptyString).

(** [_force_public_base(url)]: scheme and host of [PUBLIC_BASE_URL], the
    rest of [url]; [url] itself when the constant is empty. *)
Definition _force_public_base (u : string) : result string :=
  if String.eqb (PUBLIC_BASE_URL be) "" then Ok u
  else
    r_bind (urlparse be u) (fun p =>
    r_bind (urlparse be (PUBLIC_BASE_URL be)) (fun pb =>
    Ok (urlunparse be
          (Url (u_scheme pb) (u_netloc pb) (u_path p) (u_params p) (u_query p)
             (u_fragment p))))).

(** [_ensure_restaurant_id(url, rid)]: the query gets a [restaurant_id]
    ([rid], or 1) when it has none. *)
Definition _ensure_restaurant_id (u : string) (rid : option Z) : result string :=
  let target_rid := default 1 rid in
  r_bind (urlparse be u) (fun p =>
  let q := dict_of_pairs (parse_qsl be (u_query p)) in
  if dict_has "restaurant_id" q then Ok (urlunparse be p)
  else
    Ok (urlunparse be
          (Url (u_scheme p) (u_netloc p) (u_path p) (u_params p)
             (urlencode be (dict_set "restaurant_id" (PyStr.str_of_int target_rid) q))
             (u_fragment p)))).

(** The rewriting of one link in [_menu_pdf_urls]. *)
Definition public_url (rid : option Z) (u : string) : result string :=
  r_bind (_force_public_base u) (fun u' => _ensure_restaurant_id u' rid).

(** [_menu_pdf_urls()]; every caller leaves [restaurant_id] at [None].
    The whole body is under the [try]: a link on which [urlparse] raises
    discards all of them. *)
Definition _menu_pdf_urls : M W (list string) :=
  try_except
    (urls ← fetch_menu_pdf_urls be;
     lift_result
       (map_result (public_url None)
          (List.filter (fun u => PyStr.startswith u "http") urls)))
    (fun _ => m_ret []).

Definition _send_recommendations (wa_id user_text ai_hint : string) : M W unit :=
  m ← fetch_menu be;
  items ← lift_result (rec_items_json (py_repr be) (json_or m (JObj [])));
  match recommend items user_text ai_hint with
  | [] => send_text wa_id "Hmm, nothing matches right now. Try saying *menu*"
  | recs =>
      send_text wa_id
        (PyStr.join newline
           (["Here are my top picks for you:"]
            ++ map (fun r => "• " +:+ r_name r +:+ " — KSh " +:+ PyStr.str_of_int (r_price r))
                   recs
            ++ [newline +:+ "Just say the name to add it"]))
  end.

(** The quantity of an ADD reply: the number after the multiplication
    sign, 1 when there is none or it does not parse. *)
Definition add_qty (response : string) : Z :=
  if PyStr.contains "×" response
  then default 1 (PyStr.int_of_str
                    (PyStr.strip (nth 1 (PyStr.split "×" response) EmptyString)))
  else 1.

(** Step 3 of [_route_text]: the action taken on the classifier's reply. *)
Definition route_reply (wa_id name text response : string) : M W unit :=
  let resp := PyStr.upper response in
  if PyStr.startswith resp "ADD " then
    let item :=
      PyStr.lower (PyStr.strip
        (nth 0 (PyStr.split "×" (PyStr.drop 4 response)) EmptyString)) in
    let qty := add_qty response in
    m ← fetch_menu be;
    matches ← lift_result (menu_matches item (json_or m (JObj [])));
    match matches with
    | i :: _ =>
        id ← lift_result (r_bind (json_item i "id") json_int);
        add_to_cart be wa_id id qty;;
        name ← lift_result (json_item i "name");
        send_text wa_id
          ("Got it! Added " +:+ PyStr.str_of_int qty +:+ " × "
             +:+ json_str (py_repr be) name);;
        _send_cart be wa_id ("Your updated cart:" +:+ newline)
    | [] =>
        send_text wa_id
          ("Sorry, I don't have '" +:+ item +:+ "'. Say *menu* to see everything.")
    end
  else if PyStr.startswith resp "REMOVE " then
    let item := PyStr.lower (PyStr.strip (PyStr.drop 7 response)) in
    items ← get_cart be wa_id;
    match find_by_name item (cart_by_name items) with
    | Some found =>
        update_cart be wa_id [OpRemove (ci_item_id found)];;
        send_text wa_id ("Removed " +:+ ci_name found +:+ " from your cart");;
        _send_cart be wa_id EmptyString
    | None => m_ret tt
    end
  else if PyStr.startswith resp "CHANGE " then
    match PyStr.split " TO ×" (PyStr.drop 7 response) with
    | [p0; p1] =>
        let item_name := PyStr.lower (PyStr.strip p0) in
        try_except
          (match PyStr.int_of_str (PyStr.strip p1) with
           | None => m_raise (Exn "ValueError")
           | Some qty =>
               items ← get_cart be wa_id;
               match find_by_name item_name (cart_by_name items) with
               | Some found =>
                   update_cart be wa_id [OpSetQty (ci_item_id found) qty];;
                   send_text wa_id
                     ("Updated to " +:+ PyStr.str_of_int qty +:+ " × " +:+ ci_name found);;
                   _send_cart be wa_id EmptyString
               | None => m_ret tt
               end
           end)
          (fun _ => m_ret tt)
    | _ => m_ret tt
    end
  else if PyStr.contains "CART" resp then _send_cart be wa_id EmptyString
  else if PyStr.contains "MENU" resp then
    urls ← _menu_pdf_urls;
    match urls with
    | u :: _ =>
        send_text wa_id "Here’s our full menu";;
        send_document wa_id u "QuickBite Menu"
    | [] =>
        send_text wa_id "Here’s what we have today";;
        m ← fetch_menu be;
        sections ← lift_result
                     (Catalog.build_wa_sections (py_repr be) (_fmt_price be) m);
        send_list wa_id "Menu" sections
    end
  else if PyStr.contains "CHECKOUT" resp || PyStr.contains "YES" resp then
    _do_checkout be wa_id name "pickup"
  else if PyStr.startswith resp "RECOMMEND" then
    _send_recommendations wa_id text response
  else
    send_text wa_id FALLBACK_TEXT;;
    sleep;;
    _send_cart be wa_id EmptyString.

(** The order-status fast path. *)
Definition status_reply (wa_id text_lower : string) : M W unit :=
  let code := PyStr.strip (PyStr.replace "status" EmptyString text_lower) in
  if String.eqb code "" then m_ret tt
  else
    try_except
      (o ← fetch_order be code;
       send_text wa_id
         ("Order *" +:+ code +:+ "* is *" +:+ PyStr.upper (ord_status o)
            +:+ "* right now."))
      (fun _ => send_text wa_id "I can't find that order. Check the code and try again.").

(** Step 2 of [_route_text]: the cart text, the prompt, the classifier
    call, then the action on its reply. *)
Definition classifier_tier (wa_id name text : string) : M W unit :=
  cart_text ← try_except (items ← get_cart be wa_id; m_ret (cart_text_of items))
                         (fun _ => m_ret "nothing yet");
  match first_word name with
  | None => m_raise (Exn "IndexError")
  | Some first_name =>
      response ← ask_llm (build_prompt first_name cart_text text);
      route_reply wa_id name text response
  end.

Definition _route_text (wa_id name text : string) : M W unit :=
  let text_lower := PyStr.lower (PyStr.strip text) in
  if PyStr.any_in checkout_words text_lower then _do_checkout be wa_id name "pickup"
  else if PyStr.startswith text_lower "status" then status_reply wa_id text_lower
  else if PyStr.any_in cart_words text_lower then _send_cart be wa_id EmptyString
  else classifier_tier wa_id name text.

(** ** The webhook, for text messages *)

Record text_message : Type := TextMessage {
  msg_from : string;
  msg_id : option string;
  msg_hash : Z;
  msg_body : string
}.

(** [_claim_once("message", wa_id, msg_id, msg)] on the table of the state. *)
Definition claim_message (now : Z) (msg : text_message) : M W bool :=
  fun st =>
    let '(b, seen) :=
      _claim_once "message" (msg_from msg) (msg_id msg) (msg_hash msg) now (st_seen st) in
    (Ok b, BotState (st_world st) (st_trace st) seen (st_user_states st)).

(** One round of the processing loop of [inbound] on a text message. *)
Definition process_message (now : Z) (customer_name : string) (msg : text_message)
  : M W unit :=
  fresh ← claim_message now msg;
  if negb fresh then m_ret tt
  else
    let raw_text := PyStr.strip (msg_body msg) in
    noted ← handle_note_message be (msg_from msg) raw_text;
    if (noted : bool) then m_ret tt
    else _route_text (msg_from msg) customer_name raw_text.

(** The [except] branch of [inbound]: an apology to the sender at hand. *)
Definition on_crash (wa_id : string) : M W unit :=
  if String.eqb wa_id "" then m_ret tt
  else send_text wa_id "Sorry, something went wrong. Please try again.".

(** The processing loop of [inbound] under its [try].  An exception
    leaves the loop with [wa_id] bound to the sender of the message at
    hand; the handler runs and no later message is processed. *)
Fixpoint inbound_loop (now : Z) (customer_name : string) (msgs : list text_message)
  : M W unit :=
  match msgs with
  | [] => m_ret tt
  | msg :: rest =>
      finished ← try_except
                   (process_message now customer_name msg;; m_ret true)
                   (fun _ => on_crash (msg_from msg);; m_ret false);
      if (finished : bool) then inbound_loop now customer_name rest else m_ret tt
  end.

(** [inbound()] on a delivery of text messages; the webhook is always
    acknowledged.  The audit log that follows the loop is left out. *)
Definition inbound (now : Z) (customer_name : string) (msgs : list text_message)
  : M W (string * Z) :=
  inbound_loop now customer_name msgs;; m_ret ("ok", 200).

End Router.

(** ** Predicates on traces used in the statements *)

(** The calls into the classifier. *)
Definition is_llm_call (e : event) : bool :=
  match e with
  | EvLlmRoute _ _ | EvChatCreate _ => true
  | _ => false
  end.

(** [st'] continues the trace of [st] with events that all satisfy [P]. *)
Definition extends {W} (P : event -> Prop) (st st' : bot_state W) : Prop :=
  exists evs, st_trace st' = st_trace st ++ evs /\ Forall P evs.

(** Whatever the state and the outcome, [m] only adds events satisfying [P]. *)
Definition emits {W A} (P : event -> Prop) (m : M W A) : Prop :=
  forall st, extends P st (m st).2.

(** The ways the classifier call of [llm_route] can fail on a prompt, in a
    world [w]: the request itself, the tool call missing from the answer,
    its arguments not being JSON, the document not fitting the schema. *)
Inductive classifier_failure {W} (be : Backend W) (prompt : string) (w : W) : Prop :=
| transport_error (e : exn) (w' : W) :
    be_chat_create be prompt w = (Raise e, w') ->
    classifier_failure be prompt w
| missing_tool_call (resp : completion) (e : exn) (w' : W) :
    be_chat_create be prompt w = (Ok resp, w') ->
    tool_call_arguments resp = Raise e ->
    classifier_failure be prompt w
| json_parse_failure (resp : completion) (args : string) (e : exn) (w' : W) :
    be_chat_create be prompt w = (Ok resp, w') ->
    tool_call_arguments resp = Ok args ->
    json_loads be args = Raise e ->
    classifier_failure be prompt w
| schema_error (resp : completion) (args : string) (data : json) (e : exn) (w' : W) :
    be_chat_create be prompt w = (Ok resp, w') ->
    tool_call_arguments resp = Ok args ->
    json_loads be args = Ok data ->
    ParsedOrder_init be data = Raise e ->
    classifier_failure be prompt w.

(** ** Scenarios: concrete backends *)

(** An intent that asks for a clarification. *)
Definition clarifying_order : ParsedOrder :=
  {| po_action := EDIT_REMOVE;
     po_items := [];
     po_target_item_name := Some "burger";
     po_target_item_id := None;
     po_target_variant_name := None;
     po_target_variant_id := None;
     po_new_qty := None;
     po_new_variant_name := None;
     po_new_variant_id := None;
     po_note_text := None;
     po_budget_kes := None;
     po_dietary := [];
     po_spice_level := None;
     po_fulfillment := None;
     po_delivery_address := None;
     po_order_code := None;
     po_clarifications := ["Which burger do you mean?"];
     po_reasoning_notes := None;
     po_response_text := Some "Which burger do you mean?" |}.

(** A small [urllib.parse] for the scenarios below: the query is what follows
    the first question mark, with at most one [key=value] pair; an opening
    bracket without a closing one is an invalid host, as for [urlparse]. *)
Definition demo_urlparse (u : string) : result url :=
  if PyStr.contains "[" u && negb (PyStr.contains "]" u)
  then Raise (Exn "ValueError")
  else
    match PyStr.split_max "?" 1 u with
    | [path; query] => Ok (Url "" "" path "" query "")
    | _ => Ok (Url "" "" u "" "" "")
    end.

Definition demo_urlunparse (p : url) : string :=
  if String.eqb (u_query p) "" then u_path p else u_path p +:+ "?" +:+ u_query p.

Definition demo_parse_qsl (q : string) : list (string * string) :=
  match PyStr.split_max "=" 1 q with
  | [k; v] => [(k, v)]
  | _ => []
  end.

Definition demo_urlencode (d : list (string * string)) : string :=
  PyStr.join "&" (map (fun kv => kv.1 +:+ "=" +:+ kv.2) d).

(** Renderings for the scenarios below: prices are integers and no list
    or dict is ever rendered. *)
Definition demo_repr (v : json) : string := "{}".

Definition demo_fmt_price (v : json) : string :=
  match v with
  | JNum z => PyStr.str_of_int z
  | _ => "0"
  end.

(** A backend with an empty cart and a one-category menu, whose classifier
    answers every request with [clarifying_order]. *)
Definition clarifying_backend : Backend unit :=
  {| be_get_cart := fun _ w => (Ok [], w);
     be_add_to_cart := fun _ _ _ w => (Ok tt, w);
     be_update_cart := fun _ _ w => (Ok tt, w);
     be_checkout := fun _ _ _ _ w => (Ok (Order (PStr "A1") PNone "new" []), w);
     be_fetch_order := fun _ w => (Ok (Order (PStr "A1") PNone "ready" []), w);
     be_fetch_menu :=
       fun w => (Ok (menu_json
                       [Category "Mains" [MenuItem 1 "Burger" 500 ["popular"];
                                          MenuItem 2 "Salad" 300 ["vegetarian"]]]), w);
     be_fetch_menu_pdf_urls := fun w => (Ok [], w);
     be_chat_create := fun _ w => (Ok (Completion [Choice (Some [ToolCall "{}"])]), w);
     json_loads := fun _ => Ok (JObj []);
     ParsedOrder_init := fun _ => Ok clarifying_order;
     PUBLIC_BASE_URL := "";
     urlparse := demo_urlparse;
     urlunparse := demo_urlunparse;
     parse_qsl := demo_parse_qsl;
     urlencode := demo_urlencode;
     py_repr := demo_repr;
     _fmt_price := demo_fmt_price |}.

(** The same backend with [update_cart] failing (the request raises) and
    with a classifier whose answer is not JSON. *)
Definition failing_backend : Backend unit :=
  {| be_get_cart := be_get_cart clarifying_backend;
     be_add_to_cart := be_add_to_cart clarifying_backend;
     be_update_cart := fun _ _ w => (Raise (Exn "HTTPError"), w);
     be_checkout := be_checkout clarifying_backend;
     be_fetch_order := be_fetch_order clarifying_backend;
     be_fetch_menu := be_fetch_menu clarifying_backend;
     be_fetch_menu_pdf_urls := be_fetch_menu_pdf_urls clarifying_backend;
     be_chat_create := be_chat_create clarifying_backend;
     json_loads := fun _ => Raise (Exn "JSONDecodeError");
     ParsedOrder_init := ParsedOrder_init clarifying_backend;
     PUBLIC_BASE_URL := "";
     urlparse := demo_urlparse;
     urlunparse := demo_urlunparse;
     parse_qsl := demo_parse_qsl;
     urlencode := demo_urlencode;
     py_repr := demo_repr;
     _fmt_price := demo_fmt_price |}.

(** [b] with another answer to the menu request and to the PDF request. *)
Definition with_menu {W} (answer : result json) (urls : result (list string))
    (b : Backend W) : Backend W :=
  {| be_get_cart := be_get_cart b;
     be_add_to_cart := be_add_to_cart b;
     be_update_cart := be_update_cart b;
     be_checkout := be_checkout b;
     be_fetch_order := be_fetch_order b;
     be_fetch_menu := fun w => (answer, w);
     be_fetch_menu_pdf_urls := fun w => (urls, w);
     be_chat_create := be_chat_create b;
     json_loads := json_loads b;
     ParsedOrder_init := ParsedOrder_init b;
     PUBLIC_BASE_URL := PUBLIC_BASE_URL b;
     urlparse := urlparse b;
     urlunparse := urlunparse b;
     parse_qsl := parse_qsl b;
     urlencode := urlencode b;
     py_repr := py_repr b;
     _fmt_price := _fmt_price b |}.

(** A menu payload whose second item has no price ([null]). *)
Definition null_price_menu : json :=
  JObj [("categories",
         JArr [JObj [("name", JStr "Mains");
                     ("items",
                      JArr [JObj [("id", JNum 1); ("name", JStr "Burger");
                                  ("price", JNum 500); ("tags", JArr [JStr "popular"])];
                            JObj [("id", JNum 2); ("name", JStr "Salad");
                                  ("price", JNull)]])]])].

Definition empty_state : bot_state unit := BotState tt [] ∅ ∅.

(** The sender 2547 is waiting for a note on item 7. *)
Definition awaiting_note_state : bot_state unit :=
  BotState tt [] ∅
    {[ "2547" := {[ "mode" := PStr "await_note"; "item_id" := PInt 7 ]} ]}.

(** ** Sequences of claims on the dedup table *)

(** One call of [_claim_once]: its arguments and the time it runs at. *)
Record claim_call : Type := ClaimCall {
  cc_kind : string;
  cc_wa_id : string;
  cc_msg_id : option string;
  cc_hash : Z;
  cc_now : Z
}.

(** The table after a sequence of calls, each on the table the previous
    one left. *)
Definition run_claims (ttl : Z) (calls : list claim_call) (seen : gmap string Z)
  : gmap string Z :=
  foldl (fun s c =>
           (claim_once_at ttl (cc_kind c) (cc_wa_id c) (cc_msg_id c) (cc_hash c)
              (cc_now c) s).2)
        seen calls.

(** The note texts of the operations of an [update_cart] call. *)
Definition op_note_ok (op : cart_op) : Prop :=
  match op with
  | OpSetNote _ _ note => (String.length note <= 240)%nat
  | _ => True
  end.

Definition notes_within_limit (e : event) : Prop :=
  match e with
  | EvUpdateCart _ ops => Forall op_note_ok ops
  | _ => True
  end.

(** A string that [lower] leaves as it is. *)
Definition is_lowercase (s : string) : bool :=
  PyStr.all_chars (fun c => Ascii.eqb (PyStr.lower_char c) c) s.

Definition order_codes_lowercase (e : event) : Prop :=
  match e with
  | EvFetchOrder code => is_lowercase code = true
  | _ => True
  end.

(** The tag tests of the recommendation filters. *)
Definition is_veg (i : rec_item) : bool :=
  in_list "vegetarian" (r_tags i) || in_list "veg" (r_tags i).

Definition is_spicy (i : rec_item) : bool := in_list "spicy" (r_tags i).

(** The names of the parameters of [llm_route]. *)
Definition llm_route_param_names : list string := map prm_name llm_route_params.

(** [c * n] for a character *)
Fixpoint repeat_char (c : ascii) (n : nat) : string :=
  match n with
  | O => EmptyString
  | S k => String c (repeat_char c k)
  end.

(** ** Outbound payloads of [wa_api.py] and the menu sections of [catalog.py] *)

(** A button as the handlers pass it to [send_quick_replies]: a plain
    string, or a dict whose keys [id] and [title] may be absent. *)
Inductive button : Type :=
| BtnText (s : string)
| BtnDict (id title : option string).

(** A reply button as it is posted. *)
Record reply_button : Type := ReplyButton {
  rb_id : string;
  rb_title : string
}.

Definition norm_button (b : button) : reply_button :=
  match b with
  | BtnText s => ReplyButton (PyStr.take 256 s) (PyStr.take 20 s)
  | BtnDict id title =>
      let btn_id := default "btn" id in
      let title := default btn_id title in
      ReplyButton (PyStr.take 256 btn_id) (PyStr.take 20 title)
  end.

(** Body and buttons of the payload of [send_quick_replies]. *)
Definition quick_replies_payload (body : string) (buttons : list button)
  : string * list reply_button :=
  (PyStr.take 1024 body, map norm_button (take 3 buttons)).

(** A row and a section as the handlers pass them to [send_list]; every
    key may be absent. *)
Record wa_row : Type := WaRow {
  row_id : option string;
  row_title : option string;
  row_description : option string
}.

Record wa_section : Type := WaSection {
  sec_title : option string;
  sec_rows : option (list wa_row)
}.

(** A row and a section as they are posted. *)
Record out_row : Type := OutRow {
  or_id : string;
  or_title : string;
  or_description : option string
}.

Record out_section : Type := OutSection {
  os_title : string;
  os_rows : list out_row
}.

Definition trim_row (r : wa_row) : out_row :=
  OutRow (PyStr.take 200 (default "" (row_id r)))
         (PyStr.take 24 (default "Item" (row_title r)))
         (match row_description r with
          | Some d => if String.eqb d "" then None else Some (PyStr.take 72 d)
          | None => None
          end).

(** The sections of the payload of [send_list]. *)
Definition send_list_sections (sections : list wa_section) : list out_section :=
  flat_map
    (fun sec =>
       match map trim_row (take 10 (default [] (sec_rows sec))) with
       | [] => []
       | rows => [OutSection (PyStr.take 24 (default "Section" (sec_title sec))) rows]
       end)
    (take 10 sections).

(** A menu of the documented shape, as [build_wa_sections] reads it: an
    item has an id, a name and a price; the description and the name of
    a category may be absent. *)
Record catalog_item : Type := CatalogItem {
  ct_id : Z;
  ct_name : string;
  ct_price : Z;
  ct_desc : option string
}.

Record catalog_category : Type := CatalogCategory {
  cg_name : option string;
  cg_items : list catalog_item
}.

Definition catalog_row (fmt_price : Z -> string) (it : catalog_item) : wa_row :=
  WaRow (Some ("add_" +:+ PyStr.str_of_int (ct_id it)))
        (Some (ct_name it +:+ " — KSh " +:+ fmt_price (ct_price it)))
        (Some (PyStr.take 70 (default "" (ct_desc it)))).

(** [build_wa_sections(menu_json)] on such a menu; [fmt_price] is
    [_fmt_price], which goes through floating point and is taken as given.
    [Catalog.build_wa_sections] is the same function on any payload. *)
Definition build_wa_sections (fmt_price : Z -> string) (m : list catalog_category)
  : list wa_section :=
  take 10
    (flat_map
       (fun cat =>
          match map (catalog_row fmt_price) (cg_items cat) with
          | [] => []
          | rows => [WaSection (Some (PyStr.take 24 (default "Menu" (cg_name cat))))
                       (Some (take 10 rows))]
          end)
       m).

(** The typed menu, rows and sections of the interactive handlers as the
    dictionaries they stand for: an absent key is left out. *)
Definition opt_field (k : string) (v : option json) : list (string * json) :=
  match v with
  | Some x => [(k, x)]
  | None => []
  end.

Definition wa_row_json (r : wa_row) : json :=
  JObj (opt_field "id" (JStr <$> row_id r)
        ++ opt_field "title" (JStr <$> row_title r)
        ++ opt_field "description" (JStr <$> row_description r)).

Definition wa_section_json (s : wa_section) : json :=
  JObj (opt_field "title" (JStr <$> sec_title s)
        ++ opt_field "rows" ((fun rows => JArr (map wa_row_json rows)) <$> sec_rows s)).

Definition catalog_item_json (it : catalog_item) : json :=
  JObj ([("id", JNum (ct_id it)); ("name", JStr (ct_name it));
         ("price", JNum (ct_price it))]
        ++ opt_field "desc" (JStr <$> ct_desc it)).

Definition catalog_category_json (c : catalog_category) : json :=
  JObj (opt_field "name" (JStr <$> cg_name c)
        ++ [("items", JArr (map catalog_item_json (cg_items c)))]).

Definition catalog_json (m : list catalog_category) : json :=
  JObj [("categories", JArr (map catalog_category_json m))].

(** ** Edit-cart rows and buttons *)

(** A cart line as [handle_edit_cart] reads it; every key may be absent. *)
Record cart_line : Type := CartLine {
  cl_item_id : option Z;
  cl_id : option Z;
  cl_variant_id : option Z;
  cl_name : option string;
  cl_qty : option Z;
  cl_price : option Z
}.

(** [a or b] on optional integers *)
Definition int_or (a b : option Z) : option Z :=
  match a with
  | Some z => if z =? 0 then b else Some z
  | None => b
  end.

Definition line_item_id (it : cart_line) : option Z :=
  _safe_int (opt_int (int_or (cl_item_id it) (cl_id it))) (Some 0).

Definition line_variant_id (it : cart_line) : option Z :=
  int_or (cl_variant_id it) (Some 0).

Definition edit_cart_row (it : cart_line) : wa_row :=
  let item_id := line_item_id it in
  let name := default ("Item " +:+ py_str (opt_int item_id)) (cl_name it) in
  let qty := default 1 (cl_qty it) in
  WaRow (Some (_cmd "EDIT_PICK" item_id (line_variant_id it) (PInt 0)))
        (Some (PyStr.take 24 name))
        (Some (PyStr.take 72 ("Qty " +:+ PyStr.str_of_int qty))).

(** The grouping loop of [handle_edit_cart]: a section is closed as soon as
    its chunk holds 10 rows, the last chunk when it is not empty. *)
Fixpoint chunk_rows (chunk rows : list wa_row) : list wa_section :=
  match rows with
  | [] =>
      match chunk with
      | [] => []
      | _ => [WaSection (Some "Cart Items") (Some chunk)]
      end
  | r :: rest =>
      let chunk' := chunk ++ [r] in
      if (length chunk' =? 10)%nat
      then WaSection (Some "Cart Items") (Some chunk') :: chunk_rows [] rest
      else chunk_rows chunk' rest
  end.

Definition edit_cart_sections (items : list cart_line) : list wa_section :=
  chunk_rows [] (map edit_cart_row items).

(** The summary text of [handle_edit_cart], for integer prices. *)
Definition edit_cart_summary (items : list cart_line) : string :=
  let amount it := default 1 (cl_qty it) * default 0 (cl_price it) in
  PyStr.join newline
    (["🛒 *Your cart:*"]
     ++ map (fun it =>
               "• " +:+ default "Item" (cl_name it) +:+ " ×"
               +:+ PyStr.str_of_int (default 1 (cl_qty it)) +:+ " — KSh "
               +:+ PyStr.str_of_int (amount it))
            items
     ++ [newline +:+ "Subtotal: *KSh "
           +:+ PyStr.str_of_int (foldr (fun it acc => amount it + acc) 0 items) +:+ "*";
         newline +:+ "✏️ Select an item to edit:"]).

(** The buttons of [handle_edit_pick] for an item, in their two groups. *)
Definition edit_pick_buttons (item_id : Z) (variant_id : option Z)
  : list button * list button :=
  let v := int_or variant_id (Some 0) in
  ( [ BtnDict (Some (_cmd "DEC" (Some item_id) v (PInt (-1)))) (Some "−1");
      BtnDict (Some (_cmd "INC" (Some item_id) v (PInt 1))) (Some "+1");
      BtnDict (Some (_cmd "RM" (Some item_id) v (PInt 0))) (Some "Remove") ],
    [ BtnDict (Some (_cmd "VAR" (Some item_id) v (PInt 0))) (Some "Change Variant");
      BtnDict (Some (_cmd "NOTE" (Some item_id) v (PInt 0))) (Some "Add Note");
      BtnDict (Some (_cmd "BACK" (Some 0) (Some 0) (PInt 0))) (Some "Back to Cart") ] ).

(** A variant as [get_variants] returns it: its id and its name. *)
Record variant : Type := Variant {
  v_id : Z;
  v_name : string
}.

(** [int(x)] for a decoded argument: a number, or the exception raised. *)
Definition py_int (v : pyval) : result Z :=
  match v with
  | PInt z => Ok z
  | PNone => Raise (Exn "TypeError")
  | PStr s =>
      match PyStr.int_of_str s with
      | Some z => Ok z
      | None => Raise (Exn "ValueError")
      end
  end.

(** ** The interactive layer: button presses and list selections *)

(** The calls of the interactive handlers, on top of those of the text
    handlers: [update_cart] with a [change_variant] operation,
    [get_variants], and the senders of quick replies, list sections and
    documents with a file name. *)
Inductive ui_event : Type :=
| UiBase (e : event)
| UiChangeVariant (wa_id : string) (item_id old_variant_id : option Z)
    (new_variant_id : Z)
| UiGetVariants (item_id : Z)
| UiGetCartLines (wa_id : string)
| UiFetchCatalog
| UiSendQuickReplies (wa_id body : string) (buttons : list button)
| UiSendSections (wa_id body : string) (sections : list wa_section)
| UiSendFile (wa_id url filename caption : string).

(** The part of the outside the interactive handlers talk to. *)
Record UiBackend (W : Type) : Type := MkUiBackend {
  ub_base : Backend W;
  ub_change_variant : string -> option Z -> option Z -> Z -> W -> result unit * W;
  ub_get_variants : Z -> W -> result (list variant) * W;
  ub_get_cart_lines : string -> W -> result (list cart_line) * W;
  ub_fetch_catalog : W -> result (list catalog_category) * W;
  ub_fmt_price : Z -> string
}.
Arguments ub_base {W} _.
Arguments ub_change_variant {W} _ _ _ _ _ _.
Arguments ub_get_variants {W} _ _ _.
Arguments ub_get_cart_lines {W} _ _ _.
Arguments ub_fetch_catalog {W} _ _.
Arguments ub_fmt_price {W} _ _.

Record ui_state (W : Type) : Type := UiState {
  ui_bot : bot_state W;
  ui_trace : list ui_event
}.
Arguments UiState {W} _ _.
Arguments ui_bot {W} _.
Arguments ui_trace {W} _.

Definition UM (W A : Type) : Type := ui_state W -> result A * ui_state W.

Definition um_ret {W A} (a : A) : UM W A := fun s => (Ok a, s).

Definition um_bind {W A B} (m : UM W A) (k : A -> UM W B) : UM W B :=
  fun s =>
    match m s with
    | (Ok a, s') => k a s'
    | (Raise e, s') => (Raise e, s')
    end.

Definition um_raise {W A} (e : exn) : UM W A := fun s => (Raise e, s).

Definition um_try {W A} (m : UM W A) (h : exn -> UM W A) : UM W A :=
  fun s =>
    match m s with
    | (Ok a, s') => (Ok a, s')
    | (Raise e, s') => h e s'
    end.

#[global] Instance UM_ret {W} : MRet (UM W) := fun A a => um_ret a.
#[global] Instance UM_bind {W} : MBind (UM W) := fun A B k m => um_bind m k.

Definition ui_emit {W} (e : ui_event) : UM W unit :=
  fun s => (Ok tt, UiState (ui_bot s) (ui_trace s ++ [e])).

Definition ui_ask {W A} (f : W -> result A * W) : UM W A :=
  fun s =>
    let b := ui_bot s in
    let '(r, w) := f (st_world b) in
    (r, UiState (BotState w (st_trace b) (st_seen b) (st_user_states b)) (ui_trace s)).

Definition ui_lift_result {W A} (r : result A) : UM W A :=
  match r with
  | Ok a => um_ret a
  | Raise e => um_raise e
  end.

(** Run a text-layer computation; the calls it makes join the trace. *)
Definition lift {W A} (m : M W A) : UM W A :=
  fun s =>
    let '(r, b) := m (ui_bot s) in
    (r, UiState b (ui_trace s ++ map UiBase (new_events m (ui_bot s)))).

(** The events a computation adds to the trace. *)
Definition ui_new_events {W A} (m : UM W A) (s : ui_state W) : list ui_event :=
  drop (length (ui_trace s)) (ui_trace (m s).2).

Section Interactive.

Context {W : Type} (ub : UiBackend W).

Let be : Backend W := ub_base ub.

Definition send_quick_replies (wa_id body : string) (buttons : list button) : UM W unit :=
  ui_emit (UiSendQuickReplies wa_id body buttons).

Definition send_sections (wa_id body : string) (sections : list wa_section) : UM W unit :=
  ui_emit (UiSendSections wa_id body sections).

Definition update_cart_variant (wa_id : string) (item_id old_variant_id : option Z)
    (new_variant_id : Z) : UM W unit :=
  ui_emit (UiChangeVariant wa_id item_id old_variant_id new_variant_id);;
  ui_ask (ub_change_variant ub wa_id item_id old_variant_id new_variant_id).

Definition get_variants (item_id : Z) : UM W (list variant) :=
  ui_emit (UiGetVariants item_id);; ui_ask (ub_get_variants ub item_id).

Definition get_cart_lines (wa_id : string) : UM W (list cart_line) :=
  ui_emit (UiGetCartLines wa_id);; ui_ask (ub_get_cart_lines ub wa_id).

Definition fetch_catalog : UM W (list catalog_category) :=
  ui_emit UiFetchCatalog;; ui_ask (ub_fetch_catalog ub).

(** [handle_variant_choose(wa_id, cmd_id)]; the new variant is converted
    with [int] before [update_cart] is called. *)
Definition handle_variant_choose (wa_id cmd_id : string) : UM W bool :=
  let p := _parse_cmd cmd_id in
  if negb (pc_ok p && bool_decide (pc_action p = Some "VAR_CHOOSE")) then um_ret false
  else
    new_variant_id ← ui_lift_result (py_int (pc_arg p));
    update_cart_variant wa_id (pc_item_id p) (pc_variant_id p) new_variant_id;;
    lift (_send_cart be wa_id ("🔁 Variant updated." +:+ newline));;
    um_ret true.

(** [handle_edit_postback] is called by [_handle_button] and defined
    nowhere: evaluating the name raises [NameError]. *)
Definition handle_edit_postback (wa_id btn_id : string) : UM W bool :=
  um_raise (Exn "NameError").

(** [handle_edit_pick(wa_id, sel_id)] *)
Definition handle_edit_pick (wa_id sel_id : string) : UM W bool :=
  let p := _parse_cmd sel_id in
  if negb (pc_ok p && bool_decide (pc_action p = Some "EDIT_PICK")) then um_ret false
  else
    let item_id := _safe_int (opt_int (pc_item_id p)) None in
    let variant_id := _safe_int (opt_int (pc_variant_id p)) None in
    match int_or item_id None with
    | None =>
        lift (send_text wa_id "Sorry, I couldn’t identify that cart item. Try again.");;
        um_ret true
    | Some i =>
        send_quick_replies wa_id "Adjust quantity:" (edit_pick_buttons i variant_id).1;;
        lift sleep;;
        send_quick_replies wa_id "Other actions:" (edit_pick_buttons i variant_id).2;;
        um_ret true
    end.

(** [handle_edit_cart(wa_id)] *)
Definition handle_edit_cart (wa_id : string) : UM W unit :=
  items ← get_cart_lines wa_id;
  match items with
  | [] => lift (send_text wa_id "🧺 Your cart is empty. Tell me what you’d like to order.")
  | _ =>
      lift (send_text wa_id (edit_cart_summary items));;
      send_sections wa_id "Select an item to edit:" (edit_cart_sections items)
  end.

(** [_handle_list_selection(wa_id, name, sel_id)] *)
Definition _handle_list_selection (wa_id name : string) (sel_id : option string)
  : UM W unit :=
  let sel := default "" sel_id in
  if PyStr.startswith sel "CART|EDIT_PICK|"
  then handle_edit_pick wa_id sel;; um_ret tt
  else um_ret tt.

(** The buttons of one quick-reply message of the variant picker. *)
Definition variant_button (item_id : Z) (current_variant_id : option Z) (v : variant)
  : result button :=
  match int_or (Some (v_id v)) None with
  | None => Raise (Exn "TypeError")
  | Some vid =>
      let title :=
        if String.eqb (v_name v) "" then "Variant " +:+ PyStr.str_of_int vid
        else v_name v in
      Ok (BtnDict
            (Some (_cmd "VAR_CHOOSE" (Some item_id) (int_or current_variant_id (Some 0))
                     (PInt vid)))
            (Some title))
  end.

(** The loop of [_prompt_variant_picker]: a message goes out as soon as
    its group holds three buttons, the last group when it is not empty. *)
Fixpoint picker_loop (wa_id : string) (item_id : Z) (current_variant_id : option Z)
    (group : list button) (variants : list variant) : UM W unit :=
  match variants with
  | [] =>
      match group with
      | [] => um_ret tt
      | _ => send_quick_replies wa_id "Variants:" group
      end
  | v :: rest =>
      b ← ui_lift_result (variant_button item_id current_variant_id v);
      let group' := group ++ [b] in
      if (length group' =? 3)%nat
      then send_quick_replies wa_id "Variants:" group';;
           picker_loop wa_id item_id current_variant_id [] rest
      else picker_loop wa_id item_id current_variant_id group' rest
  end.

(** [_prompt_variant_picker(wa_id, item_id, current_variant_id)] *)
Definition _prompt_variant_picker (wa_id : string) (item_id : Z)
    (current_variant_id : option Z) : UM W unit :=
  variants ← um_try (get_variants item_id) (fun _ => um_ret []);
  match variants with
  | [] => lift (send_text wa_id "No other variants available for this item.")
  | _ =>
      lift (send_text wa_id "Choose a variant:");;
      picker_loop wa_id item_id current_variant_id [] variants
  end.

(** [_handle_button(wa_id, name, btn_id)] *)
Definition _handle_button (wa_id name : string) (btn_id : option string) : UM W unit :=
  match btn_id with
  | None => lift (send_text wa_id "Okay!")
  | Some EmptyString => lift (send_text wa_id "Okay!")
  | Some btn =>
      handled ←
        (if PyStr.startswith btn "CART|" then
           chosen ← handle_variant_choose wa_id btn;
           if (chosen : bool) then um_ret true else handle_edit_postback wa_id btn
         else um_ret false);
      if (handled : bool) then um_ret tt
      else
        let bid := PyStr.lower btn in
        if String.eqb bid "menu" || String.eqb bid "browse_menu" then
          m ← fetch_catalog;
          match build_wa_sections (ub_fmt_price ub) m with
          | [] => lift (send_text wa_id "Menu unavailable.")
          | sections => send_sections wa_id "Browse our menu 👇" sections
          end
        else if String.eqb bid "download_menu" then
          urls ← lift (_menu_pdf_urls be);
          match urls with
          | u :: _ => ui_emit (UiSendFile wa_id u "Menu.pdf" "Menu")
          | [] => lift (send_text wa_id "No menu PDF found.")
          end
        else if String.eqb bid "view_cart" then lift (_send_cart be wa_id EmptyString)
        else if String.eqb bid "checkout" then
          send_quick_replies wa_id "Pickup or Delivery?"
            [BtnText "Pickup"; BtnText "Delivery"; BtnText "View Cart"]
        else if String.eqb bid "edit cart" then handle_edit_cart wa_id
        else if String.eqb bid "pickup" then lift (_do_checkout be wa_id name "pickup")
        else if String.eqb bid "delivery" then
          lift (send_text wa_id "Please reply with your delivery address (one line).");;
          lift (send_text wa_id
                  "e.g. *Westlands, The Oval, 6th floor* — then send *checkout* again.")
        else lift (send_text wa_id "Okay!")
  end.

(** ** The webhook, for every kind of message *)

Inductive message_kind : Type :=
| KText (body : string)
| KButton (button_id : option string)
| KList (list_id : option string)
| KOther.

Record inbound_message : Type := InboundMessage {
  im_from : string;
  im_id : option string;
  im_hash : Z;
  im_kind : message_kind
}.

(** One round of the processing loop of [inbound]. *)
Definition ui_process_message (now : Z) (customer_name : string) (msg : inbound_message)
  : UM W unit :=
  fresh ← lift (claim_message now
                  (TextMessage (im_from msg) (im_id msg) (im_hash msg) EmptyString));
  if negb fresh then um_ret tt
  else
    match im_kind msg with
    | KButton button_id => _handle_button (im_from msg) customer_name button_id
    | KList list_id => _handle_list_selection (im_from msg) customer_name list_id
    | KText body =>
        let raw_text := PyStr.strip body in
        noted ← lift (handle_note_message be (im_from msg) raw_text);
        if (noted : bool) then um_ret tt
        else lift (_route_text be (im_from msg) customer_name raw_text)
    | KOther => um_ret tt
    end.

(** The loop of [inbound] under its [try], as [inbound_loop] for texts. *)
Fixpoint ui_inbound_loop (now : Z) (customer_name : string) (msgs : list inbound_message)
  : UM W unit :=
  match msgs with
  | [] => um_ret tt
  | msg :: rest =>
      finished ← um_try
                   (ui_process_message now customer_name msg;; um_ret true)
                   (fun _ => lift (on_crash (im_from msg));; um_ret false);
      if (finished : bool) then ui_inbound_loop now customer_name rest else um_ret tt
  end.

(** [inbound()] on a delivery of messages of any kind. *)
Definition ui_inbound (now : Z) (customer_name : string) (msgs : list inbound_message)
  : UM W (string * Z) :=
  ui_inbound_loop now customer_name msgs;; um_ret ("ok", 200).

End Interactive.

(** ** Scenarios of the interactive layer *)

(** The interactive backend over [clarifying_backend]: variant changes
    succeed, every item has a small and a large variant, the cart holds one
    line, the catalog one category. *)
Definition demo_ui_backend : UiBackend unit :=
  {| ub_base := clarifying_backend;
     ub_change_variant := fun _ _ _ _ w => (Ok tt, w);
     ub_get_variants := fun _ w => (Ok [Variant 11 "Small"; Variant 12 "Large"], w);
     ub_get_cart_lines :=
       fun _ w => (Ok [CartLine (Some 7) None (Some 3) (Some "Burger") (Some 2) (Some 500)], w);
     ub_fetch_catalog :=
       fun w => (Ok [CatalogCategory (Some "Mains")
                       [CatalogItem 1 "Burger" 500 (Some "Beef patty")]], w);
     ub_fmt_price := PyStr.str_of_int |}.

Definition ui_empty_state : ui_state unit := UiState empty_state [].

(** The ids [_handle_button] knows, apart from the CART tokens. *)
Definition known_button_ids : list string :=
  ["menu"; "browse_menu"; "download_menu"; "view_cart"; "checkout"; "edit cart";
   "pickup"; "delivery"].

(** The limits of a posted row and of a posted section. *)
Definition out_row_ok (r : out_row) : Prop :=
  (String.length (or_id r) <= 200)%nat
  /\ (String.length (or_title r) <= 24)%nat
  /\ match or_description r with
     | Some d => d <> EmptyString /\ (String.length d <= 72)%nat
     | None => True
     end.

Definition out_section_ok (s : out_section) : Prop :=
  (String.length (os_title s) <= 24)%nat
  /\ (1 <= length (os_rows s) <= 10)%nat
  /\ Forall out_row_ok (os_rows s).

(** The rows of a section handed to [send_list]. *)
Definition section_rows (s : wa_section) : list wa_row := default [] (sec_rows s).

(** The state after the interactive events [evs] were added. *)
Definition ui_log {W} (s : ui_state W) (evs : list ui_event) : ui_state W :=
  UiState (ui_bot s) (ui_trace s ++ evs).

(** The id a dict button carries before [wa_api] cuts it to 256 characters. *)
Definition button_token (b : button) : string :=
  match b with
  | BtnText s => s
  | BtnDict id _ => default "btn" id
  end.

(** The apology of [inbound]. *)
Definition APOLOGY_TEXT : string := "Sorry, something went wrong. Please try again.".

(* ================================================================== *)
(** * Part II: properties                                              *)
(* ================================================================== *)

Example parse_cmd_inc :
  _parse_cmd "CART|INC|12|0|1" = ParsedCmd true (Some "INC") (Some 12) (Some 0) (PInt 1).
Proof. reflexivity. Qed.

Example parse_cmd_dec :
  _parse_cmd (_cmd "DEC" (Some 7) None (PInt (-1)))
  = ParsedCmd true (Some "DEC") (Some 7) (Some 0) (PInt (-1)).
Proof. reflexivity. Qed.

Example parse_cmd_surplus :
  _parse_cmd "CART|INC|1|2|3|4" = ParsedCmd true (Some "INC") (Some 1) (Some 2) PNone.
Proof. reflexivity. Qed.

Example parse_cmd_non_numeric :
  _parse_cmd "CART|INC|abc|0|1" = ParsedCmd true (Some "INC") None (Some 0) (PInt 1).
Proof. reflexivity. Qed.

Example int_of_str_examples :
  map PyStr.int_of_str [" 12 "; "-7"; "+3"; "1_000"; "1__0"; "_1"; "1_"; ""; "-"; "007"; "3|4"]
  = [Some 12; Some (-7); Some 3; Some 1000; None; None; None; None; None; Some 7; None].
Proof. reflexivity. Qed.

(** ** Facts about the string primitives *)

Section StringFacts.

Import PyStr.

Lemma uint_chars_digits (d : Decimal.uint) :
  all_chars is_digit (NilEmpty.string_of_uint d) = true.
Proof. induction d; simpl; auto. Qed.

Lemma uint_string_nonempty (d : Decimal.uint) :
  d <> Decimal.Nil -> NilEmpty.string_of_uint d <> EmptyString.
Proof. destruct d; simpl; congruence. Qed.

Lemma digits_ok_all (s : string) :
  all_chars is_digit s = true -> s <> EmptyString -> digits_ok false s = true.
Proof.
  assert (G : forall t, all_chars is_digit t = true -> digits_ok true t = true).
  { induction t as [|c t IH]; simpl; [easy|].
    intros [Hc Ht]%andb_prop. rewrite Hc. auto. }
  destruct s as [|c s]; [congruence|]. simpl.
  intros [Hc Hs]%andb_prop _. rewrite Hc. auto.
Qed.

Lemma digit_not_underscore (c : ascii) :
  is_digit c = true -> Ascii.eqb c "_" = false.
Proof.
  intros H. destruct (Ascii.eqb_spec c "_") as [->|]; [discriminate H | reflexivity].
Qed.

Lemma drop_underscores_digits (s : string) :
  all_chars is_digit s = true -> drop_underscores s = s.
Proof.
  induction s as [|c s IH]; simpl; [easy|].
  intros [Hc Hs]%andb_prop. rewrite (digit_not_underscore c Hc), IH; auto.
Qed.

Lemma parse_unsigned_uint (d : Decimal.uint) :
  d <> Decimal.Nil ->
  parse_unsigned (NilEmpty.string_of_uint d) = Some (Z.of_uint d).
Proof.
  intros Hd. unfold parse_unsigned.
  rewrite digits_ok_all by auto using uint_chars_digits, uint_string_nonempty.
  rewrite drop_underscores_digits by apply uint_chars_digits.
  now rewrite NilEmpty.usu.
Qed.

Lemma digit_not_space (c : ascii) : is_digit c = true -> is_space c = false.
Proof.
  unfold is_digit, is_space. cbv zeta. intros [H1 H2]%andb_prop.
  apply Nat.leb_le in H1. apply Nat.leb_le in H2.
  apply orb_false_iff; split; apply andb_false_iff.
  - right. apply Nat.leb_gt. lia.
  - right. apply Nat.leb_gt. lia.
Qed.

Lemma token_char_not_space (c : ascii) :
  is_token_char c = true -> is_space c = false.
Proof.
  unfold is_token_char. intros [H|H]%orb_prop.
  - now apply digit_not_space.
  - apply Ascii.eqb_eq in H. now subst.
Qed.

Lemma rstrip_no_space (s : string) :
  all_chars (fun c => negb (is_space c)) s = true -> rstrip s = s.
Proof.
  induction s as [|c s IH]; simpl; [easy|].
  intros [Hc Hs]%andb_prop. rewrite IH by assumption.
  apply negb_true_iff in Hc. rewrite Hc. now destruct s.
Qed.

Lemma rstrip_app_no_space (a b : string) :
  b <> EmptyString ->
  all_chars (fun c => negb (is_space c)) b = true ->
  rstrip (a +:+ b) = a +:+ b.
Proof.
  intros Hb Hall. induction a as [|c a IH]; simpl.
  - now apply rstrip_no_space.
  - rewrite IH. assert (E : a +:+ b <> EmptyString)
      by (destruct a; [exact Hb | discriminate]).
    change (String c a +:+ b) with (String c (a +:+ b)).
    now destruct (a +:+ b).
Qed.

Lemma all_chars_impl (p q : ascii -> bool) (s : string) :
  (forall c, p c = true -> q c = true) ->
  all_chars p s = true -> all_chars q s = true.
Proof.
  intros Hpq. induction s as [|c s IH]; simpl; [easy|].
  intros [Hc Hs]%andb_prop. rewrite (Hpq c Hc). auto.
Qed.

Lemma str_of_int_chars (z : Z) :
  all_chars is_token_char (str_of_int z) = true.
Proof.
  assert (G : forall d, all_chars is_token_char (NilZero.string_of_uint d) = true).
  { intros d. destruct d; try reflexivity;
      apply (all_chars_impl is_digit); try apply (uint_chars_digits (_ d));
      intros c Hc; unfold is_token_char; now rewrite Hc. }
  destruct z; unfold str_of_int; simpl; auto.
Qed.

Lemma str_of_int_nonempty (z : Z) : str_of_int z <> EmptyString.
Proof.
  assert (G : forall d, NilZero.string_of_uint d <> EmptyString)
    by (intros d; destruct d; simpl; congruence).
  destruct z; unfold str_of_int; simpl; auto; congruence.
Qed.

Lemma str_of_int_no_space (z : Z) :
  all_chars (fun c => negb (is_space c)) (str_of_int z) = true.
Proof.
  apply (all_chars_impl is_token_char); [|apply str_of_int_chars].
  intros c Hc. now rewrite (token_char_not_space c Hc).
Qed.

Lemma strip_no_space (s : string) :
  all_chars (fun c => negb (is_space c)) s = true -> strip s = s.
Proof.
  intros H. unfold strip.
  assert (L : lstrip s = s).
  { destruct s as [|c s]; [reflexivity|]. simpl in *.
    apply andb_prop in H as [Hc _]. apply negb_true_iff in Hc. now rewrite Hc. }
  rewrite L. now apply rstrip_no_space.
Qed.

Lemma nz_uint_string (p : positive) :
  NilZero.string_of_uint (Pos.to_uint p) = NilEmpty.string_of_uint (Pos.to_uint p).
Proof.
  pose proof (DecimalPos.Unsigned.to_uint_nonnil p) as H.
  unfold NilZero.string_of_uint. destruct (Pos.to_uint p); congruence.
Qed.

Lemma first_digit_not_sign (d : Decimal.uint) c r :
  NilEmpty.string_of_uint d = String c r ->
  Ascii.eqb c "-" = false /\ Ascii.eqb c "+" = false.
Proof. destruct d; simpl; intros [= <- _]; auto; discriminate. Qed.

(** [int(str(z)) == z] *)
Lemma int_of_str_of_int (z : Z) : int_of_str (str_of_int z) = Some z.
Proof.
  unfold int_of_str. rewrite strip_no_space by apply str_of_int_no_space.
  destruct z as [|p|p]; [reflexivity| |]; unfold str_of_int; simpl.
  - rewrite nz_uint_string.
    pose proof (DecimalPos.Unsigned.to_uint_nonnil p) as Hn.
    destruct (NilEmpty.string_of_uint (Pos.to_uint p)) as [|c r] eqn:E.
    + now apply uint_string_nonempty in E.
    + destruct (first_digit_not_sign _ _ _ E) as [-> ->]. rewrite <- E.
      rewrite parse_unsigned_uint by assumption.
      f_equal. exact (DecimalZ.of_to (Z.pos p)).
  - rewrite nz_uint_string.
    pose proof (DecimalPos.Unsigned.to_uint_nonnil p) as Hn.
    rewrite parse_unsigned_uint by assumption. simpl.
    f_equal. exact (DecimalZ.of_to (Z.neg p)).
Qed.

End StringFacts.

(** ** The command codec *)

Section CodecFacts.

Import PyStr.

Lemma app_assoc_str (a b c : string) : (a +:+ b) +:+ c = a +:+ (b +:+ c).
Proof.
  induction a as [|x a IH]; [reflexivity|].
  change (String x ((a +:+ b) +:+ c) = String x (a +:+ (b +:+ c))).
  now rewrite IH.
Qed.


Lemma split_go_zero sep s : split_go sep 0 0 s = [s].
Proof. induction s as [|c s IH]; simpl; [reflexivity | now rewrite IH]. Qed.

(** One field is peeled off at each separator while splits remain. *)
Lemma split_go_piece n piece rest :
  count_char "|" piece = O ->
  split_go "|" (S n) 0 (piece +:+ String "|" rest) = piece :: split_go "|" n 0 rest.
Proof.
  induction piece as [|c piece IH]; intros Hc.
  - reflexivity.
  - change (String c piece +:+ String "|" rest)
      with (String c (piece +:+ String "|" rest)).
    simpl in Hc. cbn [split_go prefix].
    rewrite Ascii.eqb_sym.
    destruct (Ascii.eqb c "|"); [discriminate Hc|]. simpl.
    now rewrite IH.
Qed.







Lemma str_of_int_not (z : Z) (w : string) :
  all_chars is_token_char w = false -> String.eqb (str_of_int z) w = false.
Proof.
  intros Hw. apply String.eqb_neq. intros E.
  pose proof (str_of_int_chars z) as H. rewrite E in H. congruence.
Qed.

Lemma safe_int_of_rendered (z : Z) (d : option Z) :
  _safe_int (PStr (str_of_int z)) d = Some z.
Proof.
  unfold _safe_int, py_str.
  rewrite strip_no_space by apply str_of_int_no_space.
  assert (E0 : String.eqb (str_of_int z) "" = false)
    by (apply String.eqb_neq, str_of_int_nonempty).
  rewrite E0, !str_of_int_not by reflexivity. simpl.
  now rewrite int_of_str_of_int.
Qed.

Lemma count_char_rendered (z : Z) : count_char "|" (str_of_int z) = O.
Proof.
  pose proof (str_of_int_chars z) as H.
  induction (str_of_int z) as [|c s IH]; [reflexivity|]. simpl in *.
  apply andb_prop in H as [Hc Hs]. rewrite (IH Hs).
  destruct (Ascii.eqb_spec c "|") as [->|]; [discriminate Hc | reflexivity].
Qed.

Lemma strip_token (action : string) (i v a : Z) :
  strip (_cmd action (Some i) (Some v) (PInt a))
  = _cmd action (Some i) (Some v) (PInt a).
Proof.
  unfold _cmd, strip, py_str. cbn [default lstrip]. 
  change (lstrip ("CART|" +:+ ?x)) with ("CART|" +:+ x).
  rewrite <- !app_assoc_str.
  apply rstrip_app_no_space; [apply str_of_int_nonempty | apply str_of_int_no_space].
Qed.

(** C7.  Codec round trip: decoding the token that [_cmd] builds from an
    action without pipe characters, an item id, a variant id and an
    integer argument gives back exactly these fields with [ok = true].
    It holds for all integers, in particular for ids [>= 0]. *)
Theorem codec_roundtrip (action : string) (item_id variant_id arg : Z) :
  count_char "|" action = O ->
  _parse_cmd (_cmd action (Some item_id) (Some variant_id) (PInt arg))
  = ParsedCmd true (Some action) (Some item_id) (Some variant_id) (PInt arg).
Proof.
  intros Hact. unfold _parse_cmd. rewrite strip_token.
  change (_cmd action (Some item_id) (Some variant_id) (PInt arg))
    with ("CART" +:+ String "|" (action +:+ String "|" (str_of_int item_id
            +:+ String "|" (str_of_int variant_id
            +:+ String "|" (str_of_int arg))))).
  unfold split_max.
  rewrite split_go_piece by reflexivity.
  rewrite split_go_piece by assumption.
  rewrite !split_go_piece by apply count_char_rendered.
  rewrite split_go_zero. cbn [String.eqb negb].
  change (String.eqb "CART" "CART") with true. cbn [negb].
  rewrite !safe_int_of_rendered.
  assert (E0 : String.eqb (str_of_int arg) "" = false)
    by (apply String.eqb_neq, str_of_int_nonempty).
  now rewrite E0, str_of_int_not by reflexivity.
Qed.

Lemma codec_roundtrip_witness :
  _parse_cmd (_cmd "VAR_CHOOSE" (Some 12) (Some 3) (PInt 4))
  = ParsedCmd true (Some "VAR_CHOOSE") (Some 12) (Some 3) (PInt 4).
Proof. apply (codec_roundtrip "VAR_CHOOSE" 12 3 4). reflexivity. Defined.




End CodecFacts.

(** ** The message deduper *)

Section DedupFacts.

Variables (ttl : Z) (kind wa_id : string) (msg_id : option string) (ph : Z).

Let key := dedupe_key kind wa_id msg_id ph.

Lemma sweep_lookup_live (now : Z) (seen : gmap string Z) (k : string) (exp : Z) :
  seen !! k = Some exp -> now <= exp -> sweep now seen !! k = Some exp.
Proof.
  intros Hk Hle. unfold sweep. apply map_lookup_filter_Some. split; [done|].
  simpl. lia.
Qed.

Lemma sweep_lookup_none (now : Z) (seen : gmap string Z) (k : string) :
  seen !! k = None -> sweep now seen !! k = None.
Proof. intros Hk. unfold sweep. apply map_lookup_filter_None. by left. Qed.

(** A key that is not in the table is accepted and stored with its expiry. *)
Lemma claim_fresh (now : Z) (seen : gmap string Z) :
  seen !! key = None ->
  exists seen', claim_once_at ttl kind wa_id msg_id ph now seen
                = (true, <[key := now + ttl]> seen')
                /\ seen' !! key = None.
Proof.
  intros Hk. unfold claim_once_at. fold key.
  destruct (negb _ && _).
  - exists (sweep now seen). rewrite sweep_lookup_none by done.
    by split.
  - exists seen. by rewrite Hk.
Qed.

(** A key whose entry has not expired is refused, swept or not. *)
Lemma claim_live (now exp : Z) (seen : gmap string Z) :
  seen !! key = Some exp -> now <= exp ->
  (claim_once_at ttl kind wa_id msg_id ph now seen).1 = false.
Proof.
  intros Hk Hle. unfold claim_once_at. fold key.
  destruct (negb _ && _).
  - by rewrite (sweep_lookup_live _ _ _ _ Hk Hle).
  - by rewrite Hk.
Qed.

(** A key whose entry has expired is still refused unless the sweep runs,
    which it does only when the table size is a positive multiple of 100. *)
Lemma claim_expired_unswept (now exp : Z) (seen : gmap string Z) :
  seen !! key = Some exp -> exp < now ->
  (size seen mod 100 ≠ 0)%nat ->
  (claim_once_at ttl kind wa_id msg_id ph now seen).1 = false.
Proof.
  intros Hk _ Hsz. unfold claim_once_at. fold key.
  apply Nat.eqb_neq in Hsz. rewrite Hsz, andb_false_r. by rewrite Hk.
Qed.

(** Within the time-to-live, two claims of a fresh key answer
    [(true, false)]. *)
Lemma claim_twice_within_ttl (t1 t2 : Z) (seen : gmap string Z) :
  seen !! key = None -> 0 <= ttl -> t1 <= t2 <= t1 + ttl ->
  claim_twice ttl kind wa_id msg_id ph t1 t2 seen = (true, false).
Proof.
  intros Hk Httl Ht. unfold claim_twice.
  destruct (claim_fresh t1 seen Hk) as (seen' & -> & _). simpl.
  f_equal. apply (claim_live t2 (t1 + ttl)); [|lia].
  fold key. by rewrite lookup_insert_eq.
Qed.

End DedupFacts.

(** C1.  After the time-to-live has elapsed the second claim is still
    refused: with an empty table, a message claimed at time 0 and again one
    second after the 48h window gives [(true, false)], not [(true, true)].
    The lookup [key in _seen] never reads the stored expiry. *)
Theorem claim_twice_after_ttl_refused :
  172800 < 172801 /\
  claim_twice _DEDUP_TTL "message" "254700000001" (Some "wamid.A") 0
    0 172801 ∅ = (true, false).
Proof. split; [lia | reflexivity]. Qed.

(** ** Traces of computations *)

Section TraceFacts.

Context {W : Type} (P : event -> Prop).

Lemma extends_refl (st : bot_state W) : extends P st st.
Proof. exists []. by rewrite app_nil_r. Qed.

Lemma extends_trans (st1 st2 st3 : bot_state W) :
  extends P st1 st2 -> extends P st2 st3 -> extends P st1 st3.
Proof.
  intros (e1 & H1 & F1) (e2 & H2 & F2). exists (e1 ++ e2).
  rewrite H2, H1, app_assoc. split; [done | by apply Forall_app].
Qed.

Lemma emits_ret {A} (a : A) : emits (W:=W) P (m_ret a).
Proof. intros st. apply extends_refl. Qed.

Lemma emits_raise {A} (e : exn) : emits (W:=W) (A:=A) P (m_raise e).
Proof. intros st. apply extends_refl. Qed.

Lemma emits_lift {A} (r : result A) : emits (W:=W) P (lift_result r).
Proof. destruct r; [apply emits_ret | apply emits_raise]. Qed.

Lemma emits_emit (e : event) : P e -> emits (W:=W) P (emit e).
Proof. intros He st. exists [e]. split; [done | by constructor]. Qed.

Lemma emits_ask {A} (f : W -> result A * W) : emits P (ask f).
Proof.
  intros st. unfold ask. destruct (f (st_world st)) as [r w].
  exists []. by rewrite app_nil_r.
Qed.

Lemma emits_bind {A B} (m : M W A) (k : A -> M W B) :
  emits P m -> (forall a, emits P (k a)) -> emits P (m ≫= k).
Proof.
  intros Hm Hk st. specialize (Hm st).
  unfold mbind, M_bind, m_bind. destruct (m st) as [[a|e] st1]; simpl in *.
  - eapply extends_trans; [exact Hm | apply Hk].
  - exact Hm.
Qed.

Lemma emits_try {A} (m : M W A) (h : exn -> M W A) :
  emits P m -> (forall e, emits P (h e)) -> emits P (try_except m h).
Proof.
  intros Hm Hh st. specialize (Hm st).
  unfold try_except. destruct (m st) as [[a|e] st1]; simpl in *.
  - exact Hm.
  - eapply extends_trans; [exact Hm | apply Hh].
Qed.

Lemma bind_run {A B} (m : M W A) (k : A -> M W B) (st : bot_state W) :
  (m ≫= k) st
  = match m st with
    | (Ok a, st') => k a st'
    | (Raise e, st') => (Raise e, st')
    end.
Proof. reflexivity. Qed.

Lemma emits_get_state (wa_id : string) : emits (W:=W) P (_get_user_state wa_id).
Proof. intros st. apply extends_refl. Qed.

Lemma emits_clear_state (wa_id : string) : emits (W:=W) P (_clear_user_state wa_id).
Proof. intros st. exists []. by rewrite app_nil_r. Qed.

Lemma extends_new_events {A} (m : M W A) (st : bot_state W) :
  extends P st (m st).2 -> Forall P (new_events m st).
Proof.
  intros (evs & E & F). unfold new_events. rewrite E.
  by rewrite drop_app_length.
Qed.

End TraceFacts.

(** Decompose a handler along its binds, handlers and branches. *)
Ltac emits_step :=
  match goal with
  | |- emits _ (_ ≫= _) => apply emits_bind; [|intros ?]
  | |- emits _ (try_except _ _) => apply emits_try; [|intros ?]
  | |- emits _ (m_ret _) => apply emits_ret
  | |- emits _ (m_raise _) => apply emits_raise
  | |- emits _ (lift_result _) => apply emits_lift
  | |- emits _ (ask _) => apply emits_ask
  | |- emits _ (emit _) => apply emits_emit; simpl; try done
  | |- emits _ (_get_user_state _) => apply emits_get_state
  | |- emits _ (_clear_user_state _) => apply emits_clear_state
  | |- emits _ (if ?b then _ else _) => destruct b
  | |- emits _ (match ?x with _ => _ end) => destruct x
  end.

Ltac emits_auto := repeat emits_step.

Section HandlerTraces.

Context {W : Type} (be : Backend W).

(** The cart summary asks for the cart, sends one text, and returns. *)
Lemma send_cart_run (wa_id prefix : string) (st : bot_state W) :
  exists (s : string) (w' : W),
    (s = "Cart error" \/ exists items, s = cart_summary items) /\
    _send_cart be wa_id prefix st
    = (Ok tt, log st w' [EvGetCart wa_id; EvSendText wa_id s]).
Proof.
  unfold _send_cart, try_except, get_cart, send_text, emit, ask, log.
  unfold mbind, M_bind, m_bind. simpl.
  destruct (be_get_cart be wa_id (st_world st)) as [[items|e] w']; simpl;
    rewrite <- app_assoc; eauto 6.
Qed.

Lemma send_cart_emits (P : event -> Prop) (wa_id prefix : string) :
  (forall s, P (EvSendText wa_id s)) -> P (EvGetCart wa_id) ->
  emits P (_send_cart be wa_id prefix).
Proof. intros Hs Hg. unfold _send_cart, get_cart, send_text. emits_auto. Qed.

Lemma do_checkout_quiet (wa_id name method : string) :
  emits (fun e => is_llm_call e = false) (_do_checkout be wa_id name method).
Proof. unfold _do_checkout, checkout, send_text, update_last_order. emits_auto. Qed.

Lemma status_reply_quiet (wa_id text_lower : string) :
  emits (fun e => is_llm_call e = false) (status_reply be wa_id text_lower).
Proof. unfold status_reply, fetch_order, send_text. emits_auto. Qed.

End HandlerTraces.

(** ** The text router *)

Section RouterFacts.

Context {W : Type} (be : Backend W).

(** The rule list read in order is the cascade of tests of [_route_text]. *)
Lemma fast_path_cases (text : string) :
  let t := PyStr.lower (PyStr.strip text) in
  fast_path text =
    if PyStr.any_in checkout_words t then Some RuleCheckout
    else if PyStr.startswith t "status" then Some RuleStatus
    else if PyStr.any_in cart_words t then Some RuleCart
    else None.
Proof.
  intros t. unfold fast_path, fast_rules. cbn [List.find snd]. fold t.
  destruct (PyStr.any_in checkout_words t); [reflexivity|].
  destruct (PyStr.startswith t "status"); [reflexivity|].
  now destruct (PyStr.any_in cart_words t).
Qed.

Lemma route_text_by_rule (wa_id name text : string) :
  _route_text be wa_id name text =
    match fast_path text with
    | Some RuleCheckout => _do_checkout be wa_id name "pickup"
    | Some RuleStatus => status_reply be wa_id (PyStr.lower (PyStr.strip text))
    | Some RuleCart => _send_cart be wa_id EmptyString
    | None => classifier_tier be wa_id name text
    end.
Proof.
  rewrite fast_path_cases. unfold _route_text. cbv zeta.
  destruct (PyStr.any_in checkout_words _); [reflexivity|].
  destruct (PyStr.startswith _ "status"); [reflexivity|].
  now destruct (PyStr.any_in cart_words _).
Qed.

(** C9.  The fast-path rules are tried on the trimmed, lowercased text in
    the order checkout keywords, status prefix, cart keywords ([fast_path]
    reads them as an ordered list, first match wins); the router does what
    the first matching rule says and nothing else, the classifier tier is
    entered only when no rule matches, and on a text matched by any rule
    no call to the classifier is made. *)
Theorem fast_path_first_match_wins (wa_id name text : string) :
  match fast_path text with
  | Some RuleCheckout =>
      _route_text be wa_id name text = _do_checkout be wa_id name "pickup"
  | Some RuleStatus =>
      _route_text be wa_id name text
      = status_reply be wa_id (PyStr.lower (PyStr.strip text))
  | Some RuleCart =>
      _route_text be wa_id name text = _send_cart be wa_id EmptyString
  | None =>
      _route_text be wa_id name text = classifier_tier be wa_id name text
  end
  /\ (forall rule, fast_path text = Some rule ->
      forall st, Forall (fun e => is_llm_call e = false)
                   (new_events (_route_text be wa_id name text) st)).
Proof.
  split.
  - rewrite route_text_by_rule. now destruct (fast_path text) as [[]|].
  - intros rule Hrule st. apply extends_new_events. revert st.
    change (emits (fun e => is_llm_call e = false) (_route_text be wa_id name text)).
    rewrite route_text_by_rule, Hrule. destruct rule.
    + apply do_checkout_quiet.
    + apply status_reply_quiet.
    + now apply send_cart_emits.
Qed.

(** The binding of the router's call to the signature of [llm_route]
    fails: [max_tokens] is not a parameter. *)
Lemma llm_route_call_type_error (prompt : string) :
  bind_call llm_route_params [ArgStr prompt]
    [("max_tokens", ArgInt 40); ("temperature", ArgFloat "0.0")]
  = Raise (Exn "TypeError").
Proof. reflexivity. Qed.

(** So the reply the router works with is always the empty string, and
    the classifier itself is never asked. *)
Lemma ask_llm_run (prompt : string) (st : bot_state W) :
  ask_llm be prompt st
  = (Ok EmptyString,
     log st (st_world st) [EvLlmRoute 1 ["max_tokens"; "temperature"]]).
Proof. reflexivity. Qed.

Lemma route_reply_empty (wa_id name text : string) :
  route_reply be wa_id name text EmptyString
  = (send_text wa_id FALLBACK_TEXT;; sleep;; _send_cart be wa_id EmptyString).
Proof. reflexivity. Qed.

(** The run of the classifier tier: the cart is read for the prompt;
    then either the customer name has no first word and [IndexError]
    escapes, or the fallback text and the cart summary are sent. *)
Lemma classifier_tier_run (wa_id name text : string) (st : bot_state W) :
  exists w1 : W,
    match first_word name with
    | None =>
        classifier_tier be wa_id name text st
        = (Raise (Exn "IndexError"), log st w1 [EvGetCart wa_id])
    | Some _ =>
        exists (summary : string) (w2 : W),
          (summary = "Cart error" \/ exists items, summary = cart_summary items) /\
          classifier_tier be wa_id name text st
          = (Ok tt,
             log st w2
               [ EvGetCart wa_id;
                 EvLlmRoute 1 ["max_tokens"; "temperature"];
                 EvSendText wa_id FALLBACK_TEXT;
                 EvSleep;
                 EvGetCart wa_id;
                 EvSendText wa_id summary ])
    end.
Proof.
  assert (Hc : exists ct w1,
    try_except (items ← get_cart be wa_id; m_ret (cart_text_of items))
      (fun _ => m_ret "nothing yet") st = (Ok ct, log st w1 [EvGetCart wa_id])).
  { unfold try_except, get_cart, emit, ask, mbind, M_bind, m_bind, m_ret, log. simpl.
    destruct (be_get_cart be wa_id (st_world st)) as [[items|e] w']; simpl; eauto. }
  destruct Hc as (ct & w1 & Hc). exists w1.
  unfold classifier_tier. rewrite bind_run, Hc.
  destruct (first_word name) as [fn|]; [|reflexivity].
  rewrite bind_run, ask_llm_run, route_reply_empty.
  unfold mbind, M_bind, m_bind, send_text, sleep, emit. simpl.
  match goal with |- context [_send_cart be wa_id ?p ?s] =>
    destruct (send_cart_run be wa_id p s) as (summary & w2 & Hs & ->) end.
  exists summary, w2. split; [exact Hs|]. unfold log. simpl. do 2 f_equal.
  by rewrite <- !app_assoc.
Qed.

Lemma new_events_log {A} (m : M W A) (st : bot_state W) (r : result A) (w : W)
    (evs : list event) :
  m st = (r, log st w evs) -> new_events m st = evs.
Proof. intros E. unfold new_events. rewrite E. simpl. by rewrite drop_app_length. Qed.

(** The classifier path for a sender whose display name has a first
    word, on a text that no fast-path rule matches: the router's call of
    [llm_route] with [max_tokens] and [temperature] raises [TypeError]
    at binding, the reply it works with is the empty string, and the run
    is exactly: read the cart, attempt the call, send the generic
    fallback text, pause, read the cart, send the cart summary.  No
    branch of an ADD, REMOVE, CHANGE, MENU, CHECKOUT or RECOMMEND reply
    is taken. *)
Theorem classifier_path_always_falls_back (wa_id name text first_name : string)
    (st : bot_state W) :
  fast_path text = None ->
  first_word name = Some first_name ->
  (forall prompt,
      bind_call llm_route_params [ArgStr prompt]
        [("max_tokens", ArgInt 40); ("temperature", ArgFloat "0.0")]
      = Raise (Exn "TypeError"))
  /\ (forall prompt st1, (ask_llm be prompt st1).1 = Ok EmptyString)
  /\ exists (summary : string) (w' : W),
       (summary = "Cart error" \/ exists items, summary = cart_summary items)
       /\ _route_text be wa_id name text st
          = (Ok tt,
             log st w'
               [ EvGetCart wa_id;
                 EvLlmRoute 1 ["max_tokens"; "temperature"];
                 EvSendText wa_id FALLBACK_TEXT;
                 EvSleep;
                 EvGetCart wa_id;
                 EvSendText wa_id summary ]).
Proof.
  intros Hfast Hname. split; [reflexivity|]. split; [reflexivity|].
  rewrite route_text_by_rule, Hfast.
  destruct (classifier_tier_run wa_id name text st) as (w1 & H).
  rewrite Hname in H. destruct H as (summary & w2 & Hs & H). eauto.
Qed.

(** The runs of the classifier path make no cart-mutating call and never
    request the chat completion; what they send is nothing (when the run
    stops on the customer name) or the generic fallback text followed by
    the cart summary. *)
Theorem classifier_path_no_mutation (wa_id name text : string) (st : bot_state W) :
  fast_path text = None ->
  let evs := new_events (_route_text be wa_id name text) st in
  Forall (fun e => is_cart_mutation e = false) evs
  /\ Forall (fun e => forall prompt, e <> EvChatCreate prompt) evs
  /\ (List.filter is_outbound evs = []
      \/ exists summary,
           (summary = "Cart error" \/ exists items, summary = cart_summary items)
           /\ List.filter is_outbound evs
              = [EvSendText wa_id FALLBACK_TEXT; EvSendText wa_id summary]).
Proof.
  intros Hfast evs. subst evs. rewrite route_text_by_rule, Hfast.
  destruct (classifier_tier_run wa_id name text st) as (w1 & H).
  destruct (first_word name) as [fn|].
  - destruct H as (summary & w2 & Hs & H).
    rewrite (new_events_log _ _ _ _ _ H).
    split; [|split].
    + repeat constructor.
    + repeat constructor; discriminate.
    + right. exists summary. by split.
  - rewrite (new_events_log _ _ _ _ _ H).
    split; [|split].
    + repeat constructor.
    + repeat constructor; discriminate.
    + by left.
Qed.

End RouterFacts.

(** C2.  Not every text that misses the fast-path rules ends in the
    generic fallback text and the cart summary.  For a sender whose
    profile name is empty, [name.split()[0]] raises [IndexError]
    while the prompt is built, before the classifier is called and outside
    every [try] of [_route_text]: the customer receives the apology of
    [inbound] and neither the fallback text nor the cart summary. *)
Theorem classifier_path_blank_name_apology :
  let delivery := [TextMessage "2547" (Some "wamid.A") 0 "hello there"] in
  fast_path "hello there" = None
  /\ _route_text clarifying_backend "2547" "" "hello there" empty_state
     = (Raise (Exn "IndexError"), log empty_state tt [EvGetCart "2547"])
  /\ (inbound clarifying_backend 0 "" delivery empty_state).1 = Ok ("ok", 200)
  /\ new_events (inbound clarifying_backend 0 "" delivery) empty_state
     = [EvGetCart "2547";
        EvSendText "2547" "Sorry, something went wrong. Please try again."].
Proof. repeat split; reflexivity. Qed.

Lemma classifier_path_always_falls_back_witness :
  fast_path "hello there" = None /\
  first_word "Asha K" = Some "Asha" /\
  exists (summary : string) (w' : unit),
    (summary = "Cart error" \/ exists items, summary = cart_summary items)
    /\ _route_text clarifying_backend "2547" "Asha K" "hello there" empty_state
       = (Ok tt,
          log empty_state w'
            [ EvGetCart "2547";
              EvLlmRoute 1 ["max_tokens"; "temperature"];
              EvSendText "2547" FALLBACK_TEXT;
              EvSleep;
              EvGetCart "2547";
              EvSendText "2547" summary ]).
Proof.
  split; [reflexivity|]. split; [reflexivity|].
  apply (classifier_path_always_falls_back clarifying_backend
           "2547" "Asha K" "hello there" "Asha" empty_state);
    reflexivity.
Defined.


Lemma classifier_path_no_mutation_witness :
  fast_path "hello there" = None /\
  let evs := new_events (_route_text clarifying_backend "2547" "Asha K" "hello there")
               empty_state in
  Forall (fun e => is_cart_mutation e = false) evs
  /\ Forall (fun e => forall prompt, e <> EvChatCreate prompt) evs
  /\ (List.filter is_outbound evs = []
      \/ exists summary,
           (summary = "Cart error" \/ exists items, summary = cart_summary items)
           /\ List.filter is_outbound evs
              = [EvSendText "2547" FALLBACK_TEXT; EvSendText "2547" summary]).
Proof.
  split; [reflexivity|].
  apply (classifier_path_no_mutation clarifying_backend
           "2547" "Asha K" "hello there" empty_state).
  reflexivity.
Defined.

Lemma fast_path_first_match_wins_witness :
  fast_path "checkout my cart" = Some RuleCheckout /\
  forall st, Forall (fun e => is_llm_call e = false)
               (new_events (_route_text clarifying_backend "2547" "Asha K" "checkout my cart")
                  st).
Proof.
  split; [reflexivity|].
  apply (fast_path_first_match_wins clarifying_backend "2547" "Asha K" "checkout my cart")
    with (rule := RuleCheckout).
  reflexivity.
Defined.

(** ** Note capture *)

Section NoteFacts.

Context {W : Type} (be : Backend W).

(** When [update_cart] returns, the note (trimmed, cut to 240) is applied
    and the sender's state is cleared. *)
Lemma note_capture_success (wa_id text : string) (st : bot_state W)
    (state : gmap string pyval) (i : Z) (w' : W) :
  st_user_states st !! wa_id = Some state ->
  is_await_note state = true ->
  _safe_int (dict_get state "item_id") None = Some i -> i <> 0 ->
  be_update_cart be wa_id
    [OpSetNote i (dict_get state "variant_id") (PyStr.take 240 (PyStr.strip text))]
    (st_world st) = (Ok tt, w') ->
  exists st',
    handle_note_message be wa_id text st = (Ok true, st')
    /\ st_user_states st' = delete wa_id (st_user_states st)
    /\ exists rest,
         st_trace st' =
           st_trace st
           ++ EvUpdateCart wa_id
                [OpSetNote i (dict_get state "variant_id")
                   (PyStr.take 240 (PyStr.strip text))] :: rest.
Proof.
  intros Hst Hmode Hitem Hi Hup.
  unfold handle_note_message. rewrite bind_run.
  unfold _get_user_state. rewrite Hst. cbn [default from_option id].
  rewrite Hmode. cbn [negb]. rewrite Hitem.
  apply Z.eqb_neq in Hi. rewrite Hi.
  rewrite bind_run. unfold update_cart at 1. rewrite bind_run.
  unfold emit at 1, ask at 1. cbn [st_world]. rewrite Hup.
  rewrite bind_run. unfold _clear_user_state at 1.
  rewrite bind_run.
  match goal with |- context [_send_cart be wa_id ?p ?s] =>
    destruct (send_cart_run be wa_id p s) as (summary & w2 & _ & ->) end.
  eexists. split; [reflexivity|]. simpl. split; [reflexivity|].
  rewrite <- app_assoc. eauto.
Qed.

(** When [update_cart] raises, the exception leaves [handle_note_message]
    before [_clear_user_state] is reached: the state is as it was. *)
Lemma note_capture_failure (wa_id text : string) (st : bot_state W)
    (state : gmap string pyval) (i : Z) (e : exn) (w' : W) :
  st_user_states st !! wa_id = Some state ->
  is_await_note state = true ->
  _safe_int (dict_get state "item_id") None = Some i -> i <> 0 ->
  be_update_cart be wa_id
    [OpSetNote i (dict_get state "variant_id") (PyStr.take 240 (PyStr.strip text))]
    (st_world st) = (Raise e, w') ->
  exists st',
    handle_note_message be wa_id text st = (Raise e, st')
    /\ st_user_states st' = st_user_states st.
Proof.
  intros Hst Hmode Hitem Hi Hup.
  unfold handle_note_message. rewrite bind_run.
  unfold _get_user_state. rewrite Hst. cbn [default from_option id].
  rewrite Hmode. cbn [negb]. rewrite Hitem.
  apply Z.eqb_neq in Hi. rewrite Hi.
  rewrite bind_run. unfold update_cart at 1. rewrite bind_run.
  unfold emit at 1, ask at 1. cbn [st_world]. rewrite Hup.
  eexists. split; reflexivity.
Qed.

End NoteFacts.

(** C4.  A sender waiting for a note on item 7 sends the note while the
    backend refuses [update_cart]: the webhook apologises and acknowledges,
    and the sender is still in [await_note] mode afterwards.  The state is
    cleared only when the mutation succeeds. *)
Theorem note_state_stuck_after_failed_update :
  let run := inbound failing_backend 0 "Asha K"
               [TextMessage "2547" (Some "wamid.1") 0 "no onions please"]
               awaiting_note_state in
  run.1 = Ok ("ok", 200)
  /\ st_trace run.2
     = [ EvUpdateCart "2547" [OpSetNote 7 PNone "no onions please"];
         EvSendText "2547" "Sorry, something went wrong. Please try again." ]
  /\ is_await_note (default ∅ (st_user_states run.2 !! "2547")) = true.
Proof. repeat split; reflexivity. Qed.

(** ** The classifier entry point *)

Section LlmRouteFacts.

Context {W : Type} (be : Backend W).

Lemma classify_failure (prompt : string) (st : bot_state W) :
  classifier_failure be prompt (st_world st) ->
  exists e st', classify be prompt st = (Raise e, st').
Proof.
  intros H. unfold classify. rewrite bind_run, bind_run.
  unfold emit at 1, ask at 1. cbn [st_world].
  destruct H as [e w' Hc | resp e w' Hc Ht | resp args e w' Hc Ht Hj
                | resp args data e w' Hc Ht Hj Hv]; rewrite Hc; eauto;
    rewrite bind_run, Ht; simpl; eauto;
    rewrite bind_run, Hj; simpl; eauto.
  rewrite Hv. simpl. eauto.
Qed.

(** C5.  [llm_route] always returns a [ParsedOrder] and never raises;
    when the classifier call fails at any stage (the request, the tool
    call, the JSON, the schema) the value returned is the sentinel:
    action SMALL_TALK, no items, no clarifications, the retry text. *)
Theorem llm_route_contains_failures
    (user_text menu_snapshot user_profile cart_snapshot menu_text : string)
    (st : bot_state W) :
  (exists p,
      (llm_route be user_text menu_snapshot user_profile cart_snapshot menu_text st).1
      = Ok p)
  /\ (classifier_failure be
        (llm_prompt user_text menu_snapshot user_profile cart_snapshot menu_text)
        (st_world st) ->
      (llm_route be user_text menu_snapshot user_profile cart_snapshot menu_text st).1
      = Ok fallback_order)
  /\ po_action fallback_order = SMALL_TALK
  /\ po_items fallback_order = []
  /\ po_clarifications fallback_order = []
  /\ po_response_text fallback_order
     = Some "Sorry, I didn't catch that. Could you try again or ask for the menu?".
Proof.
  split; [|split; [|repeat split]].
  - unfold llm_route, try_except.
    destruct (classify be _ st) as [[p|e] st']; simpl; eauto.
  - intros H. destruct (classify_failure _ st H) as (e & st' & E).
    unfold llm_route, try_except. by rewrite E.
Qed.

End LlmRouteFacts.

Lemma llm_route_contains_failures_witness :
  classifier_failure failing_backend (llm_prompt "two burgers" "[]" "{}" "[]" "") tt
  /\ (llm_route failing_backend "two burgers" "[]" "{}" "[]" "" empty_state).1
     = Ok fallback_order.
Proof.
  assert (H : classifier_failure failing_backend
                (llm_prompt "two burgers" "[]" "{}" "[]" "") tt).
  { eapply json_parse_failure; reflexivity. }
  split; [exact H|].
  apply (llm_route_contains_failures failing_backend
           "two burgers" "[]" "{}" "[]" "" empty_state).
  exact H.
Defined.

(** ** The recommendation engine *)

Section SortFacts.

Context {A : Type} (leb : A -> A -> bool).

Let R (x y : A) : Prop := leb x y = true.

Lemma insert_sorted_length (x : A) (l : list A) :
  length (insert_sorted leb x l) = S (length l).
Proof.
  induction l as [|y l IH]; simpl; [reflexivity|].
  destruct (leb x y); simpl; [reflexivity | now rewrite IH].
Qed.

Lemma sorted_by_length (l : list A) : length (sorted_by leb l) = length l.
Proof.
  induction l as [|x l IH]; simpl; [reflexivity|].
  now rewrite insert_sorted_length, IH.
Qed.

Lemma insert_sorted_Forall (P : A -> Prop) (x : A) (l : list A) :
  P x -> Forall P l -> Forall P (insert_sorted leb x l).
Proof.
  intros Hx Hl. induction Hl as [|y l Hy Hl IH]; simpl; [by repeat constructor|].
  destruct (leb x y); repeat constructor; auto.
Qed.

Lemma sorted_by_Forall (P : A -> Prop) (l : list A) :
  Forall P l -> Forall P (sorted_by leb l).
Proof.
  induction 1 as [|x l Hx Hl IH]; simpl; [constructor|].
  by apply insert_sorted_Forall.
Qed.

Hypothesis leb_total : forall x y, leb x y = false -> leb y x = true.

Lemma insert_sorted_HdRel (a x : A) (l : list A) :
  R a x -> HdRel R a l -> HdRel R a (insert_sorted leb x l).
Proof.
  intros Hax Hl. destruct l as [|y l]; simpl; [by constructor|].
  destruct (leb x y); constructor; [done | by inversion Hl].
Qed.

Lemma insert_sorted_Sorted (x : A) (l : list A) :
  Sorted R l -> Sorted R (insert_sorted leb x l).
Proof.
  induction 1 as [|y l Hl IH Hy]; simpl; [by repeat constructor|].
  destruct (leb x y) eqn:E.
  - by repeat constructor.
  - constructor; [exact IH|]. apply insert_sorted_HdRel; [|exact Hy].
    by apply leb_total.
Qed.

Lemma sorted_by_Sorted (l : list A) : Sorted R (sorted_by leb l).
Proof.
  induction l as [|x l IH]; simpl; [constructor|].
  by apply insert_sorted_Sorted.
Qed.

(** Sorting a list that is in order changes nothing. *)
Lemma sorted_by_id (l : list A) : Sorted R l -> sorted_by leb l = l.
Proof.
  induction 1 as [|x l Hl IH Hx]; simpl; [reflexivity|].
  rewrite IH. destruct Hx as [|y l Hxy]; simpl; [reflexivity|].
  unfold R in Hxy. by rewrite Hxy.
Qed.

Lemma take_Sorted (n : nat) (l : list A) : Sorted R l -> Sorted R (take n l).
Proof.
  intros H. revert n. induction H as [|x l Hl IH Hx]; intros [|n]; simpl;
    try constructor; auto.
  destruct Hx; destruct n; simpl; constructor; auto.
Qed.

End SortFacts.

Section RecommendFacts.

Lemma price_leb_total (x y : rec_item) :
  price_leb x y = false -> price_leb y x = true.
Proof. unfold price_leb. intros H. apply Z.leb_gt in H. apply Z.leb_le. lia. Qed.

Lemma filter_nil_Forall {A} (f : A -> bool) (l : list A) :
  List.filter f l = [] -> Forall (fun x => f x = false) l.
Proof.
  induction l as [|x l IH]; simpl; [constructor|].
  destruct (f x) eqn:E; [discriminate|]. constructor; auto.
Qed.

(** Among items none of which is popular, price order is the final order. *)
Lemma Sorted_price_popular (l : list rec_item) :
  Forall (fun x => r_popular x = false) l ->
  Sorted (fun x y => price_leb x y = true) l ->
  Sorted (fun x y => popular_price_leb x y = true) l.
Proof.
  intros HF HS. induction HS as [|x l Hl IH Hx]; [constructor|].
  inversion HF as [|? ? Px Pl]; subst. constructor; [auto|].
  destruct Hx as [|y l Hxy]; constructor.
  inversion Pl as [|? ? Py _]; subst.
  unfold popular_price_leb, neg_popular, price_leb in *.
  rewrite Px, Py. simpl. exact Hxy.
Qed.

(** C6 (amended).  When a popularity keyword is present and no candidate
    left by the dietary, spice and budget filters is popular, the result
    is the up-to-six cheapest candidates in ascending price; it is empty
    exactly when no candidate is left, which the filters can cause for a
    non-empty catalog. *)
Theorem popular_fallback_cheapest (items : list rec_item) (user_text ai_hint : string) :
  PyStr.any_in popular_words (PyStr.lower user_text +:+ PyStr.lower ai_hint) = true ->
  List.filter r_popular (candidate_pool items user_text ai_hint) = [] ->
  recommend items user_text ai_hint
  = take 6 (sorted_by price_leb (candidate_pool items user_text ai_hint))
  /\ (recommend items user_text ai_hint = []
      <-> candidate_pool items user_text ai_hint = []).
Proof.
  intros Hkw Hpop.
  assert (E : recommend items user_text ai_hint
              = take 6 (sorted_by price_leb (candidate_pool items user_text ai_hint))).
  { unfold recommend. cbv zeta. rewrite Hkw, Hpop.
    rewrite sorted_by_id.
    - rewrite take_take. reflexivity.
    - apply Sorted_price_popular.
      + apply Forall_take, sorted_by_Forall. by apply filter_nil_Forall.
      + apply take_Sorted, sorted_by_Sorted, price_leb_total. }
  split; [exact E|]. rewrite E.
  pose proof (sorted_by_length price_leb (candidate_pool items user_text ai_hint)) as HL.
  split; intros H.
  - apply (f_equal length) in H. rewrite length_take, HL in H.
    destruct (candidate_pool items user_text ai_hint); [reflexivity|].
    simpl in H. lia.
  - by rewrite H.
Qed.

Lemma popular_fallback_cheapest_witness :
  let items := [ RecItem "Wings" 700 ["spicy"] false;
                 RecItem "Salad" 300 ["vegetarian"] false ] in
  PyStr.any_in popular_words (PyStr.lower "what's good?" +:+ PyStr.lower "") = true
  /\ List.filter r_popular (candidate_pool items "what's good?" "") = []
  /\ recommend items "what's good?" ""
     = [ RecItem "Salad" 300 ["vegetarian"] false; RecItem "Wings" 700 ["spicy"] false ].
Proof.
  split; [reflexivity|]. split; [reflexivity|].
  apply (popular_fallback_cheapest
           [ RecItem "Wings" 700 ["spicy"] false;
             RecItem "Salad" 300 ["vegetarian"] false ]
           "what's good?" ""); reflexivity.
Defined.

(** C6, counterexample.  A catalog of one non-vegetarian item, asked for
    the best vegetarian dish: the popularity keyword is present, no
    popular item matches, and the result is empty. *)
Lemma recommend_empty_on_nonempty_catalog :
  let catalog := [Category "Mains" [MenuItem 1 "Burger" 500 []]] in
  rec_items catalog <> []
  /\ PyStr.any_in popular_words (PyStr.lower "best veg" +:+ PyStr.lower "") = true
  /\ List.filter r_popular (rec_items catalog) = []
  /\ recommend (rec_items catalog) "best veg" "" = [].
Proof. repeat split; try reflexivity. discriminate. Qed.

(** The budget filter keeps exactly the items priced at most the number
    read from the digits of text and hint. *)
Lemma budget_filter_keeps (items : list rec_item) (user_text ai_hint : string)
    (budget : Z) :
  PyStr.any_in diet_words (PyStr.lower user_text +:+ PyStr.lower ai_hint) = false ->
  PyStr.any_in spice_words (PyStr.lower user_text +:+ PyStr.lower ai_hint) = false ->
  PyStr.any_in budget_words (PyStr.lower user_text) = true ->
  extract_budget (PyStr.lower user_text +:+ PyStr.lower ai_hint) = Some budget ->
  candidate_pool items user_text ai_hint
  = List.filter (fun i => r_price i <=? budget) items.
Proof.
  intros Hd Hs Hb He. unfold candidate_pool. cbv zeta. by rewrite Hd, Hs, Hb, He.
Qed.

(** C8.  On the example of the router's own prompt (the text
    "something spicy under 1000" with the hint "RECOMMEND spicy under
    1000") the digits of text and hint are joined into 10001000, where
    the longest run of digits is 1000; a spicy item at 5000 stays in the
    recommendations. *)
Theorem budget_joins_all_digits :
  let text := "something spicy under 1000" in
  let hint := "RECOMMEND spicy under 1000" in
  let wings := RecItem "Wings" 5000 ["spicy"] false in
  extract_budget (PyStr.lower text +:+ PyStr.lower hint) = Some 10001000
  /\ spec_budget (PyStr.lower text +:+ PyStr.lower hint) = Some 1000
  /\ candidate_pool [wings] text hint = [wings]
  /\ recommend [wings] text hint = [wings].
Proof. repeat split; reflexivity. Qed.

End RecommendFacts.

(** * Part III: further properties of the code *)

(** ** The dedup table under interleaved claims *)

Section DedupInterleaving.

Variable ttl : Z.

(** A live entry survives any claim made before it expires, whichever key
    that claim is for. *)
Lemma claim_keeps_live (kind wa_id : string) (msg_id : option string) (ph : Z)
    (now exp : Z) (k : string) (seen : gmap string Z) :
  seen !! k = Some exp -> now <= exp ->
  (claim_once_at ttl kind wa_id msg_id ph now seen).2 !! k = Some exp.
Proof.
  intros Hk Hle. unfold claim_once_at.
  set (key := dedupe_key kind wa_id msg_id ph).
  set (seen1 := if negb (size seen =? 0)%nat && (size seen mod 100 =? 0)%nat
                then sweep now seen else seen).
  assert (H1 : seen1 !! k = Some exp).
  { subst seen1. destruct (negb _ && _); [by apply sweep_lookup_live | done]. }
  destruct (seen1 !! key) eqn:E; simpl; [done|].
  rewrite lookup_insert_ne; [done|]. intros ->. congruence.
Qed.

Lemma run_claims_keeps_live (calls : list claim_call) (exp : Z) (k : string)
    (seen : gmap string Z) :
  seen !! k = Some exp ->
  Forall (fun c => cc_now c <= exp) calls ->
  run_claims ttl calls seen !! k = Some exp.
Proof.
  intros Hk HF. revert seen Hk. induction HF as [|c calls Hc HF IH]; intros seen Hk.
  - exact Hk.
  - simpl. apply IH. by apply claim_keeps_live.
Qed.

(** X1.  Once a message key is stored with expiry [exp], every later claim
    of that key made no later than [exp] is refused, whatever other claims
    (of the same or other keys, swept or not) were made in between. *)
Theorem claim_refused_until_expiry (kind wa_id : string) (msg_id : option string)
    (ph : Z) (calls : list claim_call) (now exp : Z) (seen : gmap string Z) :
  seen !! dedupe_key kind wa_id msg_id ph = Some exp ->
  Forall (fun c => cc_now c <= exp) calls ->
  now <= exp ->
  (claim_once_at ttl kind wa_id msg_id ph now (run_claims ttl calls seen)).1 = false.
Proof.
  intros Hk HF Hle.
  apply (claim_live ttl kind wa_id msg_id ph now exp); [|exact Hle].
  by apply run_claims_keeps_live.
Qed.

End DedupInterleaving.

Lemma claim_refused_until_expiry_witness :
  let seen := (claim_once_at 100 "message" "2547" (Some "wamid.A") 0 10 ∅).2 in
  seen !! dedupe_key "message" "2547" (Some "wamid.A") 0 = Some 110
  /\ (claim_once_at 100 "message" "2547" (Some "wamid.A") 0 110
        (run_claims 100 [ClaimCall "message" "2548" (Some "wamid.B") 0 50;
                         ClaimCall "message" "2547" (Some "wamid.A") 0 60] seen)).1
     = false.
Proof.
  split; [reflexivity|].
  apply (claim_refused_until_expiry 100 "message" "2547" (Some "wamid.A") 0
           [ClaimCall "message" "2548" (Some "wamid.B") 0 50;
            ClaimCall "message" "2547" (Some "wamid.A") 0 60] 110 110).
  - reflexivity.
  - repeat constructor; simpl; lia.
  - lia.
Defined.

(** ** Dedup keys of distinct messages *)

Section DedupKeys.

Import PyStr.

Lemma app_colon_inj (a a' r r' : string) :
  count_char ":" a = O -> count_char ":" a' = O ->
  a +:+ String ":" r = a' +:+ String ":" r' -> a = a' /\ r = r'.
Proof.
  revert a'. induction a as [|c a IH]; intros [|c' a'] Ha Ha' E.
  - by injection E as ->.
  - injection E as <- _. discriminate Ha'.
  - injection E as -> _. discriminate Ha.
  - change (String c (a +:+ String ":" r) = String c' (a' +:+ String ":" r')) in E.
    injection E as -> E. simpl in Ha, Ha'.
    destruct (Ascii.eqb c' ":"); [discriminate|].
    destruct (IH a' Ha Ha' E) as [-> ->]. done.
Qed.

(** X2.  Messages that carry an id are kept apart: when neither the kind
    nor the sender id contains a colon, two dedup keys are equal only if
    kind, sender and message id all are.  One sender's messages never
    shadow another's. *)
Theorem dedupe_key_injective (kind kind' wa_id wa_id' m m' : string) (h h' : Z) :
  m <> EmptyString -> m' <> EmptyString ->
  count_char ":" kind = O -> count_char ":" kind' = O ->
  count_char ":" wa_id = O -> count_char ":" wa_id' = O ->
  dedupe_key kind wa_id (Some m) h = dedupe_key kind' wa_id' (Some m') h' ->
  kind = kind' /\ wa_id = wa_id' /\ m = m'.
Proof.
  intros Hm Hm' Hk Hk' Hw Hw' E. unfold dedupe_key in E.
  apply String.eqb_neq in Hm, Hm'. rewrite Hm, Hm' in E.
  change ("dedupe:" +:+ ?x) with (String "d" (String "e" (String "d" (String "u"
            (String "p" (String "e" (String ":" x))))))) in E.
  injection E as E.
  change (":" +:+ ?x) with (String ":" x) in E.
  apply app_colon_inj in E as [-> E]; [|done..].
  apply app_colon_inj in E as [-> ->]; done.
Qed.

Lemma dedupe_key_injective_witness :
  dedupe_key "message" "2547" (Some "wamid.A:1") 0
  = dedupe_key "message" "2547" (Some "wamid.A:1") 7
  /\ ("message" = "message" /\ "2547" = "2547" /\ "wamid.A:1" = "wamid.A:1").
Proof.
  split; [reflexivity|].
  apply (dedupe_key_injective "message" "message" "2547" "2547"
           "wamid.A:1" "wamid.A:1" 0 7); try reflexivity; discriminate.
Defined.

End DedupKeys.

(** ** Duplicate deliveries and note capture *)

Section MessageLoopFacts.

Context {W : Type} (be : Backend W).

(** X3.  A delivery whose dedup key is in the table and has not expired is
    skipped entirely: no backend call, no message to the customer, no change
    of the conversation state, and the key keeps its expiry. *)
Theorem duplicate_message_skipped (now exp : Z) (customer_name : string)
    (msg : text_message) (st : bot_state W) :
  st_seen st !! dedupe_key "message" (msg_from msg) (msg_id msg) (msg_hash msg)
    = Some exp ->
  now <= exp ->
  exists seen',
    process_message be now customer_name msg st
    = (Ok tt, BotState (st_world st) (st_trace st) seen' (st_user_states st))
    /\ seen' !! dedupe_key "message" (msg_from msg) (msg_id msg) (msg_hash msg)
       = Some exp.
Proof.
  intros Hk Hle. unfold process_message. rewrite bind_run.
  unfold claim_message, _claim_once.
  pose proof (claim_live _DEDUP_TTL "message" (msg_from msg) (msg_id msg)
                (msg_hash msg) now exp (st_seen st) Hk Hle) as Hb.
  pose proof (claim_keeps_live _DEDUP_TTL "message" (msg_from msg) (msg_id msg)
                (msg_hash msg) now exp _ (st_seen st) Hk Hle) as Hs.
  destruct (claim_once_at _ _ _ _ _ _ _) as [b seen']. simpl in Hb, Hs. subst b.
  exists seen'. by split.
Qed.

(** X4.  Note capture consumes exactly one message: once a note has been
    applied, the same sender's next text is not taken as a note, and
    [handle_note_message] leaves everything as it is. *)
Theorem note_capture_consumes_one_message (wa_id text : string) (st : bot_state W)
    (state : gmap string pyval) (i : Z) (w' : W) :
  st_user_states st !! wa_id = Some state ->
  is_await_note state = true ->
  _safe_int (dict_get state "item_id") None = Some i -> i <> 0 ->
  be_update_cart be wa_id
    [OpSetNote i (dict_get state "variant_id") (PyStr.take 240 (PyStr.strip text))]
    (st_world st) = (Ok tt, w') ->
  exists st',
    handle_note_message be wa_id text st = (Ok true, st')
    /\ forall text2, handle_note_message be wa_id text2 st' = (Ok false, st').
Proof.
  intros Hst Hmode Hitem Hi Hup.
  destruct (note_capture_success be wa_id text st state i w' Hst Hmode Hitem Hi Hup)
    as (st' & Hrun & Hus & _).
  exists st'. split; [exact Hrun|]. intros text2.
  unfold handle_note_message. rewrite bind_run. unfold _get_user_state.
  rewrite Hus, lookup_delete_eq. reflexivity.
Qed.

(** X5.  A sender waiting for a note on an item id that is missing, not a
    number, or 0 is released without any backend call or message: the state
    is cleared and [False] is returned, so the text is routed as usual. *)
Theorem note_capture_invalid_target (wa_id text : string) (st : bot_state W)
    (state : gmap string pyval) :
  st_user_states st !! wa_id = Some state ->
  is_await_note state = true ->
  (_safe_int (dict_get state "item_id") None = None
   \/ _safe_int (dict_get state "item_id") None = Some 0) ->
  handle_note_message be wa_id text st
  = (Ok false,
     BotState (st_world st) (st_trace st) (st_seen st)
       (delete wa_id (st_user_states st))).
Proof.
  intros Hst Hmode Hitem.
  unfold handle_note_message. rewrite bind_run. unfold _get_user_state.
  rewrite Hst. cbn [default from_option id]. rewrite Hmode. cbn [negb].
  destruct Hitem as [-> | ->]; reflexivity.
Qed.

Lemma take_length_le (n : nat) (s : string) :
  (String.length (PyStr.take n s) <= n)%nat.
Proof.
  revert s. induction n as [|n IH]; intros [|c s]; simpl; try lia.
  specialize (IH s). lia.
Qed.

(** X6.  Whatever the sender's state and the backend do, a note that
    [handle_note_message] hands to [update_cart] is at most 240 characters
    long. *)
Theorem note_never_longer_than_240 (wa_id text : string) (st : bot_state W) :
  Forall notes_within_limit (new_events (handle_note_message be wa_id text) st).
Proof.
  apply extends_new_events. revert st.
  change (emits notes_within_limit (handle_note_message be wa_id text)).
  unfold handle_note_message, update_cart, _send_cart, get_cart, send_text.
  generalize (take_length_le 240 (PyStr.strip text)).
  generalize (PyStr.take 240 (PyStr.strip text)). intros note Hnote.
  emits_auto. constructor; [exact Hnote | constructor].
Qed.

(** X7.  [_do_checkout] never raises and always sends exactly one message:
    when the order is created, the confirmation with its code, followed by
    the update of the last order; when [checkout] fails, the failure text
    and nothing else. *)
Theorem do_checkout_one_message (wa_id name method : string) (st : bot_state W) :
  (exists (o : order) (w' : W),
      be_checkout be wa_id name wa_id method (st_world st) = (Ok o, w')
      /\ _do_checkout be wa_id name method st
         = (Ok tt,
            log st w'
              [ EvCheckout wa_id name wa_id method;
                EvSendText wa_id
                  ("🎉 Order placed! Code: *" +:+ py_str (order_code o) +:+ "*"
                     +:+ newline +:+ "We’ll confirm shortly.");
                EvUpdateLastOrder wa_id ]))
  \/ (exists (e : exn) (w' : W),
        be_checkout be wa_id name wa_id method (st_world st) = (Raise e, w')
        /\ _do_checkout be wa_id name method st
           = (Ok tt,
              log st w'
                [ EvCheckout wa_id name wa_id method;
                  EvSendText wa_id
                    "Checkout failed. Please try again or send *help*." ])).
Proof.
  unfold _do_checkout, try_except, checkout, send_text, update_last_order, emit, ask, log.
  unfold mbind, M_bind, m_bind. simpl.
  destruct (be_checkout be wa_id name wa_id method (st_world st)) as [[o|e] w'] eqn:E;
    simpl; [left | right]; do 2 eexists; (split; [reflexivity|]);
    by rewrite <- !app_assoc.
Qed.

End MessageLoopFacts.

Lemma duplicate_message_skipped_witness :
  let msg := TextMessage "2547" (Some "wamid.1") 0 "two burgers" in
  let st := (process_message clarifying_backend 0 "Asha K" msg empty_state).2 in
  st_seen st !! dedupe_key "message" "2547" (Some "wamid.1") 0 = Some 172800
  /\ exists seen',
       process_message clarifying_backend 3600 "Asha K" msg st
       = (Ok tt, BotState (st_world st) (st_trace st) seen' (st_user_states st))
       /\ seen' !! dedupe_key "message" "2547" (Some "wamid.1") 0 = Some 172800.
Proof.
  split; [reflexivity|].
  apply (duplicate_message_skipped clarifying_backend 3600 172800 "Asha K"
           (TextMessage "2547" (Some "wamid.1") 0 "two burgers")).
  - reflexivity.
  - lia.
Defined.

Lemma note_capture_consumes_one_message_witness :
  exists st',
    handle_note_message clarifying_backend "2547" "no onions please" awaiting_note_state
    = (Ok true, st')
    /\ forall text2, handle_note_message clarifying_backend "2547" text2 st' = (Ok false, st').
Proof.
  apply (note_capture_consumes_one_message clarifying_backend "2547" "no onions please"
           awaiting_note_state {[ "mode" := PStr "await_note"; "item_id" := PInt 7 ]} 7 tt);
    try reflexivity.
  lia.
Defined.

Lemma note_capture_invalid_target_witness :
  let st := BotState tt [] ∅
              {[ "2547" := {[ "mode" := PStr "await_note"; "item_id" := PStr "abc" ]} ]} in
  handle_note_message clarifying_backend "2547" "no onions" st
  = (Ok false, BotState tt [] ∅ (delete "2547" (st_user_states st))).
Proof.
  apply (note_capture_invalid_target clarifying_backend "2547" "no onions"
           (BotState tt [] ∅
              {[ "2547" := {[ "mode" := PStr "await_note"; "item_id" := PStr "abc" ]} ]})
           {[ "mode" := PStr "await_note"; "item_id" := PStr "abc" ]}).
  - reflexivity.
  - reflexivity.
  - left. reflexivity.
Defined.

(** ** The order-status fast path *)

Section StatusFacts.

Import PyStr.

Context {W : Type} (be : Backend W).

Lemma lower_char_idem (c : ascii) : lower_char (lower_char c) = lower_char c.
Proof. destruct c as [[] [] [] [] [] [] [] []]; reflexivity. Qed.

Lemma lower_is_lowercase (s : string) : is_lowercase (lower s) = true.
Proof.
  induction s as [|c s IH]; [reflexivity|]. unfold is_lowercase in *. simpl.
  rewrite lower_char_idem, Ascii.eqb_refl. exact IH.
Qed.

Lemma all_chars_lstrip (p : ascii -> bool) (s : string) :
  all_chars p s = true -> all_chars p (lstrip s) = true.
Proof.
  induction s as [|c s IH]; [done|]. simpl. intros [Hc Hs]%andb_prop.
  destruct (is_space c); [auto | simpl; by rewrite Hc, Hs].
Qed.

Lemma all_chars_rstrip (p : ascii -> bool) (s : string) :
  all_chars p s = true -> all_chars p (rstrip s) = true.
Proof.
  induction s as [|c s IH]; [done|]. simpl. intros [Hc Hs]%andb_prop.
  specialize (IH Hs). destruct (rstrip s) as [|c' r].
  - destruct (is_space c); simpl; [done | by rewrite Hc].
  - simpl in *. by rewrite Hc, IH.
Qed.

Lemma all_chars_strip (p : ascii -> bool) (s : string) :
  all_chars p s = true -> all_chars p (strip s) = true.
Proof. intros H. by apply all_chars_rstrip, all_chars_lstrip. Qed.

Lemma all_chars_remove (p : ascii -> bool) (old : string) (k : nat) (s : string) :
  all_chars p s = true -> all_chars p (replace_go old EmptyString k s) = true.
Proof.
  revert k. induction s as [|c s IH]; intros k; [done|].
  intros [Hc Hs]%andb_prop. cbn [replace_go].
  destruct k; [|auto].
  destruct (prefix old (String c s)); [by apply IH|].
  simpl. by rewrite Hc, IH.
Qed.

Lemma status_reply_codes (wa_id text_lower : string) :
  is_lowercase text_lower = true ->
  emits order_codes_lowercase (status_reply be wa_id text_lower).
Proof.
  intros Hl. unfold status_reply.
  assert (Hc : is_lowercase (strip (replace "status" EmptyString text_lower)) = true)
    by (apply all_chars_strip, all_chars_remove, Hl).
  revert Hc. generalize (strip (replace "status" EmptyString text_lower)). intros code Hc.
  unfold fetch_order, send_text. emits_auto.
Qed.

(** X8.  Order codes are looked up in lowercase only: every [fetch_order]
    call that [_route_text] makes has an argument without capital letters,
    whatever the customer typed. *)
Theorem status_codes_are_lowercased (wa_id name text : string) (st : bot_state W) :
  Forall order_codes_lowercase (new_events (_route_text be wa_id name text) st).
Proof.
  rewrite route_text_by_rule. destruct (fast_path text) as [[]|].
  - apply extends_new_events. revert st.
    change (emits order_codes_lowercase (_do_checkout be wa_id name "pickup")).
    unfold _do_checkout, checkout, send_text, update_last_order. emits_auto.
  - apply extends_new_events. revert st.
    apply status_reply_codes, lower_is_lowercase.
  - apply extends_new_events. revert st.
    change (emits order_codes_lowercase (_send_cart be wa_id EmptyString)).
    by apply send_cart_emits.
  - destruct (classifier_tier_run be wa_id name text st) as (w1 & H).
    destruct (first_word name).
    + destruct H as (summary & w2 & _ & H).
      rewrite (new_events_log _ _ _ _ _ H). by repeat constructor.
    + rewrite (new_events_log _ _ _ _ _ H). by repeat constructor.
Qed.

(** X9.  A message that is only the word "status" (any case, with blanks
    around or repeated) gets no reply at all: the router returns without a
    single call or message. *)
Theorem status_without_code_is_silent (wa_id name text : string) (st : bot_state W) :
  fast_path text = Some RuleStatus ->
  strip (replace "status" EmptyString (lower (strip text))) = EmptyString ->
  _route_text be wa_id name text st = (Ok tt, st).
Proof.
  intros Hrule Hcode. rewrite route_text_by_rule, Hrule.
  unfold status_reply. by rewrite Hcode.
Qed.

End StatusFacts.

Lemma status_without_code_is_silent_witness :
  fast_path " Status " = Some RuleStatus
  /\ _route_text clarifying_backend "2547" "Asha K" " Status " empty_state
     = (Ok tt, empty_state).
Proof.
  split; [reflexivity|].
  apply (status_without_code_is_silent clarifying_backend "2547" "Asha K" " Status ");
    reflexivity.
Defined.

(** ** What the recommendation engine returns *)

Section RecommendShape.

Import PyStr.

Lemma filter_Forall_keep {A} (P : A -> Prop) (f : A -> bool) (l : list A) :
  Forall P l -> Forall P (List.filter f l).
Proof.
  induction 1 as [|x l Hx Hl IH]; simpl; [constructor|].
  destruct (f x); [by constructor | done].
Qed.

Lemma filter_Forall_test {A} (f : A -> bool) (l : list A) :
  Forall (fun x => f x = true) (List.filter f l).
Proof.
  induction l as [|x l IH]; simpl; [constructor|].
  destruct (f x) eqn:E; [by constructor | done].
Qed.

Lemma candidate_pool_Forall (P : rec_item -> Prop) (items : list rec_item)
    (user_text ai_hint : string) :
  Forall P items -> Forall P (candidate_pool items user_text ai_hint).
Proof.
  intros H. unfold candidate_pool. cbv zeta.
  repeat match goal with
         | |- Forall _ (if ?b then _ else _) => destruct b
         | |- Forall _ (match ?o with Some _ => _ | None => _ end) => destruct o
         | |- Forall _ (List.filter _ _) => apply filter_Forall_keep
         end; exact H.
Qed.

(** Whatever holds of every candidate holds of every recommendation. *)
Lemma recommend_Forall_pool (P : rec_item -> Prop) (items : list rec_item)
    (user_text ai_hint : string) :
  Forall P (candidate_pool items user_text ai_hint) ->
  Forall P (recommend items user_text ai_hint).
Proof.
  intros H. unfold recommend. cbv zeta.
  apply Forall_take, sorted_by_Forall.
  destruct (any_in popular_words _); [|exact H].
  destruct (List.filter r_popular _) eqn:E.
  - by apply Forall_take, sorted_by_Forall.
  - rewrite <- E. by apply filter_Forall_keep.
Qed.

Lemma popular_price_leb_total (x y : rec_item) :
  popular_price_leb x y = false -> popular_price_leb y x = true.
Proof.
  unfold popular_price_leb.
  destruct (Z.ltb_spec (neg_popular x) (neg_popular y)),
           (Z.eqb_spec (neg_popular x) (neg_popular y)),
           (Z.leb_spec (r_price x) (r_price y)),
           (Z.ltb_spec (neg_popular y) (neg_popular x)),
           (Z.eqb_spec (neg_popular y) (neg_popular x)),
           (Z.leb_spec (r_price y) (r_price x)); simpl; try done; lia.
Qed.

(** X10.  The reply lists at most six items, each of them an item of the
    menu, ordered with the popular ones first and by ascending price among
    equals. *)
Theorem recommend_shape (items : list rec_item) (user_text ai_hint : string) :
  (length (recommend items user_text ai_hint) <= 6)%nat
  /\ Forall (fun r => r ∈ items) (recommend items user_text ai_hint)
  /\ Sorted (fun x y => popular_price_leb x y = true)
       (recommend items user_text ai_hint).
Proof.
  split; [|split].
  - unfold recommend. cbv zeta. rewrite length_take. lia.
  - apply recommend_Forall_pool, candidate_pool_Forall.
    apply Forall_forall. auto.
  - unfold recommend. cbv zeta.
    apply take_Sorted, sorted_by_Sorted, popular_price_leb_total.
Qed.

(** X11.  The taste filters are honoured by every recommendation: with a
    dietary keyword in text or hint each recommended item is tagged
    vegetarian or veg, and with a spice keyword each one is tagged spicy;
    the popularity fallback does not bring filtered items back. *)
Theorem recommend_honours_taste (items : list rec_item) (user_text ai_hint : string) :
  (any_in diet_words (lower user_text +:+ lower ai_hint) = true ->
   Forall (fun r => is_veg r = true) (recommend items user_text ai_hint))
  /\ (any_in spice_words (lower user_text +:+ lower ai_hint) = true ->
      Forall (fun r => is_spicy r = true) (recommend items user_text ai_hint)).
Proof.
  split; intros Hkw; apply recommend_Forall_pool; unfold candidate_pool; cbv zeta;
    rewrite Hkw;
    repeat match goal with
           | |- Forall _ (if ?b then _ else _) => destruct b
           | |- Forall _ (match ?o with Some _ => _ | None => _ end) => destruct o
           | |- Forall (fun r => is_veg r = true) (List.filter _ items) =>
               apply (filter_Forall_test is_veg)
           | |- Forall (fun r => is_spicy r = true)
                  (List.filter (fun i => in_list "spicy" (r_tags i)) _) =>
               apply (filter_Forall_test is_spicy)
           | |- Forall _ (List.filter _ _) => apply filter_Forall_keep
           end.
Qed.

Lemma digit_char_parses (c : ascii) (d : Decimal.uint) :
  is_digit c = true -> exists d', uint_of_char c (Some d) = Some d'.
Proof.
  destruct c as [[] [] [] [] [] [] [] []]; try discriminate; intros _; simpl; eauto.
Qed.

Lemma digits_parse (s : string) :
  all_chars is_digit s = true -> exists d, NilEmpty.uint_of_string s = Some d.
Proof.
  induction s as [|c s IH]; simpl; [eauto|].
  intros [Hc Hs]%andb_prop. destruct (IH Hs) as (d & ->).
  by apply digit_char_parses.
Qed.

Lemma filter_digits_all (s : string) : all_chars is_digit (filter_digits s) = true.
Proof.
  induction s as [|c s IH]; simpl; [done|].
  destruct (is_digit c) eqn:E; simpl; [by rewrite E | done].
Qed.

Lemma digit_not_sign (c : ascii) :
  is_digit c = true -> Ascii.eqb c "-" = false /\ Ascii.eqb c "+" = false.
Proof. destruct c as [[] [] [] [] [] [] [] []]; try discriminate; done. Qed.

(** A non-empty string of digits always has an integer value. *)
Lemma digits_have_value (s : string) :
  all_chars is_digit s = true -> s <> EmptyString -> exists z, int_of_str s = Some z.
Proof.
  intros Hd Hne. unfold int_of_str.
  rewrite strip_no_space
    by (apply (all_chars_impl is_digit); [|done];
        intros c Hc; by rewrite (digit_not_space c Hc)).
  destruct s as [|c r]; [done|].
  pose proof Hd as Hd'. simpl in Hd'. apply andb_prop in Hd' as [Hc _].
  destruct (digit_not_sign c Hc) as [-> ->].
  unfold parse_unsigned. rewrite digits_ok_all by done.
  rewrite drop_underscores_digits by done.
  destruct (digits_parse _ Hd) as (d & ->). simpl. eauto.
Qed.

(** X12.  For ASCII text and hint: with a budget keyword in the
    customer's text and at least one digit in text or hint (and no more
    digits than [int] converts, 4300), a budget is always found and no
    recommendation costs more than it. *)
Theorem recommend_within_budget (items : list rec_item) (user_text ai_hint : string) :
  is_ascii user_text = true ->
  is_ascii ai_hint = true ->
  any_in budget_words (lower user_text) = true ->
  filter_digits (lower user_text +:+ lower ai_hint) <> EmptyString ->
  (String.length (filter_digits (lower user_text +:+ lower ai_hint)) <= 4300)%nat ->
  exists budget,
    extract_budget (lower user_text +:+ lower ai_hint) = Some budget
    /\ Forall (fun r => r_price r <= budget) (recommend items user_text ai_hint).
Proof.
  intros _ _ Hkw Hdig _.
  destruct (digits_have_value _ (filter_digits_all _) Hdig) as (b & Hb).
  exists b. split; [exact Hb|].
  apply recommend_Forall_pool. unfold candidate_pool. cbv zeta.
  rewrite Hkw. unfold extract_budget in *. rewrite Hb.
  eapply Forall_impl; [apply (filter_Forall_test (fun i => r_price i <=? b))|].
  intros r Hr. simpl in Hr. by apply Z.leb_le.
Qed.

(** X13.  When a popularity keyword is present and at least one candidate
    is popular, only popular items are recommended. *)
Theorem recommend_popular_only (items : list rec_item) (user_text ai_hint : string) :
  any_in popular_words (lower user_text +:+ lower ai_hint) = true ->
  List.filter r_popular (candidate_pool items user_text ai_hint) <> [] ->
  Forall (fun r => r_popular r = true) (recommend items user_text ai_hint).
Proof.
  intros Hkw Hpop. unfold recommend. cbv zeta. rewrite Hkw.
  apply Forall_take, sorted_by_Forall.
  destruct (List.filter r_popular _) eqn:E; [done|].
  rewrite <- E. apply filter_Forall_test.
Qed.

End RecommendShape.

Lemma recommend_honours_taste_witness :
  let items := [ RecItem "Wings" 700 ["spicy"] true;
                 RecItem "Salad" 300 ["vegetarian"] false ] in
  PyStr.any_in diet_words (PyStr.lower "any veg options?" +:+ PyStr.lower "") = true
  /\ Forall (fun r => is_veg r = true) (recommend items "any veg options?" "").
Proof.
  split; [reflexivity|].
  apply (recommend_honours_taste
           [ RecItem "Wings" 700 ["spicy"] true;
             RecItem "Salad" 300 ["vegetarian"] false ] "any veg options?" "").
  reflexivity.
Defined.

Lemma recommend_within_budget_witness :
  let items := [ RecItem "Wings" 700 ["spicy"] true;
                 RecItem "Salad" 300 ["vegetarian"] false ] in
  PyStr.any_in budget_words (PyStr.lower "something under 500") = true
  /\ exists budget,
       extract_budget (PyStr.lower "something under 500" +:+ PyStr.lower "") = Some budget
       /\ Forall (fun r => r_price r <= budget) (recommend items "something under 500" "").
Proof.
  split; [reflexivity|].
  apply (recommend_within_budget
           [ RecItem "Wings" 700 ["spicy"] true;
             RecItem "Salad" 300 ["vegetarian"] false ] "something under 500" "").
  - reflexivity.
  - reflexivity.
  - reflexivity.
  - discriminate.
  - vm_compute. lia.
Defined.

Lemma recommend_popular_only_witness :
  let items := [ RecItem "Wings" 700 ["spicy"] true;
                 RecItem "Salad" 300 ["vegetarian"] false ] in
  PyStr.any_in popular_words (PyStr.lower "what's good?" +:+ PyStr.lower "") = true
  /\ Forall (fun r => r_popular r = true) (recommend items "what's good?" "").
Proof.
  split; [reflexivity|].
  apply (recommend_popular_only
           [ RecItem "Wings" 700 ["spicy"] true;
             RecItem "Salad" 300 ["vegetarian"] false ] "what's good?" "").
  - reflexivity.
  - discriminate.
Defined.

(** ** Calls of the classifier entry point *)

Section LlmCallFacts.

Import PyStr.

Context {W : Type} (be : Backend W).

Lemma take_app_ge (n : nat) (s extra : string) :
  (n <= String.length s)%nat -> take n (s +:+ extra) = take n s.
Proof.
  revert s. induction n as [|n IH]; intros [|c s] H; simpl in *; try done; [lia|].
  change (String c s +:+ extra) with (String c (s +:+ extra)). cbn [take].
  rewrite IH; [done | lia].
Qed.

(** X14.  Only the first 10000 characters of the menu text reach the
    classifier: whatever follows them changes nothing in what [llm_route]
    does. *)
Theorem llm_route_menu_text_cut
    (user_text menu_snapshot user_profile cart_snapshot menu_text extra : string) :
  (Z.to_nat 10000 <= String.length menu_text)%nat ->
  llm_route be user_text menu_snapshot user_profile cart_snapshot (menu_text +:+ extra)
  = llm_route be user_text menu_snapshot user_profile cart_snapshot menu_text.
Proof.
  intros H. unfold llm_route, llm_prompt. by rewrite take_app_ge.
Qed.

Lemma unknown_keyword_fails (pos : list argval) (kw : list (string * argval))
    (k : string) (v : argval) :
  In (k, v) kw -> ~ In k llm_route_param_names ->
  bind_call llm_route_params pos kw = Raise (Exn "TypeError").
Proof.
  intros Hin Hk. unfold bind_call.
  destruct (_ <? _)%nat; [done|].
  assert (E : forallb (fun k0 : string * argval =>
                         existsb (fun p => String.eqb (prm_name p) k0.1) llm_route_params)
                kw = false).
  { apply not_true_is_false. intros Hall.
    rewrite forallb_forall in Hall. specialize (Hall _ Hin).
    apply existsb_exists in Hall as (p & Hp & Heq).
    apply String.eqb_eq in Heq. simpl in Heq. subst k.
    apply Hk. unfold llm_route_param_names. by apply in_map. }
  by rewrite E.
Qed.

(** X15.  Every call of [llm_route] that passes a keyword which is not one
    of its five parameters raises [TypeError] when the arguments are bound:
    the body does not run and the chat completion is not requested. *)
Theorem llm_route_rejects_unknown_keyword (pos : list argval)
    (kw : list (string * argval)) (k : string) (v : argval) (st : bot_state W) :
  In (k, v) kw -> ~ In k llm_route_param_names ->
  call_llm_route be pos kw st
  = (Raise (Exn "TypeError"),
     log st (st_world st) [EvLlmRoute (length pos) (map fst kw)]).
Proof.
  intros Hin Hk. unfold call_llm_route. rewrite bind_run.
  unfold emit at 1. cbn match. rewrite bind_run.
  by rewrite (unknown_keyword_fails pos kw k v Hin Hk).
Qed.

Lemma prefix_true_app (p s : string) :
  prefix p s = true -> exists r, s = p +:+ r.
Proof.
  revert s. induction p as [|a p IH]; intros s H; [by exists s|].
  destruct s as [|b s]; [discriminate|]. simpl in H.
  apply andb_prop in H as [Hab Hp]. apply Ascii.eqb_eq in Hab as ->.
  destruct (IH s Hp) as (r & ->). by exists r.
Qed.

Lemma split_go_absent (sep : string) (n : nat) (s : string) :
  contains sep s = false -> split_go sep n 0 s = [s].
Proof.
  revert n. induction s as [|c s IH]; intros n H; [reflexivity|].
  cbn [contains] in H. apply orb_false_iff in H as [Hp Hc].
  cbn [split_go]. rewrite Hp. destruct n; by rewrite (IH _ Hc).
Qed.

(** X16.  A CHANGE reply is applied only when it spells " TO ×" in capital
    letters: for a reply that starts with CHANGE (in any case) without that
    separator, such as the form "CHANGE <item> to ×<number>" the prompt
    asks for, the router does nothing at all. *)
Theorem change_reply_needs_capital_to (wa_id name text response : string)
    (st : bot_state W) :
  startswith (upper response) "CHANGE " = true ->
  contains " TO ×" (drop 7 response) = false ->
  route_reply be wa_id name text response st = (Ok tt, st).
Proof.
  intros Hstart Hsep. unfold route_reply. cbv zeta.
  unfold startswith in *.
  destruct (prefix_true_app _ _ Hstart) as (r & E). rewrite E.
  change (prefix "ADD " ("CHANGE " +:+ r)) with false.
  change (prefix "REMOVE " ("CHANGE " +:+ r)) with false.
  change (prefix "CHANGE " ("CHANGE " +:+ r)) with true. cbv iota.
  unfold split. by rewrite split_go_absent.
Qed.

End LlmCallFacts.

Lemma llm_route_menu_text_cut_witness :
  (Z.to_nat 10000 <= String.length (repeat_char "m" (Z.to_nat 10000)))%nat
  /\ llm_route clarifying_backend "hi" "[]" "{}" "[]" (repeat_char "m" (Z.to_nat 10000) +:+ "tail")
     = llm_route clarifying_backend "hi" "[]" "{}" "[]" (repeat_char "m" (Z.to_nat 10000)).
Proof.
  assert (H : (Z.to_nat 10000 <= String.length (repeat_char "m" (Z.to_nat 10000)))%nat)
    by (vm_compute; reflexivity).
  split; [exact H|].
  apply (llm_route_menu_text_cut clarifying_backend "hi" "[]" "{}" "[]"
           (repeat_char "m" (Z.to_nat 10000)) "tail"). exact H.
Defined.

Lemma llm_route_rejects_unknown_keyword_witness :
  call_llm_route clarifying_backend [ArgStr "hi"; ArgStr "[]"; ArgStr "{}"; ArgStr "[]"]
    [("temperature", ArgFloat "0.2")] empty_state
  = (Raise (Exn "TypeError"), log empty_state tt [EvLlmRoute 4 ["temperature"]]).
Proof.
  apply (llm_route_rejects_unknown_keyword clarifying_backend
           [ArgStr "hi"; ArgStr "[]"; ArgStr "{}"; ArgStr "[]"]
           [("temperature", ArgFloat "0.2")] "temperature" (ArgFloat "0.2") empty_state).
  - left. reflexivity.
  - vm_compute. intuition discriminate.
Defined.

Lemma change_reply_needs_capital_to_witness :
  PyStr.startswith (PyStr.upper "CHANGE burger to ×3") "CHANGE " = true
  /\ route_reply clarifying_backend "2547" "Asha K" "make it three" "CHANGE burger to ×3"
       empty_state
     = (Ok tt, empty_state).
Proof.
  split; [reflexivity|].
  apply (change_reply_needs_capital_to clarifying_backend "2547" "Asha K"
           "make it three" "CHANGE burger to ×3" empty_state); reflexivity.
Defined.

(** ** Outbound payload limits *)

Section PayloadFacts.

#[local] Arguments PyStr.take : simpl never.

Lemma norm_button_limits (b : button) :
  (String.length (rb_id (norm_button b)) <= 256)%nat
  /\ (String.length (rb_title (norm_button b)) <= 20)%nat.
Proof. destruct b; cbn [norm_button rb_id rb_title]; split; apply take_length_le. Qed.

(** X17.  Whatever the handlers pass to [send_quick_replies], the message
    posted has a body of at most 1024 characters and at most three buttons,
    each with an id of at most 256 and a title of at most 20 characters;
    a plain-string button gets its own text as id. *)
Theorem quick_replies_within_limits (body : string) (buttons : list button) :
  let payload := quick_replies_payload body buttons in
  (String.length payload.1 <= 1024)%nat
  /\ (length payload.2 <= 3)%nat
  /\ Forall (fun rb => (String.length (rb_id rb) <= 256)%nat
                       /\ (String.length (rb_title rb) <= 20)%nat) payload.2
  /\ forall s, In (BtnText s) (take 3 buttons) ->
               In (ReplyButton (PyStr.take 256 s) (PyStr.take 20 s)) payload.2.
Proof.
  unfold quick_replies_payload. cbn [fst snd]. repeat split.
  - apply take_length_le.
  - rewrite length_map, length_take. lia.
  - apply Forall_map, Forall_forall. intros b _. apply norm_button_limits.
  - intros s Hs. by apply (in_map norm_button) in Hs.
Qed.

Lemma trim_row_ok (r : wa_row) : out_row_ok (trim_row r).
Proof.
  unfold out_row_ok, trim_row. cbn [or_id or_title or_description].
  repeat split; try apply take_length_le.
  destruct (row_description r) as [d|]; [|done].
  destruct (String.eqb_spec d ""); [done|].
  split; [|apply take_length_le].
  destruct d; [done | discriminate].
Qed.

(** X18.  Whatever the handlers pass to [send_list], the message posted
    has at most 10 sections, each with a title of at most 24 characters and
    between 1 and 10 rows, each row with an id of at most 200, a title of
    at most 24 and, when present, a non-empty description of at most 72
    characters.  Sections without rows are left out. *)
Theorem send_list_within_limits (sections : list wa_section) :
  (length (send_list_sections sections) <= 10)%nat
  /\ Forall out_section_ok (send_list_sections sections).
Proof.
  unfold send_list_sections.
  assert (H10 : (length (take 10 sections) <= 10)%nat) by (rewrite length_take; lia).
  revert H10. generalize (take 10 sections). clear sections. intros l H10.
  match goal with |- context [flat_map ?f l] => set (F := f) end.
  assert (G : (length (flat_map F l) <= length l)%nat
              /\ Forall out_section_ok (flat_map F l)).
  { clear H10. induction l as [|sec l [IH1 IH2]]; [split; [done | constructor]|].
    cbn [flat_map]. rewrite length_app. subst F. cbv beta.
    destruct (take 10 (default [] (sec_rows sec))) as [|r rows] eqn:E.
    - cbn [map length app]. split; [simpl; lia | exact IH2].
    - cbn [map length app]. split; [simpl; lia|]. constructor; [|exact IH2].
      unfold out_section_ok. cbn [os_title os_rows].
      split; [apply take_length_le|]. split.
      + cbn [length]. rewrite length_map.
        assert (Hl : (length (r :: rows) <= 10)%nat)
          by (rewrite <- E, length_take; lia).
        simpl in Hl. lia.
      + constructor; [apply trim_row_ok|].
        apply Forall_map, Forall_forall. intros x _. apply trim_row_ok. }
  destruct G as [G1 G2]. split; [lia | exact G2].
Qed.

End PayloadFacts.

(** ** Tokens of the edit and variant menus *)

Section TokenFacts.

Import PyStr.

Lemma cmd_some (action : string) (item_id variant_id : option Z) (arg : pyval) :
  _cmd action item_id variant_id arg
  = _cmd action (Some (default 0 item_id)) (Some (default 0 variant_id)) arg.
Proof. by destruct item_id, variant_id. Qed.

(** Decoding a token of [_cmd], absent ids included. *)
Lemma cmd_decodes (action : string) (item_id variant_id : option Z) (arg : Z) :
  count_char "|" action = O ->
  _parse_cmd (_cmd action item_id variant_id (PInt arg))
  = ParsedCmd true (Some action) (Some (default 0 item_id))
      (Some (default 0 variant_id)) (PInt arg).
Proof.
  intros Hact. rewrite cmd_some.
  generalize (default 0 item_id) (default 0 variant_id). intros i v.
  unfold _parse_cmd. rewrite strip_token.
  change (_cmd action (Some i) (Some v) (PInt arg))
    with ("CART" +:+ String "|" (action +:+ String "|" (str_of_int i
            +:+ String "|" (str_of_int v +:+ String "|" (str_of_int arg))))).
  unfold split_max.
  rewrite split_go_piece by reflexivity.
  rewrite split_go_piece by assumption.
  rewrite !split_go_piece by apply count_char_rendered.
  rewrite split_go_zero. cbn [String.eqb negb].
  change (String.eqb "CART" "CART") with true. cbn [negb].
  rewrite !safe_int_of_rendered.
  assert (E0 : String.eqb (str_of_int arg) "" = false)
    by (apply String.eqb_neq, str_of_int_nonempty).
  now rewrite E0, str_of_int_not by reflexivity.
Qed.

Lemma safe_int_of_int (z : Z) (d : option Z) : _safe_int (PInt z) d = Some z.
Proof. exact (safe_int_of_rendered z d). Qed.

Lemma int_or_zero_default (v : option Z) :
  int_or v (Some 0) = Some (default 0 v).
Proof. destruct v as [z|]; [|done]. simpl. by destruct (Z.eqb_spec z 0) as [->|]. Qed.

(** X19.  Absent ids are encoded as 0: for every action without a pipe
    character, whether the item and variant ids are given or not, the token
    of [_cmd] decodes with [ok = true] to the action, the ids (0 for an
    absent one) and the integer argument. *)
Theorem codec_roundtrip_absent_ids (action : string) (item_id variant_id : option Z)
    (arg : Z) :
  count_char "|" action = O ->
  let p := _parse_cmd (_cmd action item_id variant_id (PInt arg)) in
  pc_ok p = true
  /\ pc_action p = Some action
  /\ pc_item_id p = Some (default 0 item_id)
  /\ pc_variant_id p = Some (default 0 variant_id)
  /\ pc_arg p = PInt arg.
Proof. intros H. cbv zeta. by rewrite cmd_decodes. Qed.

(** X20.  The six buttons that [handle_edit_pick] offers for an item
    decode, in order, to DEC with -1, INC with +1, RM, VAR and NOTE on that
    item and its variant (0 when it has none), and BACK on item 0. *)
Theorem edit_pick_buttons_decode (item_id : Z) (variant_id : option Z) :
  let v := default 0 variant_id in
  map (fun b => _parse_cmd (button_token b))
      ((edit_pick_buttons item_id variant_id).1 ++ (edit_pick_buttons item_id variant_id).2)
  = [ ParsedCmd true (Some "DEC") (Some item_id) (Some v) (PInt (-1));
      ParsedCmd true (Some "INC") (Some item_id) (Some v) (PInt 1);
      ParsedCmd true (Some "RM") (Some item_id) (Some v) (PInt 0);
      ParsedCmd true (Some "VAR") (Some item_id) (Some v) (PInt 0);
      ParsedCmd true (Some "NOTE") (Some item_id) (Some v) (PInt 0);
      ParsedCmd true (Some "BACK") (Some 0) (Some 0) (PInt 0) ].
Proof.
  cbv zeta. unfold edit_pick_buttons. cbn [fst snd app map button_token default from_option id].
  rewrite int_or_zero_default.
  by rewrite !cmd_decodes.
Qed.

End TokenFacts.

Lemma codec_roundtrip_absent_ids_witness :
  PyStr.count_char "|" "BACK" = O
  /\ let p := _parse_cmd (_cmd "BACK" None None (PInt 0)) in
     pc_ok p = true
     /\ pc_action p = Some "BACK"
     /\ pc_item_id p = Some (default 0 None)
     /\ pc_variant_id p = Some (default 0 None)
     /\ pc_arg p = PInt 0.
Proof.
  split; [reflexivity|].
  apply (codec_roundtrip_absent_ids "BACK" None None 0). reflexivity.
Defined.

(** ** Menu sections and edit-cart sections *)

Lemma str_take_all (n : nat) (s : string) :
  (String.length s <= n)%nat -> PyStr.take n s = s.
Proof.
  revert s. induction n as [|n IH]; intros [|c s] H; simpl; try done.
  - simpl in H. lia.
  - rewrite IH; [done | simpl in H; lia].
Qed.

Lemma str_take_empty (n : nat) (s : string) :
  PyStr.take (S n) s = EmptyString -> s = EmptyString.
Proof. destruct s; [done | discriminate]. Qed.

Lemma str_take_take (n k : nat) (s : string) :
  (k <= n)%nat -> PyStr.take n (PyStr.take k s) = PyStr.take k s.
Proof.
  intros H. apply str_take_all.
  pose proof (take_length_le k s). lia.
Qed.

Section SectionFacts.

#[local] Arguments PyStr.take : simpl never.

Variable fmt_price : Z -> string.

Lemma take_all {A} (n : nat) (l : list A) : (length l <= n)%nat -> take n l = l.
Proof. intros H. by apply take_ge. Qed.

(** Every section of [build_wa_sections] has a title, and between 1 and 10
    rows, each built from an item of the menu. *)
Lemma build_sections_shape (m : list catalog_category) :
  (length (build_wa_sections fmt_price m) <= 10)%nat
  /\ Forall (fun sec =>
               exists title rows,
                 sec = WaSection (Some title) (Some rows)
                 /\ (String.length title <= 24)%nat
                 /\ (1 <= length rows <= 10)%nat
                 /\ Forall (fun r => exists it, r = catalog_row fmt_price it) rows)
            (build_wa_sections fmt_price m).
Proof.
  unfold build_wa_sections. split; [rewrite length_take; lia|].
  apply Forall_take.
  induction m as [|cat m IH]; [constructor|].
  cbn [flat_map]. apply Forall_app. split; [|exact IH].
  destruct (cg_items cat) as [|it its]; [constructor|].
  cbn [map]. constructor; [|constructor].
  eexists _, _. split; [reflexivity|]. split; [apply take_length_le|]. split.
  - rewrite length_take. cbn [length]. lia.
  - apply Forall_take. constructor; [eauto|].
    apply Forall_map, Forall_forall. eauto.
Qed.

(** X21.  What [send_list] posts for the sections that [build_wa_sections]
    makes from a menu.  The sections fit its limits (at most 10, each
    with 1 to 10 rows), so every section and every row is posted, in
    order, and the section titles go out as built.  The rows do not: the
    title of a row, built as name, dash and price, is cut to its first 24
    characters, so for a name of 24 characters or more the price is not
    shown.  The description goes out as built (at most 70 characters),
    and is left out when empty. *)
Theorem menu_sections_fit_send_list (m : list catalog_category) :
  (length (build_wa_sections fmt_price m) <= 10)%nat
  /\ Forall (fun sec => (1 <= length (section_rows sec) <= 10)%nat)
       (build_wa_sections fmt_price m)
  /\ send_list_sections (build_wa_sections fmt_price m)
     = map (fun sec =>
              OutSection (default "Section" (sec_title sec))
                (map trim_row (section_rows sec)))
         (build_wa_sections fmt_price m)
  /\ (forall it : catalog_item,
        trim_row (catalog_row fmt_price it)
        = OutRow (PyStr.take 200 ("add_" +:+ PyStr.str_of_int (ct_id it)))
            (PyStr.take 24 (ct_name it +:+ " — KSh " +:+ fmt_price (ct_price it)))
            (match ct_desc it with
             | Some d => if String.eqb d "" then None else Some (PyStr.take 70 d)
             | None => None
             end))
  /\ (forall it : catalog_item,
        (24 <= String.length (ct_name it))%nat ->
        or_title (trim_row (catalog_row fmt_price it)) = PyStr.take 24 (ct_name it)).
Proof.
  destruct (build_sections_shape m) as [Hlen Hshape].
  split; [exact Hlen|]. split; [|split; [|split]].
  - eapply Forall_impl; [exact Hshape|].
    intros sec (title & rows & -> & _ & Hr & _). exact Hr.
  - unfold send_list_sections. rewrite take_all by exact Hlen. clear Hlen.
    induction Hshape as [|sec secs (title & rows & -> & Ht & Hr & _) _ IH];
      [reflexivity|].
    cbn [flat_map map]. rewrite IH.
    cbn [sec_rows sec_title default from_option id section_rows].
    rewrite take_all by lia. rewrite (str_take_all 24 title Ht).
    destruct rows as [|r rows]; [simpl in Hr; lia|]. reflexivity.
  - intros it. unfold trim_row, catalog_row.
    cbn [row_id row_title row_description default from_option id].
    f_equal. destruct (ct_desc it) as [d|]; cbn [default from_option id].
    + destruct (String.eqb_spec d "") as [->|Hd]; [reflexivity|].
      destruct (String.eqb_spec (PyStr.take 70 d) "") as [E|_].
      * by apply str_take_empty in E.
      * f_equal. apply str_take_take. lia.
    + reflexivity.
  - intros it Hn. unfold trim_row, catalog_row.
    cbn [row_title or_title default from_option id].
    by apply take_app_ge.
Qed.

Lemma chunk_rows_spec (chunk rows : list wa_row) :
  (length chunk < 10)%nat ->
  concat (map section_rows (chunk_rows chunk rows)) = chunk ++ rows
  /\ Forall (fun sec => (1 <= length (section_rows sec) <= 10)%nat)
       (chunk_rows chunk rows).
Proof.
  revert chunk. induction rows as [|r rows IH]; intros chunk Hc.
  - cbn [chunk_rows]. destruct chunk as [|c chunk].
    + split; [reflexivity | constructor].
    + cbn [map concat section_rows sec_rows default from_option id].
      rewrite !app_nil_r. split; [reflexivity|].
      constructor; [simpl in *; lia | constructor].
  - cbn [chunk_rows]. cbv zeta.
    destruct (Nat.eqb_spec (length (chunk ++ [r])) 10) as [E|E].
    + destruct (IH [] ltac:(simpl; lia)) as [IH1 IH2].
      cbn [map concat section_rows sec_rows default from_option id].
      rewrite IH1. rewrite <- app_assoc. split; [reflexivity|].
      constructor; [cbn [section_rows sec_rows default from_option id]; lia | exact IH2].
    + assert (Hc' : (length (chunk ++ [r]) < 10)%nat)
        by (rewrite length_app in *; simpl in *; lia).
      destruct (IH _ Hc') as [IH1 IH2].
      rewrite IH1, <- app_assoc. by split.
Qed.

(** X22.  [handle_edit_cart] groups the rows of the cart lines into
    sections of 1 to 10 rows without losing or reordering any: read in
    order, the rows of its sections are the rows of the cart lines. *)
Theorem edit_cart_sections_cover_cart (items : list cart_line) :
  concat (map section_rows (edit_cart_sections items)) = map edit_cart_row items
  /\ Forall (fun sec => (1 <= length (section_rows sec) <= 10)%nat)
       (edit_cart_sections items).
Proof. unfold edit_cart_sections. apply (chunk_rows_spec []). simpl. lia. Qed.

End SectionFacts.

(** ** Button presses and list selections *)

Section InteractiveFacts.

#[local] Arguments PyStr.take : simpl never.

Context {W : Type} (ub : UiBackend W).

Lemma um_bind_run {A B} (m : UM W A) (k : A -> UM W B) (s : ui_state W) :
  (m ≫= k) s
  = match m s with
    | (Ok a, s') => k a s'
    | (Raise e, s') => (Raise e, s')
    end.
Proof. reflexivity. Qed.

(** A lifted computation adds its calls to the interactive trace. *)
Lemma lift_log {A} (m : M W A) (s : ui_state W) (r : result A) (w : W)
    (evs : list event) :
  m (ui_bot s) = (r, log (ui_bot s) w evs) ->
  lift m s = (r, UiState (log (ui_bot s) w evs) (ui_trace s ++ map UiBase evs)).
Proof.
  intros E. unfold lift. rewrite (new_events_log _ _ _ _ _ E). by rewrite E.
Qed.

Lemma lift_send_text (wa_id text : string) (s : ui_state W) :
  lift (send_text wa_id text) s
  = (Ok tt, UiState (log (ui_bot s) (st_world (ui_bot s)) [EvSendText wa_id text])
              (ui_trace s ++ [UiBase (EvSendText wa_id text)])).
Proof. by apply lift_log. Qed.

Lemma ui_new_events_app {A} (m : UM W A) (s : ui_state W) (r : result A)
    (b : bot_state W) (evs : list ui_event) :
  m s = (r, UiState b (ui_trace s ++ evs)) -> ui_new_events m s = evs.
Proof. intros E. unfold ui_new_events. rewrite E. simpl. by rewrite drop_app_length. Qed.

(** X23.  A tap on a row of the menu list does nothing: for every row of
    every section that [build_wa_sections] makes, [_handle_list_selection]
    returns without a call or a message, so no item is added. *)
Theorem menu_row_tap_ignored (m : list catalog_category) (wa_id name : string)
    (s : ui_state W) :
  Forall (fun sec =>
            Forall (fun r =>
                      _handle_list_selection wa_id name (row_id r) s = (Ok tt, s))
                   (section_rows sec))
         (build_wa_sections (ub_fmt_price ub) m).
Proof.
  destruct (build_sections_shape (ub_fmt_price ub) m) as [_ H].
  eapply Forall_impl; [exact H|].
  intros sec (title & rows & -> & _ & _ & Hrows).
  cbn [section_rows sec_rows default from_option id].
  eapply Forall_impl; [exact Hrows|].
  intros r (it & ->). reflexivity.
Qed.

(** The run of [handle_edit_pick] on a token for a usable item. *)
Lemma handle_edit_pick_run (wa_id : string) (i : Z) (variant_id : option Z) (arg : Z)
    (s : ui_state W) :
  i <> 0 ->
  exists b,
    handle_edit_pick wa_id (_cmd "EDIT_PICK" (Some i) variant_id (PInt arg)) s
    = (Ok true,
       UiState b
         (ui_trace s
          ++ [ UiSendQuickReplies wa_id "Adjust quantity:"
                 (edit_pick_buttons i (Some (default 0 variant_id))).1;
               UiBase EvSleep;
               UiSendQuickReplies wa_id "Other actions:"
                 (edit_pick_buttons i (Some (default 0 variant_id))).2 ])).
Proof.
  intros Hi. unfold handle_edit_pick. cbv zeta.
  rewrite cmd_decodes by reflexivity.
  cbn [pc_ok pc_action pc_item_id pc_variant_id andb negb default from_option id opt_int].
  rewrite bool_decide_true by reflexivity. cbn [negb].
  rewrite !safe_int_of_int. cbn [int_or].
  apply Z.eqb_neq in Hi. rewrite Hi.
  eexists. unfold send_quick_replies, ui_emit, sleep, lift, emit, new_events.
  unfold mbind, UM_bind, um_bind, um_ret. cbn [ui_bot ui_trace st_trace snd fst].
  rewrite drop_app_length. cbn [map]. rewrite <- !app_assoc. reflexivity.
Qed.

(** X24.  The row that [handle_edit_cart] builds for a cart line with a
    usable item id is understood by [handle_edit_pick]: a tap on it brings
    up the two button groups for exactly that item and variant. *)
Theorem edit_cart_row_opens_item (wa_id name : string) (it : cart_line) (i : Z)
    (s : ui_state W) :
  line_item_id it = Some i -> i <> 0 ->
  exists b,
    _handle_list_selection wa_id name (row_id (edit_cart_row it)) s
    = (Ok tt,
       UiState b
         (ui_trace s
          ++ [ UiSendQuickReplies wa_id "Adjust quantity:"
                 (edit_pick_buttons i (line_variant_id it)).1;
               UiBase EvSleep;
               UiSendQuickReplies wa_id "Other actions:"
                 (edit_pick_buttons i (line_variant_id it)).2 ])).
Proof.
  intros Hid Hi. unfold _handle_list_selection, edit_cart_row. cbv zeta.
  cbn [row_id default from_option id]. rewrite Hid.
  change (PyStr.startswith (_cmd "EDIT_PICK" (Some i) (line_variant_id it) (PInt 0))
            "CART|EDIT_PICK|") with true. cbv iota.
  rewrite um_bind_run.
  destruct (handle_edit_pick_run wa_id i (line_variant_id it) 0 s Hi) as (b & ->).
  exists b. unfold line_variant_id. rewrite int_or_zero_default. reflexivity.
Qed.

(** A CART token with another action than VAR_CHOOSE reaches the call of
    the undefined [handle_edit_postback]. *)
Lemma cart_button_name_error (wa_id name action : string) (item_id variant_id : option Z)
    (arg : Z) (s : ui_state W) :
  PyStr.count_char "|" action = O -> action <> "VAR_CHOOSE" ->
  _handle_button ub wa_id name (Some (_cmd action item_id variant_id (PInt arg))) s
  = (Raise (Exn "NameError"), s).
Proof.
  intros Hact Hne. unfold _handle_button.
  change (_cmd action item_id variant_id (PInt arg))
    with (String "C" (String "A" (String "R" (String "T" (String "|"
            (action +:+ "|" +:+ PyStr.str_of_int (default 0 item_id) +:+ "|"
               +:+ PyStr.str_of_int (default 0 variant_id) +:+ "|"
               +:+ py_str (PInt arg))))))).
  cbv iota.
  change (String "C" (String "A" (String "R" (String "T" (String "|"
            (action +:+ "|" +:+ PyStr.str_of_int (default 0 item_id) +:+ "|"
               +:+ PyStr.str_of_int (default 0 variant_id) +:+ "|"
               +:+ py_str (PInt arg)))))))
    with (_cmd action item_id variant_id (PInt arg)).
  change (PyStr.startswith (_cmd action item_id variant_id (PInt arg)) "CART|") with true.
  cbv iota. unfold handle_variant_choose. cbv zeta.
  rewrite cmd_decodes by exact Hact. cbn [pc_ok pc_action andb].
  rewrite bool_decide_false by congruence. reflexivity.
Qed.

(** X25.  Every button of the edit menu other than a variant choice (DEC,
    INC, RM, VAR, NOTE, BACK, or any other action) fails: in a freshly
    delivered button press the undefined [handle_edit_postback] is called,
    the customer gets the apology and nothing else, no cart call is made,
    and the rest of the delivery is not processed. *)
Theorem edit_buttons_end_in_apology (now : Z) (customer_name action : string)
    (item_id variant_id : option Z) (arg : Z) (msg : inbound_message)
    (rest : list inbound_message) (s : ui_state W) :
  PyStr.count_char "|" action = O -> action <> "VAR_CHOOSE" ->
  im_kind msg = KButton (Some (_cmd action item_id variant_id (PInt arg))) ->
  im_from msg <> EmptyString ->
  st_seen (ui_bot s) !! dedupe_key "message" (im_from msg) (im_id msg) (im_hash msg)
    = None ->
  (ui_inbound ub now customer_name (msg :: rest) s).1 = Ok ("ok", 200)
  /\ ui_new_events (ui_inbound ub now customer_name (msg :: rest)) s
     = [UiBase (EvSendText (im_from msg) APOLOGY_TEXT)].
Proof.
  intros Hact Hne Hkind Hfrom Hfresh.
  assert (Hrun : exists b,
    ui_inbound ub now customer_name (msg :: rest) s
    = (Ok ("ok", 200),
       UiState b (ui_trace s ++ [UiBase (EvSendText (im_from msg) APOLOGY_TEXT)]))).
  { unfold ui_inbound. rewrite um_bind_run. cbn [ui_inbound_loop].
    rewrite um_bind_run. unfold um_try at 1. rewrite um_bind_run.
    unfold ui_process_message. rewrite um_bind_run.
    destruct (claim_fresh _DEDUP_TTL "message" (im_from msg) (im_id msg) (im_hash msg)
                now (st_seen (ui_bot s)) Hfresh) as (seen' & Hclaim & _).
    assert (Hl : lift (claim_message now
                         (TextMessage (im_from msg) (im_id msg) (im_hash msg) EmptyString)) s
                 = (Ok true,
                    UiState (BotState (st_world (ui_bot s)) (st_trace (ui_bot s))
                               (<[dedupe_key "message" (im_from msg) (im_id msg)
                                    (im_hash msg) := now + _DEDUP_TTL]> seen')
                               (st_user_states (ui_bot s)))
                      (ui_trace s ++ []))).
    { unfold lift, new_events, claim_message, _claim_once.
      cbn [msg_from msg_id msg_hash]. rewrite Hclaim. cbn [snd st_trace].
      by rewrite drop_all. }
    rewrite Hl. cbn [negb]. rewrite Hkind.
    rewrite cart_button_name_error by assumption.
    rewrite um_bind_run. unfold on_crash.
    apply String.eqb_neq in Hfrom. rewrite Hfrom.
    rewrite lift_send_text. cbn [ui_bot ui_trace]. rewrite app_nil_r.
    eexists. reflexivity. }
  destruct Hrun as (b & Hrun). split; [by rewrite Hrun|].
  by eapply ui_new_events_app.
Qed.

End InteractiveFacts.

Section InteractiveRuns.

#[local] Arguments PyStr.take : simpl never.

Context {W : Type} (ub : UiBackend W).

(** The run of [handle_variant_choose] on a VAR_CHOOSE token when the
    backend accepts the change. *)
Lemma handle_variant_choose_run (wa_id : string) (item_id old_variant_id : option Z)
    (new_variant_id : Z) (w' : W) (s : ui_state W) :
  ub_change_variant ub wa_id (Some (default 0 item_id)) (Some (default 0 old_variant_id))
    new_variant_id (st_world (ui_bot s)) = (Ok tt, w') ->
  exists (summary : string) (b : bot_state W),
    handle_variant_choose ub wa_id
      (_cmd "VAR_CHOOSE" item_id old_variant_id (PInt new_variant_id)) s
    = (Ok true,
       UiState b
         (ui_trace s
          ++ [ UiChangeVariant wa_id (Some (default 0 item_id))
                 (Some (default 0 old_variant_id)) new_variant_id;
               UiBase (EvGetCart wa_id);
               UiBase (EvSendText wa_id summary) ])).
Proof.
  intros Hub. unfold handle_variant_choose. cbv zeta.
  rewrite cmd_decodes by reflexivity.
  cbn [pc_ok pc_action pc_item_id pc_variant_id pc_arg andb py_int ui_lift_result].
  rewrite bool_decide_true by reflexivity. cbn [negb].
  rewrite um_bind_run. unfold um_ret at 1. rewrite um_bind_run.
  unfold update_cart_variant. rewrite um_bind_run.
  unfold ui_emit at 1, ui_ask at 1. cbn [ui_bot ui_trace]. rewrite Hub.
  rewrite um_bind_run.
  match goal with |- context [lift (_send_cart ?be wa_id ?p) ?s0] =>
    destruct (send_cart_run be wa_id p (ui_bot s0)) as (summary & w2 & _ & Hc);
    rewrite (lift_log _ s0 _ _ _ Hc)
  end.
  exists summary. eexists. cbn [ui_trace map]. rewrite <- app_assoc. reflexivity.
Qed.

(** X26.  A button of the variant picker does what it shows: for a variant
    with a non-zero id the picker builds a button whose press, when the
    backend accepts it, changes the item from its current variant (0 when
    it has none) to that variant and then sends the cart summary. *)
Theorem picker_button_changes_variant (wa_id : string) (item_id : Z)
    (current_variant_id : option Z) (v : variant) (w' : W) (s : ui_state W) :
  v_id v <> 0 ->
  ub_change_variant ub wa_id (Some item_id) (Some (default 0 current_variant_id))
    (v_id v) (st_world (ui_bot s)) = (Ok tt, w') ->
  exists (btn : button) (summary : string) (b : bot_state W),
    variant_button item_id current_variant_id v = Ok btn
    /\ handle_variant_choose ub wa_id (button_token btn) s
       = (Ok true,
          UiState b
            (ui_trace s
             ++ [ UiChangeVariant wa_id (Some item_id)
                    (Some (default 0 current_variant_id)) (v_id v);
                  UiBase (EvGetCart wa_id);
                  UiBase (EvSendText wa_id summary) ])).
Proof.
  intros Hv Hub. unfold variant_button. cbn [int_or].
  apply Z.eqb_neq in Hv. rewrite Hv. rewrite int_or_zero_default.
  destruct (handle_variant_choose_run wa_id (Some item_id)
              (Some (default 0 current_variant_id)) (v_id v) w' s Hub)
    as (summary & b & Hrun).
  eexists _, summary, b. split; [reflexivity|]. exact Hrun.
Qed.

(** X27.  A pressed button whose id is not a CART token and, lowercased, is
    none of the eight ids the handler knows is answered with "Okay!" and
    nothing else.  The "View Cart" button that the checkout prompt itself
    offers is such a button: its id is its title, with a space where the
    handler expects an underscore. *)
Theorem unknown_button_gets_okay (wa_id name btn : string) (s : ui_state W) :
  btn <> EmptyString ->
  PyStr.startswith btn "CART|" = false ->
  existsb (String.eqb (PyStr.lower btn)) known_button_ids = false ->
  _handle_button ub wa_id name (Some btn) s
  = (Ok tt,
     UiState (log (ui_bot s) (st_world (ui_bot s)) [EvSendText wa_id "Okay!"])
       (ui_trace s ++ [UiBase (EvSendText wa_id "Okay!")])).
Proof.
  intros Hne Hstart Hknown. destruct btn as [|c btn]; [done|].
  unfold _handle_button. rewrite Hstart. rewrite um_bind_run.
  unfold um_ret at 1. cbv iota.
  unfold known_button_ids in Hknown. cbn [existsb] in Hknown.
  repeat (apply orb_false_iff in Hknown as [? Hknown]).
  repeat match goal with
         | H : String.eqb (PyStr.lower (String c btn)) _ = false |- _ => rewrite H; clear H
         end.
  cbn [orb]. apply lift_send_text.
Qed.

Lemma ui_inbound_loop_returns (now : Z) (customer_name : string)
    (msgs : list inbound_message) (s : ui_state W) :
  exists s', ui_inbound_loop ub now customer_name msgs s = (Ok tt, s').
Proof.
  revert s. induction msgs as [|msg rest IH]; intros s; [by eexists|].
  cbn [ui_inbound_loop]. rewrite um_bind_run. unfold um_try at 1. rewrite um_bind_run.
  destruct (ui_process_message ub now customer_name msg s) as [[[]|e] s1].
  - apply IH.
  - rewrite um_bind_run. unfold on_crash.
    destruct (String.eqb (im_from msg) ""); [by eexists|].
    rewrite lift_send_text. by eexists.
Qed.

(** X28.  The webhook always acknowledges: whatever the messages of a
    delivery are (texts, button presses, list selections, anything else)
    and whatever the backend does, [inbound] returns ("ok", 200). *)
Theorem inbound_always_acknowledges (now : Z) (customer_name : string)
    (msgs : list inbound_message) (s : ui_state W) :
  (ui_inbound ub now customer_name msgs s).1 = Ok ("ok", 200).
Proof.
  unfold ui_inbound. rewrite um_bind_run.
  by destruct (ui_inbound_loop_returns now customer_name msgs s) as (s' & ->).
Qed.

End InteractiveRuns.

Lemma edit_cart_row_opens_item_witness :
  let line := CartLine (Some 7) None (Some 3) (Some "Burger") (Some 2) (Some 500) in
  line_item_id line = Some 7
  /\ exists b,
       _handle_list_selection "2547" "Asha K" (row_id (edit_cart_row line)) ui_empty_state
       = (Ok tt,
          UiState b
            (ui_trace ui_empty_state
             ++ [ UiSendQuickReplies "2547" "Adjust quantity:"
                    (edit_pick_buttons 7 (line_variant_id line)).1;
                  UiBase EvSleep;
                  UiSendQuickReplies "2547" "Other actions:"
                    (edit_pick_buttons 7 (line_variant_id line)).2 ])).
Proof.
  split; [reflexivity|].
  apply (edit_cart_row_opens_item "2547" "Asha K"
           (CartLine (Some 7) None (Some 3) (Some "Burger") (Some 2) (Some 500)) 7
           ui_empty_state).
  - reflexivity.
  - lia.
Defined.

Lemma edit_buttons_end_in_apology_witness :
  let msg := InboundMessage "2547" (Some "wamid.9") 0
               (KButton (Some (_cmd "INC" (Some 7) (Some 3) (PInt 1)))) in
  st_seen (ui_bot ui_empty_state) !! dedupe_key "message" "2547" (Some "wamid.9") 0 = None
  /\ (ui_inbound demo_ui_backend 0 "Asha K" [msg] ui_empty_state).1 = Ok ("ok", 200)
  /\ ui_new_events (ui_inbound demo_ui_backend 0 "Asha K" [msg]) ui_empty_state
     = [UiBase (EvSendText "2547" APOLOGY_TEXT)].
Proof.
  split; [reflexivity|].
  apply (edit_buttons_end_in_apology demo_ui_backend 0 "Asha K" "INC" (Some 7) (Some 3) 1
           (InboundMessage "2547" (Some "wamid.9") 0
              (KButton (Some (_cmd "INC" (Some 7) (Some 3) (PInt 1)))))
           [] ui_empty_state).
  - reflexivity.
  - discriminate.
  - reflexivity.
  - discriminate.
  - reflexivity.
Defined.

Lemma picker_button_changes_variant_witness :
  exists (btn : button) (summary : string) (b : bot_state unit),
    variant_button 7 (Some 3) (Variant 12 "Large") = Ok btn
    /\ handle_variant_choose demo_ui_backend "2547" (button_token btn) ui_empty_state
       = (Ok true,
          UiState b
            (ui_trace ui_empty_state
             ++ [ UiChangeVariant "2547" (Some 7) (Some (default 0 (Some 3))) 12;
                  UiBase (EvGetCart "2547");
                  UiBase (EvSendText "2547" summary) ])).
Proof.
  apply (picker_button_changes_variant demo_ui_backend "2547" 7 (Some 3)
           (Variant 12 "Large") tt ui_empty_state).
  - simpl. lia.
  - reflexivity.
Defined.

Lemma unknown_button_gets_okay_witness :
  let offered := [BtnText "Pickup"; BtnText "Delivery"; BtnText "View Cart"] in
  let pressed := rb_id (norm_button (BtnText "View Cart")) in
  ui_new_events (_handle_button demo_ui_backend "2547" "Asha K" (Some "checkout"))
    ui_empty_state
  = [UiSendQuickReplies "2547" "Pickup or Delivery?" offered]
  /\ _handle_button demo_ui_backend "2547" "Asha K" (Some pressed) ui_empty_state
     = (Ok tt,
        UiState (log empty_state tt [EvSendText "2547" "Okay!"])
          (ui_trace ui_empty_state ++ [UiBase (EvSendText "2547" "Okay!")])).
Proof.
  split; [reflexivity|].
  apply (unknown_button_gets_okay demo_ui_backend "2547" "Asha K" "View Cart"
           ui_empty_state).
  - discriminate.
  - reflexivity.
  - reflexivity.
Defined.

(** ** Menu links and the recommendation reply *)

Section ReplyFacts.

Context {W : Type} (be : Backend W).

Lemma map_result_ok {A B} (f : A -> result B) (l : list A) (ys : list B) :
  map_result f l = Ok ys -> Forall2 (fun x y => f x = Ok y) l ys.
Proof.
  revert ys. induction l as [|x l IH]; intros ys H; cbn [map_result] in H.
  - injection H as <-. constructor.
  - destruct (f x) as [y|e] eqn:Ex; cbn [r_bind] in H; [|discriminate].
    destruct (map_result f l) as [ys'|e] eqn:El; cbn [r_bind] in H; [|discriminate].
    injection H as <-. constructor; [exact Ex | by apply IH].
Qed.

Lemma map_result_raise {A B} (f : A -> result B) (l : list A) (e : exn) :
  map_result f l = Raise e -> Exists (fun x => f x = Raise e) l.
Proof.
  induction l as [|x l IH]; intros H; cbn [map_result] in H; [discriminate|].
  destruct (f x) as [y|e'] eqn:Ex; cbn [r_bind] in H.
  - destruct (map_result f l) as [ys'|e'] eqn:El; cbn [r_bind] in H; [discriminate|].
    apply Exists_cons_tl, IH. congruence.
  - apply Exists_cons_hd. congruence.
Qed.

(** X29.  [_menu_pdf_urls] never raises, and it is all or nothing.  When
    the request fails it answers with the empty list.  Otherwise it
    answers with one rewritten link for each link that starts with "http",
    in their order, unless [urlparse] raises on one of them (or on the
    public base): then every link is dropped and the answer is empty. *)
Theorem menu_pdf_urls_total (st : bot_state W) :
  exists urls : list string,
    _menu_pdf_urls be st
    = (Ok urls,
       log st (be_fetch_menu_pdf_urls be (st_world st)).2 [EvFetchMenuPdfUrls])
    /\ match (be_fetch_menu_pdf_urls be (st_world st)).1 with
       | Raise _ => urls = []
       | Ok links =>
           let http := List.filter (fun u => PyStr.startswith u "http") links in
           Forall2 (fun u r => public_url be None u = Ok r) http urls
           \/ (urls = []
               /\ Exists (fun u => exists e, public_url be None u = Raise e) http)
       end.
Proof.
  unfold _menu_pdf_urls, try_except, fetch_menu_pdf_urls, emit, ask, log.
  unfold mbind, M_bind, m_bind, m_ret. cbn [st_world st_trace st_seen st_user_states].
  destruct (be_fetch_menu_pdf_urls be (st_world st)) as [[links|e] w'] eqn:E;
    cbn [fst snd st_world st_trace st_seen st_user_states]; [|by exists []].
  destruct (map_result (public_url be None)
              (List.filter (fun u => PyStr.startswith u "http") links))
    as [urls|e] eqn:Em; cbn [lift_result m_ret m_raise].
  - exists urls. split; [reflexivity|]. left. by apply map_result_ok.
  - exists []. split; [reflexivity|]. right. split; [reflexivity|].
    apply map_result_raise in Em.
    eapply Exists_impl; [exact Em|]. cbn beta. eauto.
Qed.

Lemma map_result_map {A B C} (g : A -> B) (f : B -> result C) (h : A -> C)
    (l : list A) :
  (forall x, f (g x) = Ok (h x)) -> map_result f (map g l) = Ok (map h l).
Proof.
  intros H. induction l as [|x l IH]; [reflexivity|].
  cbn [map map_result]. rewrite H, IH. reflexivity.
Qed.




End ReplyFacts.

Lemma quick_replies_within_limits_witness :
  let buttons := [BtnText "Pickup"; BtnText "Delivery"; BtnText "View Cart";
                  BtnText "Help"] in
  In (BtnText "View Cart") (take 3 buttons)
  /\ In (ReplyButton (PyStr.take 256 "View Cart") (PyStr.take 20 "View Cart"))
       (quick_replies_payload "Pickup or Delivery?" buttons).2.
Proof.
  assert (H : In (BtnText "View Cart")
                (take 3 [BtnText "Pickup"; BtnText "Delivery"; BtnText "View Cart";
                         BtnText "Help"])) by (simpl; auto).
  split; [exact H|].
  apply (quick_replies_within_limits "Pickup or Delivery?"
           [BtnText "Pickup"; BtnText "Delivery"; BtnText "View Cart"; BtnText "Help"]).
  exact H.
Defined.

Lemma menu_sections_fit_send_list_witness :
  let it := CatalogItem 1 "Slow-cooked beef short rib" 1450 None in
  (24 <= String.length (ct_name it))%nat
  /\ or_title (trim_row (catalog_row PyStr.str_of_int it)) = PyStr.take 24 (ct_name it).
Proof.
  assert (H : (24 <= String.length
                       (ct_name (CatalogItem 1 "Slow-cooked beef short rib" 1450 None)))%nat)
    by (vm_compute; lia).
  split; [exact H|].
  destruct (menu_sections_fit_send_list PyStr.str_of_int []) as (_ & _ & _ & _ & Hcut).
  exact (Hcut _ H).
Defined.

(** One link that [urlparse] rejects empties the answer of
    [_menu_pdf_urls]; without it the other link is kept, with the
    restaurant id added. *)
Example menu_pdf_urls_one_bad_link :
  (_menu_pdf_urls
     (with_menu (Ok JNull) (Ok ["https://cdn.example/menu.pdf"; "http://["])
        clarifying_backend) empty_state).1 = Ok []
  /\ (_menu_pdf_urls
        (with_menu (Ok JNull) (Ok ["https://cdn.example/menu.pdf"; "ftp://x"])
           clarifying_backend) empty_state).1
     = Ok ["https://cdn.example/menu.pdf?restaurant_id=1"].
Proof. split; reflexivity. Qed.

(** An item with a [null] price: [int] raises and nothing is sent. *)
Example recommendations_null_price :
  _send_recommendations (with_menu (Ok null_price_menu) (Ok []) clarifying_backend)
    "2547" "what's good?" "RECOMMEND popular" empty_state
  = (Raise (Exn "TypeError"), log empty_state tt [EvFetchMenu]).
Proof. reflexivity. Qed.

(** ** The typed sections and the sections of the payload agree *)

Section CatalogAgreement.

Variable repr : json -> string.
Variable fmt_price : json -> string.

Ltac json_eval :=
  cbn [json_get json_item json_lookup List.find fst snd String.eqb Ascii.eqb
       Bool.eqb fmap option_fmap option_map default from_option id r_bind json_iter
       json_int json_str json_or json_truthy json_slice opt_field app negb].

Lemma catalog_row_json (it : catalog_item) :
  Catalog.row repr fmt_price (catalog_item_json it)
  = Ok (wa_row_json (catalog_row (fun z => fmt_price (JNum z)) it)).
Proof.
  unfold Catalog.row, catalog_item_json, catalog_row, wa_row_json.
  destruct (ct_desc it) as [d|]; json_eval.
  - unfold json_or. cbn [json_truthy].
    destruct (String.eqb d "") eqn:E; json_eval; [|reflexivity].
    apply String.eqb_eq in E. subst d. reflexivity.
  - reflexivity.
Qed.

Lemma catalog_section_json (c : catalog_category) :
  Catalog.section repr fmt_price (catalog_category_json c)
  = Ok (map wa_section_json
          match map (catalog_row (fun z => fmt_price (JNum z))) (cg_items c) with
          | [] => []
          | rows =>
              [WaSection (Some (PyStr.take 24 (default "Menu" (cg_name c))))
                 (Some (take 10 rows))]
          end).
Proof.
  unfold Catalog.section, catalog_category_json.
  assert (Hitems :
    json_get (JObj (opt_field "name" (JStr <$> cg_name c)
                    ++ [("items", JArr (map catalog_item_json (cg_items c)))]))
      "items" (JArr [])
    = Ok (JArr (map catalog_item_json (cg_items c))))
    by (destruct (cg_name c); reflexivity).
  rewrite Hitems. json_eval.
  rewrite (map_result_map catalog_item_json _
             (fun it => wa_row_json (catalog_row (fun z => fmt_price (JNum z)) it)))
    by apply catalog_row_json.
  json_eval.
  destruct (cg_items c) as [|it its]; [reflexivity|].
  cbn [map]. unfold wa_section_json.
  cbn [sec_title sec_rows fmap option_fmap option_map opt_field app].
  destruct (cg_name c) as [n|]; json_eval;
    rewrite <- firstn_map; cbn [map]; by rewrite map_map.
Qed.

(** On a payload of the documented shape [build_wa_sections] does not
    raise, and its sections are those of the typed menu. *)
Lemma build_wa_sections_of_catalog_json (m : list catalog_category) :
  Catalog.build_wa_sections repr fmt_price (catalog_json m)
  = Ok (map wa_section_json (build_wa_sections (fun z => fmt_price (JNum z)) m)).
Proof.
  unfold Catalog.build_wa_sections, catalog_json, build_wa_sections. json_eval.
  rewrite (map_result_map catalog_category_json _
             (fun c =>
                map wa_section_json
                  match map (catalog_row (fun z => fmt_price (JNum z))) (cg_items c) with
                  | [] => []
                  | rows =>
                      [WaSection (Some (PyStr.take 24 (default "Menu" (cg_name c))))
                         (Some (take 10 rows))]
                  end))
    by apply catalog_section_json.
  json_eval. f_equal. rewrite <- firstn_map. f_equal.
  induction m as [|c m IH]; [reflexivity|].
  cbn [map concat flat_map]. rewrite IH. by rewrite map_app.
Qed.

End CatalogAgreement.
